(** * Video chat backend and client: a shallow embedding

    The development follows the repository's three JavaScript units:

    - [VideoController]: the controller behind [/api/video/upload],
      [/api/video/analyze] and [/api/video/chat] (inline-bytes protocol);
    - [AiController]: [backend/src/controllers/aiController.js], the
      controller behind [/analyze] and [/chat] of [aiRoutes.js]
      (remote upload, polling, generate, cleanup);
    - [Client]: the two handlers of [client/src/App.jsx] that talk to the
      server, [handleVideoUpload] and [handleSendMessage].

    Handlers are written in a state-and-exception monad.  The state of a
    server handler is the chronological trace of its observable effects
    (provider calls, timers, console output, disk writes); everything the
    handler reads from outside (environment, disk, clock, provider
    answers) comes from a [World] record.  A path on the disk names a
    file that can be read, something that cannot (a directory), or
    nothing; a chat request may carry a video URI that is not a string
    and a history that is not an array of messages. *)

From Stdlib Require Import ZArith NArith QArith Lia Ascii String.
From stdpp Require Import base strings list gmap pretty.

Open Scope string_scope.
Open Scope list_scope.

(** ** JavaScript preliminaries *)

Module JS.

(** Completion of a JavaScript computation: a value, or a thrown
    [Error] carrying its [message]. *)
Inductive Completion (A : Type) : Type :=
| Normal (a : A)
| Throw (message : string).
Arguments Normal {A} a.
Arguments Throw {A} message.

(** State-and-exception monad; the state survives a throw. *)
Definition Eff (S A : Type) : Type := S -> Completion A * S.

Definition ret {S A} (a : A) : Eff S A := fun s => (Normal a, s).

Definition bind {S A B} (m : Eff S A) (k : A -> Eff S B) : Eff S B :=
  fun s =>
    match m s with
    | (Normal a, s') => k a s'
    | (Throw msg, s') => (Throw msg, s')
    end.

Definition throw {S A} (msg : string) : Eff S A := fun s => (Throw msg, s).

(** [try { body } catch (error) { handler(error.message) }] *)
Definition try_catch {S A} (body : Eff S A) (handler : string -> Eff S A)
  : Eff S A :=
  fun s =>
    match body s with
    | (Normal a, s') => (Normal a, s')
    | (Throw msg, s') => handler msg s'
    end.

(** [try { body } finally { cleanup }], for a cleanup that cannot throw. *)
Definition try_finally {S A} (body : Eff S A) (cleanup : S -> S) : Eff S A :=
  fun s => let '(c, s') := body s in (c, cleanup s').

(** [await p] for a promise whose settlement is already known. *)
Definition await {S A} (c : Completion A) : Eff S A := fun s => (c, s).

Definition modify {S} (f : S -> S) : Eff S unit := fun s => (Normal tt, f s).

Definition gets {S A} (f : S -> A) : Eff S A := fun s => (Normal (f s), s).

(** Truthiness of a string-valued property that may be absent:
    [undefined] and [''] are falsy. *)
Definition truthy (v : option string) : bool :=
  match v with
  | Some s => negb (String.eqb s "")
  | None => false
  end.

(** [a || b] on strings. *)
Definition or_else (a b : string) : string :=
  if String.eqb a "" then b else a.

(** [Array.prototype.slice(start)] with a single argument. *)
Definition slice {A} (start : Z) (l : list A) : list A :=
  let len := Z.of_nat (length l) in
  let k := if (start <? 0)%Z then Z.max (len + start) 0 else Z.min start len in
  drop (Z.to_nat k) l.

(** The line feed of a template literal that spans lines. *)
Definition nl : string := String "010"%char "".

(** [Array.prototype.join(sep)] on strings. *)
Fixpoint join (sep : string) (l : list string) : string :=
  match l with
  | [] => ""
  | [x] => x
  | x :: rest => x +:+ sep +:+ join sep rest
  end.

(** No dash among the characters of [s]. *)
Fixpoint dash_free (s : string) : bool :=
  match s with
  | EmptyString => true
  | String c rest => negb (Ascii.eqb c "-"%char) && dash_free rest
  end.

(** [String.prototype.startsWith]. *)
Definition startsWith (pre s : string) : bool := String.prefix pre s.

(** JSON values as the handlers build them and the client reads them. *)
#[warnings="-register-all"]
Inductive JSON : Type :=
| JUndefined
| JNull
| JBool (b : bool)
| JNum (n : Z)
| JStr (s : string)
| JArr (items : list JSON)
| JObj (fields : list (string * JSON)).

Fixpoint assoc (key : string) (fields : list (string * JSON)) : JSON :=
  match fields with
  | [] => JUndefined
  | (k, v) :: rest => if String.eqb k key then v else assoc key rest
  end.

(** Truthiness of a JSON value. *)
Definition json_truthy (v : JSON) : bool :=
  match v with
  | JUndefined | JNull => false
  | JBool b => b
  | JNum n => negb (n =? 0)%Z
  | JStr s => negb (String.eqb s "")
  | JArr _ | JObj _ => true
  end.

(** An HTTP response as [res.status(code).json(body)] sends it. *)
Record HttpResponse : Type := mkResponse { status : Z; body : JSON }.

(** [response.ok] of the Fetch API. *)
Definition ok (r : HttpResponse) : bool :=
  ((200 <=? status r) && (status r <=? 299))%Z.

End JS.

Import JS.

#[export] Instance Completion_fmap : FMap Completion := fun A B f c =>
  match c with
  | Normal a => Normal (f a)
  | Throw message => Throw message
  end.

#[export] Instance Eff_ret {S} : MRet (Eff S) := fun A => @ret S A.
#[export] Instance Eff_bind {S} : MBind (Eff S) := fun A B k m => @bind S A B m k.

(** ** Data shared by the server and the client *)

(** An entry of the chat log ([App.jsx] builds them, the chat endpoints
    read [sender] and [text]). *)
Record ChatMessage : Type := mkMessage {
  text : string;
  sender : string;
  timestamp : string
}.

(** JSON body of a chat request as the client builds it, with every
    field either chat handler destructures; an absent field is [None].
    Present fields hold strings (and a list of messages).  The handlers
    take the [ChatRequest] below, which such a body is read as. *)
Record ChatBody : Type := mkChatBody {
  chat_filename : option string;
  chat_videoUri : option string;
  chat_question : option string;
  chat_chatHistory : option (list ChatMessage)
}.

(** A history entry as the controllers re-label it. *)
Record HistoryEntry : Type := mkEntry { role : string; parts : string }.

(** What JSON can hold in place of the chat history when it is not an
    array. *)
Inductive NotArray : Type :=
| NUndefined
| NNull
| NBool (b : bool)
| NNum (n : Z)
| NStr (s : string)
| NObj (fields : list (string * JSON)).

Definition not_array_truthy (v : NotArray) : bool :=
  match v with
  | NUndefined | NNull => false
  | NBool b => b
  | NNum n => negb (n =? 0)%Z
  | NStr s => negb (String.eqb s "")
  | NObj _ => true
  end.

(** The [chatHistory] of a request as the server may receive it: an array
    whose items are message objects or [null] ([None]), or a value that is
    not an array. *)
Inductive History : Type :=
| Items (items : list (option ChatMessage))
| Other (v : NotArray).

(** The items of an array when none of them is [null]. *)
Fixpoint messages_of (items : list (option ChatMessage)) : option (list ChatMessage) :=
  match items with
  | [] => Some []
  | Some m :: rest => cons m <$> messages_of rest
  | None :: _ => None
  end.

(** [req.body] of a chat request as a handler may receive it: the file
    name and the question are strings or absent, the video URI is any
    JSON value, the history any array of messages and [null]s or any value
    that is not an array. *)
Record ChatRequest : Type := mkChatRequest {
  req_filename : option string;
  req_videoUri : JSON;
  req_question : option string;
  req_chatHistory : History
}.

(** The request a well-typed body amounts to. *)
Definition request_of (body : ChatBody) : ChatRequest :=
  {| req_filename := chat_filename body;
     req_videoUri := match chat_videoUri body with
                     | Some uri => JStr uri
                     | None => JUndefined
                     end;
     req_question := chat_question body;
     req_chatHistory := match chat_chatHistory body with
                        | Some messages => Items (Some <$> messages)
                        | None => Other NUndefined
                        end |}.

Coercion request_of : ChatBody >-> ChatRequest.

(** ** Provider and runtime *)

(** A Node [Buffer]: the bytes of a file. *)
Abbreviation Buffer := (list Byte.byte).

Record RemoteFile : Type := mkRemoteFile {
  file_name : string;
  file_uri : string;
  file_mimeType : string;
  file_state : string
}.

Record UploadFileResponse : Type := { upload_file : option RemoteFile }.

Record GenerationConfig : Type := {
  temperature : Q;
  topK : Z;
  topP : Q;
  maxOutputTokens : Z
}.

(** Parts of a generate-content request. *)
Inductive Part : Type :=
| FileData (mimeType fileUri : string)
| InlineData (data mimeType : string)
| TextPart (t : string).

Record GenerateCall : Type := {
  call_apiKey : option string;
  call_model : string;
  call_config : GenerationConfig;
  call_parts : list Part
}.

(** What [generateContent] resolves to: maybe no object, maybe one
    without a [response], and [response.text()] may itself throw. *)
Record GenerateResult : Type := { response : option (Completion string) }.

Inductive Level : Type := LOG | WARN | ERROR.

(** Something at a path that is not a regular file the process can read:
    a directory, or a file without read permission.  [fs.statSync] gives
    it a size, [fs.readFileSync] throws (EISDIR, EACCES). *)
Record Unreadable : Type := {
  unreadable_size : N;
  read_error : string
}.

Inductive Event : Type :=
| EConsole (level : Level) (msg : string)
| EMkdir (dir : string)
| EWriteFile (path : string) (size : N)
| EUploadFile (mimeType displayName : string)
| EGetFile (name : string)
| ESleep (ms : Z)
| EGenerateContent (call : GenerateCall)
| EDeleteFile (name : string).

Abbreviation Trace := (list Event).

(** Everything a handler reads from outside.  The [path] and [Buffer]
    functions of Node are fields too: their code is not part of the
    repository. *)
Record World : Type := {
  (** [process.env] *)
  env : gmap string string;
  (** the disk: the regular files the process can read, by path; what
      else exists at a path (a directory, a file it may not read); and
      whether a directory exists *)
  files : gmap string Buffer;
  unreadable : gmap string Unreadable;
  dir_exists : string -> bool;
  (** outcome of streaming an upload to [path] *)
  disk_write : string -> Buffer -> Completion unit;
  (** [Date.now()], [Math.round(Math.random() * 1E9)] and the JSON
      rendering of [new Date()] *)
  Date_now : N;
  Math_random_1E9 : N;
  Date_json : string;
  (** [__dirname] of the controller module *)
  dirname : string;
  (** Node's [path.extname], [path.basename], [path.join],
      [String.prototype.toLowerCase] and [buffer.toString('base64')] *)
  path_extname : string -> string;
  path_basename : string -> string;
  path_join : list string -> string;
  toLowerCase : string -> string;
  toString_base64 : Buffer -> string;
  (** the message of the [TypeError] the engine raises when the named
      expression is called although it is not a function, or is read off
      [null] *)
  TypeError_message : string -> string;
  (** the provider: [fileManager.uploadFile], the [n]-th call of
      [fileManager.getFile] (counting from 0), [fileManager.deleteFile],
      [model.generateContent] *)
  fm_uploadFile : Buffer -> string -> string -> Completion (option UploadFileResponse);
  fm_getFile : nat -> string -> Completion RemoteFile;
  fm_deleteFile : string -> Completion unit;
  model_generateContent : GenerateCall -> Completion (option GenerateResult)
}.

Definition emit (e : Event) : Eff Trace unit := modify (fun tr => (tr ++ [e])%list).

Definition console (level : Level) (msg : string) : Eff Trace unit :=
  emit (EConsole level msg).

Definition is_getFile (e : Event) : bool :=
  match e with EGetFile _ => true | _ => false end.

Definition is_generateContent (e : Event) : bool :=
  match e with EGenerateContent _ => true | _ => false end.

(** Calls of [getFile] recorded in a trace. *)
Definition getFile_calls (tr : Trace) : nat := length (List.filter is_getFile tr).

(** The delays the handler slept, in order. *)
Definition sleeps (tr : Trace) : list Z :=
  omap (fun e => match e with ESleep ms => Some ms | _ => None end) tr.

(** The generate-content requests sent to the provider, in order. *)
Definition generate_calls (tr : Trace) : list GenerateCall :=
  omap (fun e => match e with EGenerateContent c => Some c | _ => None end) tr.

(** Media parts of a request with their declared mimetype. *)
Definition declared_mimeTypes (c : GenerateCall) : list string :=
  omap (fun p => match p with
                 | FileData m _ => Some m
                 | InlineData _ m => Some m
                 | TextPart _ => None
                 end) (call_parts c).

(** Names passed to [deleteFile], and what went to [console.error] and
    [console.warn]. *)
Definition deleted_names (tr : Trace) : list string :=
  omap (fun e => match e with EDeleteFile n => Some n | _ => None end) tr.

Definition errors (tr : Trace) : list string :=
  omap (fun e => match e with EConsole ERROR m => Some m | _ => None end) tr.

Definition warnings (tr : Trace) : list string :=
  omap (fun e => match e with EConsole WARN m => Some m | _ => None end) tr.

(** Files written to disk, uploads sent to the provider, and whether an
    event is console output. *)
Definition written_files (tr : Trace) : list (string * N) :=
  omap (fun e => match e with EWriteFile p n => Some (p, n) | _ => None end) tr.

Definition provider_uploads (tr : Trace) : list (string * string) :=
  omap (fun e => match e with EUploadFile m d => Some (m, d) | _ => None end) tr.

Definition is_console (e : Event) : bool :=
  match e with EConsole _ _ => true | _ => false end.

(** The [success] and [error] fields of a response body. *)
Definition success_flag (r : HttpResponse) : JSON :=
  match body r with
  | JObj fields => assoc "success" fields
  | _ => JUndefined
  end.

Definition error_text (r : HttpResponse) : option string :=
  match body r with
  | JObj fields => match assoc "error" fields with
                   | JStr s => Some s
                   | _ => None
                   end
  | _ => None
  end.

(** The same world with another outcome of [fileManager.deleteFile]. *)
Definition with_deleteFile (deleted : string -> Completion unit) (w : World) : World :=
  {| env := env w; files := files w; unreadable := unreadable w;
     dir_exists := dir_exists w;
     disk_write := disk_write w; Date_now := Date_now w;
     Math_random_1E9 := Math_random_1E9 w; Date_json := Date_json w;
     dirname := dirname w; path_extname := path_extname w;
     path_basename := path_basename w; path_join := path_join w;
     toLowerCase := toLowerCase w; toString_base64 := toString_base64 w;
     TypeError_message := TypeError_message w;
     fm_uploadFile := fm_uploadFile w; fm_getFile := fm_getFile w;
     fm_deleteFile := deleted;
     model_generateContent := model_generateContent w |}.

Definition getFile (w : World) (name : string) : Eff Trace RemoteFile :=
  n ← gets getFile_calls;
  emit (EGetFile name);;
  await (fm_getFile w n name).

Definition generateContent (w : World) (call : GenerateCall)
  : Eff Trace (option GenerateResult) :=
  emit (EGenerateContent call);;
  await (model_generateContent w call).

(** [fs.existsSync(path)] *)
Definition fs_existsSync (w : World) (path : string) : bool :=
  bool_decide (is_Some (files w !! path)) || bool_decide (is_Some (unreadable w !! path)).

(** [fs.statSync(path).size]; on a path for which [fs.existsSync]
    answers true it finds the same entry and does not throw. *)
Definition fs_statSync_size (w : World) (path : string) : Completion N :=
  match files w !! path, unreadable w !! path with
  | Some buffer, _ => Normal (N.of_nat (length buffer))
  | None, Some other => Normal (unreadable_size other)
  | None, None => Throw ("ENOENT: no such file or directory, stat '" +:+ path +:+ "'")
  end.

(** [fs.readFileSync(path)] *)
Definition fs_readFileSync (w : World) (path : string) : Completion Buffer :=
  match files w !! path, unreadable w !! path with
  | Some buffer, _ => Normal buffer
  | None, Some other => Throw (read_error other)
  | None, None => Throw ("ENOENT: no such file or directory, open '" +:+ path +:+ "'")
  end.

(** [res.status(code).json({ success: false, error })] *)
Definition failure (code : Z) (error : string) : HttpResponse :=
  mkResponse code (JObj [("success", JBool false); ("error", JStr error)]).

Definition uploadFile (w : World) (fileBuffer : Buffer) (mimeType displayName : string)
  : Eff Trace (option UploadFileResponse) :=
  emit (EUploadFile mimeType displayName);;
  await (fm_uploadFile w fileBuffer mimeType displayName).

Definition deleteFile (w : World) (name : string) : Eff Trace unit :=
  emit (EDeleteFile name);;
  await (fm_deleteFile w name).

(** [res.status(200).json({ success: true, <key>: <payload> })] *)
Definition success (key : string) (payload : list (string * JSON)) : HttpResponse :=
  mkResponse 200 (JObj [("success", JBool true); (key, JObj payload)]).

(** ** The video controller (upload, analyze, chat with inline bytes) *)

Module VideoController.

(** [const genAI = new GoogleGenerativeAI(process.env.GEMINI_API_KEY)]:
    built unconditionally from whatever the variable holds. *)
Definition genAI (w : World) : option string := env w !! "GEMINI_API_KEY".

(** The [video] field of a multipart upload request. *)
Record MultipartFile : Type := {
  originalname : string;
  mimetype : string;
  content : Buffer
}.

(** A multipart request with at most one file, in the field [video]. *)
Record UploadRequest : Type := { video : option MultipartFile }.

(** [req.file] once multer has stored the upload. *)
Record StoredFile : Type := {
  stored_filename : string;
  stored_path : string;
  stored_size : N;
  stored_mimetype : string
}.

Definition allowedTypes : list string :=
  ["video/mp4"; "video/webm"; "video/quicktime"].

(** [limits.fileSize] *)
Definition fileSize : N := 25 * 1024 * 1024.

Definition fileFilter (file : MultipartFile) : Completion bool :=
  if bool_decide (mimetype file ∈ allowedTypes) then Normal true
  else Throw "Only MP4, WebM and MOV video files are allowed".

(** [storage.destination] *)
Definition destination (w : World) : Eff Trace string :=
  let uploadsDir := path_join w [dirname w; "../../uploads"] in
  (if negb (dir_exists w uploadsDir) then emit (EMkdir uploadsDir) else mret tt);;
  mret uploadsDir.

(** [storage.filename] *)
Definition filename (w : World) (file : MultipartFile) : string :=
  let uniqueName := pretty (Date_now w) +:+ "-" +:+ pretty (Math_random_1E9 w) in
  uniqueName +:+ path_extname w (originalname file).

(** [upload = multer({ storage, limits, fileFilter }).single('video')].
    The options are the source's; the order in which multer applies them
    (filter, then destination and filename, then the size limit while the
    bytes are streamed to disk) is multer's, whose code is not part of the
    repository.  The result is [req.file]. *)
Definition upload (w : World) (req : UploadRequest) : Eff Trace (option StoredFile) :=
  match video req with
  | None => mret None
  | Some file =>
    await (fileFilter file);;
    dir ← destination w;
    let name := filename w file in
    let path := path_join w [dir; name] in
    let size := N.of_nat (length (content file)) in
    if (fileSize <? size)%N then throw "File too large"
    else
      await (disk_write w path (content file));;
      emit (EWriteFile path size);;
      mret (Some {| stored_filename := name; stored_path := path;
                    stored_size := size; stored_mimetype := mimetype file |})
  end.

(** Step 1: handle video upload only. *)
Definition uploadVideo (w : World) (req : UploadRequest) : Eff Trace HttpResponse :=
  try_catch
    (file ← upload w req;
     match file with
     | None => throw "No video file uploaded"
     | Some file =>
       console LOG ("✅ Video uploaded successfully: " +:+ stored_filename file);;
       mret (success "file"
               [("filename", JStr (stored_filename file));
                ("path", JStr (stored_path file));
                ("size", JNum (Z.of_N (stored_size file)));
                ("mimetype", JStr (stored_mimetype file))])
     end)
    (fun message =>
       console ERROR "❌ Upload Error:";;
       mret (failure 400 (or_else message "Failed to upload video"))).

Record AnalyzeBody : Type := {
  analyze_filename : option string;
  analyze_prompt : option string
}.

Definition flash_config : GenerationConfig :=
  {| temperature := 7 # 10; topK := 16; topP := 8 # 10; maxOutputTokens := 1024 |}.

Definition flash_call (w : World) (parts : list Part) : GenerateCall :=
  {| call_apiKey := genAI w; call_model := "gemini-1.5-flash";
     call_config := flash_config; call_parts := parts |}.

(** Step 2: analyze video based on prompt. *)
Definition analyzeVideo (w : World) (req : AnalyzeBody) : Eff Trace HttpResponse :=
  try_catch
    (if negb (truthy (analyze_filename req)) || negb (truthy (analyze_prompt req))
     then throw "Video filename and prompt are required"
     else
       let filename := default "" (analyze_filename req) in
       let prompt := default "" (analyze_prompt req) in
       let videoPath := path_join w [dirname w; "../../uploads"; filename] in
       if negb (fs_existsSync w videoPath) then throw "Video file not found"
       else
         console LOG ("🎥 Analyzing video: " +:+ filename);;
         console LOG ("💭 Prompt: " +:+ prompt);;
         video ← await (fs_readFileSync w videoPath);
         let base64Data := toString_base64 w video in
         let ext := toLowerCase w (path_extname w videoPath) in
         let mimeType :=
           if String.eqb ext ".mp4" then "video/mp4"
           else if String.eqb ext ".webm" then "video/webm"
           else "video/quicktime" in
         result ← generateContent w
           (flash_call w [InlineData base64Data mimeType; TextPart prompt]);
         match result ≫= response with
         | None => throw "No response from AI model"
         | Some response =>
           console LOG "✅ Analysis completed";;
           text ← await response;
           mret (success "analysis"
                   [("text", JStr text); ("timestamp", JStr (Date_json w))])
         end)
    (fun message =>
       console ERROR "❌ Analysis Error:";;
       mret (failure 500 (or_else message "Failed to analyze video"))).

Definition relabel (msg : ChatMessage) : HistoryEntry :=
  {| role := if String.eqb (sender msg) "user" then "user" else "model";
     parts := text msg |}.

(** [(chatHistory || []).filter(msg => msg.sender !== 'system')
       .slice(-5).map(msg => ({ role: ..., parts: msg.text }))] *)
Definition recentHistory (chatHistory : option (list ChatMessage)) : list HistoryEntry :=
  relabel <$>
    slice (-5) (filter (fun msg => sender msg ≠ "system") (default [] chatHistory)).

(** The same expression on what a request may hold: [.filter] is a
    method of arrays only, so a truthy value that is not an array throws
    (a falsy one is replaced by [[]]), and the callback throws when it
    reads [sender] off a [null] item. *)
Definition recentHistory_of (w : World) (chatHistory : History)
  : Completion (list HistoryEntry) :=
  match chatHistory with
  | Other v =>
    if not_array_truthy v then Throw (TypeError_message w "(chatHistory || []).filter")
    else Normal (recentHistory None)
  | Items items =>
    match messages_of items with
    | Some messages => Normal (recentHistory (Some messages))
    | None => Throw (TypeError_message w "msg.sender")
    end
  end.

(** Step 3: chat about the video. *)
Definition chatWithVideo (w : World) (req : ChatRequest) : Eff Trace HttpResponse :=
  try_catch
    (if negb (truthy (req_filename req)) || negb (truthy (req_question req))
     then throw "Video filename and question are required"
     else
       let filename := default "" (req_filename req) in
       let question := default "" (req_question req) in
       let videoPath := path_join w [dirname w; "../../uploads"; filename] in
       if negb (fs_existsSync w videoPath) then throw "Video file not found"
       else
         console LOG ("💬 Processing chat: " +:+ filename +:+ " " +:+ question);;
         video ← await (fs_readFileSync w videoPath);
         let base64Data := toString_base64 w video in
         recentHistory ← await (recentHistory_of w (req_chatHistory req));
         result ← generateContent w
           (flash_call w
              [InlineData base64Data "video/mp4";
               TextPart (question +:+ nl +:+ nl +:+
                         "Based on the video content, provide a clear and direct answer.")]);
         match result ≫= response with
         | None => throw "No response from AI model"
         | Some response =>
           console LOG "✅ Chat response generated";;
           text ← await response;
           mret (success "response"
                   [("text", JStr text); ("timestamp", JStr (Date_json w))])
         end)
    (fun message =>
       console ERROR "❌ Chat Error:";;
       mret (failure 500 (or_else message "Failed to process chat request"))).

End VideoController.

(** ** The AI controller (remote upload, poll, generate, clean up) *)

Module AiController.

(** Module initialisation: both handles are created only when
    [GOOGLE_AI_KEY] is set; otherwise the [throw] inside the guarded block
    leaves both [undefined]. *)
Definition genAI (w : World) : option string :=
  if truthy (env w !! "GOOGLE_AI_KEY") then env w !! "GOOGLE_AI_KEY" else None.

Definition fileManager (w : World) : option string :=
  if truthy (env w !! "GOOGLE_AI_KEY") then env w !! "GOOGLE_AI_KEY" else None.

Record AnalyzeBody : Type := { videoPath : option string }.

Definition maxAttempts : nat := 30.

Definition pro_config : GenerationConfig :=
  {| temperature := 7 # 10; topK := 32; topP := 1; maxOutputTokens := 4096 |}.

Definition pro_call (w : World) (parts : list Part) : GenerateCall :=
  {| call_apiKey := genAI w; call_model := "gemini-1.5-pro";
     call_config := pro_config; call_parts := parts |}.

(** The [while (file.state === 'PROCESSING' && attempts < maxAttempts)]
    loop.  [remaining] is [maxAttempts - attempts], so the second conjunct
    is [remaining <> 0] and the recursion is structural.  The result is
    the last [file] fetched and the final value of [attempts]. *)
Fixpoint wait_while_processing (w : World) (name : string) (remaining : nat)
    (file : RemoteFile) (attempts : nat) : Eff Trace (RemoteFile * nat) :=
  match remaining with
  | S remaining' =>
    if String.eqb (file_state file) "PROCESSING" then
      emit (ESleep 2000);;
      file ← getFile w name;
      let attempts := S attempts in
      console LOG ("Processing attempt " +:+ pretty attempts +:+ ", state: " +:+
                   file_state file);;
      wait_while_processing w name remaining' file attempts
    else mret (file, attempts)
  | O => mret (file, attempts)
  end.

(** The effects of one round of the loop: wait, fetch, log. *)
Definition round (name : string) (attempt : nat) (state : string) : Trace :=
  [ESleep 2000; EGetFile name;
   EConsole LOG ("Processing attempt " +:+ pretty attempt +:+ ", state: " +:+ state)].

(** The kinds of effect the loop has. *)
Definition loop_event (name : string) (e : Event) : bool :=
  match e with
  | ESleep ms => (ms =? 2000)%Z
  | EGetFile n => String.eqb n name
  | EConsole LOG _ => true
  | _ => false
  end.

Definition analysis_prompt : string :=
  "Analyze this video and provide:" +:+ nl +:+
  "      1. A brief summary of what the video shows (2-3 sentences)" +:+ nl +:+
  "      2. Main topics or subjects covered (bullet points)" +:+ nl +:+
  "      3. Key moments with timestamps in MM:SS format (chronological order)" +:+ nl +:+
  "      4. Any technical concepts or important details mentioned" +:+ nl +:+
  "      5. Notable visual elements or scenes described" +:+ nl +:+
  nl +:+
  "      Format the response in a clear, structured way with headings." +:+ nl +:+
  "      Be specific and detailed but concise.".

Definition analyzeVideoContent (w : World) (req : AnalyzeBody) : Eff Trace HttpResponse :=
  try_catch
    (if negb (bool_decide (is_Some (genAI w))) || negb (bool_decide (is_Some (fileManager w)))
     then throw "Gemini API not properly initialized"
     else if negb (truthy (videoPath req))
     then mret (failure 400 "Video path is required")
     else
       let videoPath := default "" (videoPath req) in
       console LOG ("Starting video analysis for: " +:+ videoPath);;
       if negb (fs_existsSync w videoPath)
       then mret (failure 400 "Video file not found or not accessible")
       else
         size ← await (fs_statSync_size w videoPath);
         if (size =? 0)%N
         then mret (failure 400 "Video file is empty")
         else
           let ext := toLowerCase w (path_extname w videoPath) in
           let mimeType :=
             if String.eqb ext ".mp4" then "video/mp4"
             else if String.eqb ext ".webm" then "video/webm"
             else if String.eqb ext ".mov" then "video/quicktime"
             else if String.eqb ext ".avi" then "video/x-msvideo"
             else "video/mp4" in
           console LOG "File details:";;
           fileBuffer ← await (fs_readFileSync w videoPath);
           try_catch
             (console LOG "Uploading to Gemini...";;
              uploadResponse ← uploadFile w fileBuffer mimeType (path_basename w videoPath);
              match uploadResponse ≫= upload_file with
              | None => throw "Failed to get upload response from Gemini"
              | Some uploaded =>
                console LOG ("Upload successful: " +:+ file_name uploaded);;
                console LOG "Waiting for processing...";;
                file ← getFile w (file_name uploaded);
                '(file, attempts) ← wait_while_processing w (file_name uploaded)
                                       maxAttempts file 0;
                if negb (String.eqb (file_state file) "ACTIVE")
                then throw ("Video processing failed - State: " +:+ file_state file)
                else
                  console LOG "Starting content generation...";;
                  result ← generateContent w
                    (pro_call w [FileData (file_mimeType file) (file_uri file);
                                 TextPart analysis_prompt]);
                  match result ≫= response with
                  | None => throw "No response from Gemini API"
                  | Some response =>
                    analysis ← await response;
                    console LOG "Analysis completed successfully";;
                    try_catch
                      (deleteFile w (file_name file);;
                       console LOG "Cleaned up uploaded file")
                      (fun _ => console WARN "Failed to clean up file:");;
                    mret (success "analysis"
                            [("text", JStr analysis);
                             ("videoUri", JStr (file_uri file));
                             ("timestamp", JStr (Date_json w));
                             ("type", JStr "initial-analysis")])
                  end
              end)
             (fun message =>
                console ERROR "Gemini API Error:";;
                throw ("Gemini API Error: " +:+ message)))
    (fun message =>
       console ERROR "Analysis Error:";;
       mret (failure 500 (or_else message "Video analysis failed"))).

(** [chatHistory?.map(msg => ({ role: ..., parts: msg.text })) || []] *)
Definition formattedHistory (chatHistory : option (list ChatMessage)) : list HistoryEntry :=
  VideoController.relabel <$> default [] chatHistory.

Definition render (msg : HistoryEntry) : string := role msg +:+ ": " +:+ parts msg.

Definition chat_prompt (question : string) (formattedHistory : list HistoryEntry) : string :=
  "Based on the video content, answer this question: " +:+ question +:+ nl +:+
  nl +:+
  "      Consider:" +:+ nl +:+
  "      - If a timestamp (MM:SS) is mentioned, focus on that specific moment" +:+ nl +:+
  "      - For technical questions, provide clear, detailed explanations" +:+ nl +:+
  "      - For visual questions, describe what is shown in detail" +:+ nl +:+
  "      - For summaries, focus on key points and maintain context" +:+ nl +:+
  "      " +:+ nl +:+
  "      Previous conversation:" +:+ nl +:+
  "      " +:+ join nl (render <$> formattedHistory) +:+ nl +:+
  nl +:+
  "      Provide a clear, direct answer that specifically addresses the question.".

(** The same expression on what a request may hold: [?.] stops at
    [undefined] and [null] only; [.map] is a method of arrays only, and
    the callback throws when it reads [sender] off a [null] item. *)
Definition formattedHistory_of (w : World) (chatHistory : History)
  : Completion (list HistoryEntry) :=
  match chatHistory with
  | Other NUndefined | Other NNull => Normal (formattedHistory None)
  | Other _ => Throw (TypeError_message w "chatHistory?.map")
  | Items items =>
    match messages_of items with
    | Some messages => Normal (formattedHistory (Some messages))
    | None => Throw (TypeError_message w "msg.sender")
    end
  end.

(** [videoUri.substring(0, 50)]: a method of strings only.  The result
    is the receiver when the call goes through. *)
Definition substring_receiver (w : World) (videoUri : JSON) : Completion string :=
  match videoUri with
  | JStr uri => Normal uri
  | _ => Throw (TypeError_message w "videoUri.substring")
  end.

Definition generateResponse (w : World) (req : ChatRequest) : Eff Trace HttpResponse :=
  try_catch
    (if negb (bool_decide (is_Some (genAI w)))
     then throw "Gemini API not properly initialized"
     else if negb (json_truthy (req_videoUri req))
     then mret (failure 400 "Video URI is required")
     else if negb (truthy (req_question req))
     then mret (failure 400 "Question is required")
     else
       let question := default "" (req_question req) in
       videoUri ← await (substring_receiver w (req_videoUri req));
       console LOG "Generating response for:";;
       formattedHistory ← await (formattedHistory_of w (req_chatHistory req));
       try_catch
         (let prompt := chat_prompt question formattedHistory in
          result ← generateContent w
            (pro_call w [FileData "video/mp4" videoUri; TextPart prompt]);
          match result ≫= response with
          | None => throw "No response from Gemini API"
          | Some response =>
            response ← await response;
            console LOG "Response generated successfully";;
            mret (success "response"
                    [("text", JStr response);
                     ("timestamp", JStr (Date_json w));
                     ("type", JStr "chat-response")])
          end)
         (fun message =>
            console ERROR "Gemini API Error:";;
            throw ("Gemini API Error: " +:+ message)))
    (fun message =>
       console ERROR "Response Error:";;
       mret (failure 500 (or_else message "Failed to generate response"))).

End AiController.

(** ** The client (App.jsx) *)

Module Client.

(** The component's state ([useState] cells). *)
Record AppState : Type := mkApp {
  messages : list ChatMessage;
  newMessage : string;
  selectedVideo : option string;
  isAnalyzing : bool;
  isDragging : bool;
  uploadProgress : Z;
  uploadStatus : string
}.

Definition setMessages (f : list ChatMessage -> list ChatMessage) (s : AppState) : AppState :=
  mkApp (f (messages s)) (newMessage s) (selectedVideo s) (isAnalyzing s)
        (isDragging s) (uploadProgress s) (uploadStatus s).

Definition setNewMessage (v : string) (s : AppState) : AppState :=
  mkApp (messages s) v (selectedVideo s) (isAnalyzing s)
        (isDragging s) (uploadProgress s) (uploadStatus s).

Definition setSelectedVideo (v : option string) (s : AppState) : AppState :=
  mkApp (messages s) (newMessage s) v (isAnalyzing s)
        (isDragging s) (uploadProgress s) (uploadStatus s).

Definition setIsAnalyzing (v : bool) (s : AppState) : AppState :=
  mkApp (messages s) (newMessage s) (selectedVideo s) v
        (isDragging s) (uploadProgress s) (uploadStatus s).

Definition setUploadProgress (v : Z) (s : AppState) : AppState :=
  mkApp (messages s) (newMessage s) (selectedVideo s) (isAnalyzing s)
        (isDragging s) v (uploadStatus s).

Definition setUploadStatus (v : string) (s : AppState) : AppState :=
  mkApp (messages s) (newMessage s) (selectedVideo s) (isAnalyzing s)
        (isDragging s) (uploadProgress s) v.

(** A [File] picked or dropped by the user. *)
Record File : Type := { File_name : string; File_type : string; File_bytes : Buffer }.

(** What the handlers read from the browser and the network.  The text of
    the [TypeError] raised when a property of [undefined] or [null] is
    read depends on the engine, so it is a field. *)
Record Browser : Type := {
  toISOString_now : string;
  createObjectURL : File -> string;
  trim : string -> string;
  TypeError_message : JSON -> string -> string;
  (** [fetch(BACKEND_URL + '/api/video/upload', { method: 'POST', body })] *)
  fetch_upload : File -> Completion HttpResponse;
  (** [fetch(BACKEND_URL + '/api/video/chat', { method: 'POST', ... })] *)
  fetch_chat : ChatBody -> Completion HttpResponse
}.

(** Property read [v.prop]. *)
Definition get (b : Browser) (v : JSON) (prop : string) : Completion JSON :=
  match v with
  | JObj fields => Normal (assoc prop fields)
  | JUndefined | JNull => Throw (TypeError_message b v prop)
  | _ => Normal JUndefined
  end.

(** [String(v)], the message [new Error(v)] carries and the text React
    renders. *)
Fixpoint toString (v : JSON) : string :=
  match v with
  | JUndefined => "undefined"
  | JNull => "null"
  | JBool true => "true"
  | JBool false => "false"
  | JNum n => pretty n
  | JStr s => s
  | JArr items =>
    join "," (List.map (fun i => match i with
                                 | JUndefined | JNull => ""
                                 | _ => toString i
                                 end) items)
  | JObj _ => "[object Object]"
  end.

(** [new Error(v || fallback).message] *)
Definition message_or (v : JSON) (fallback : string) : string :=
  if json_truthy v then toString v else fallback.

Definition system_message (b : Browser) (text : string) : ChatMessage :=
  {| text := text; sender := "system"; timestamp := toISOString_now b |}.

(** The [try] block of [handleVideoUpload]. *)
Definition upload_attempt (b : Browser) (file : File) : Eff AppState unit :=
  if negb (startsWith "video/" (File_type file))
  then throw "Please select a valid video file"
  else
    modify (setUploadStatus "Uploading video...");;
    modify (setUploadProgress 0);;
    modify (setIsAnalyzing true);;
    response ← await (fetch_upload b file);
    (if negb (ok response)
     then
       let errorData := body response in
       error ← await (get b errorData "error");
       throw (message_or error "Upload failed")
     else mret tt);;
    let data := body response in
    success ← await (get b data "success");
    (if negb (json_truthy success)
     then
       error ← await (get b data "error");
       throw (message_or error "Upload failed")
     else mret tt);;
    modify (setSelectedVideo (Some (createObjectURL b file)));;
    data_file ← await (get b data "file");
    data_file_analysis ← await (get b data_file "analysis");
    data_file_analysis_text ← await (get b data_file_analysis "text");
    modify (setMessages (fun _ =>
      [ system_message b "✨ Video uploaded successfully!";
        {| text := toString data_file_analysis_text; sender := "ai";
           timestamp := toISOString_now b |} ])).

Definition handleVideoUpload (b : Browser) (file : File) : Eff AppState unit :=
  try_finally
    (try_catch
       (upload_attempt b file)
       (fun message =>
          modify (setMessages (fun _ => [system_message b ("❌ " +:+ message)]));;
          modify (setSelectedVideo None)))
    (fun s => setUploadStatus "" (setUploadProgress 0 (setIsAnalyzing false s))).

(** The body [handleSendMessage] posts: [videoUri], [question] and
    [chatHistory], and no [filename]. *)
Definition chat_request (s : AppState) (userMessage : ChatMessage) : ChatBody :=
  {| chat_filename := None;
     chat_videoUri := selectedVideo s;
     chat_question := Some (text userMessage);
     chat_chatHistory := Some (messages s) |}.

Definition handleSendMessage (b : Browser) : Eff AppState unit :=
  s ← gets id;
  if negb (String.eqb (trim b (newMessage s)) "") && truthy (selectedVideo s)
     && negb (isAnalyzing s)
  then
    let userMessage :=
      {| text := newMessage s; sender := "user"; timestamp := toISOString_now b |} in
    modify (setMessages (fun prev => prev ++ [userMessage])%list);;
    modify (setNewMessage "");;
    modify (setIsAnalyzing true);;
    try_finally
      (try_catch
         (response ← await (fetch_chat b (chat_request s userMessage));
          (if negb (ok response) then throw "Failed to get response" else mret tt);;
          let data := body response in
          success ← await (get b data "success");
          (if negb (json_truthy success)
           then
             error ← await (get b data "error");
             throw (message_or error "Failed to get response")
           else mret tt);;
          data_response ← await (get b data "response");
          data_response_text ← await (get b data_response "text");
          modify (setMessages (fun prev => prev ++
            [ {| text := toString data_response_text; sender := "ai";
                 timestamp := toISOString_now b |} ])%list))
         (fun message =>
            modify (setMessages (fun prev => prev ++
              [ system_message b ("❌ Error: " +:+ message) ])%list)))
      (setIsAnalyzing false)
  else mret tt.

Definition setIsDragging (v : bool) (s : AppState) : AppState :=
  mkApp (messages s) (newMessage s) (selectedVideo s) (isAnalyzing s)
        v (uploadProgress s) (uploadStatus s).

(** [handleFileSelect]: the first file of the input, if any, is uploaded. *)
Definition handleFileSelect (b : Browser) (files : list File) : Eff AppState unit :=
  match head files with
  | Some file => handleVideoUpload b file
  | None => mret tt
  end.

Definition handleDragOver : Eff AppState unit := modify (setIsDragging true).

Definition handleDragLeave : Eff AppState unit := modify (setIsDragging false).

(** [handleDrop]: the first dropped file is uploaded when its type starts
    with [video/]. *)
Definition handleDrop (b : Browser) (files : list File) : Eff AppState unit :=
  modify (setIsDragging false);;
  match head files with
  | Some file =>
    if startsWith "video/" (File_type file) then handleVideoUpload b file
    else mret tt
  | None => mret tt
  end.

Definition handleExamplePrompt (prompt : string) : Eff AppState unit :=
  modify (setNewMessage prompt).

(** What the rendered form allows: the [disabled] attributes of the text
    input and of the Send button, and whether the example prompts show. *)
Definition input_disabled (s : AppState) : bool :=
  negb (truthy (selectedVideo s)) || isAnalyzing s.

Definition send_disabled (b : Browser) (s : AppState) : bool :=
  negb (truthy (selectedVideo s)) || isAnalyzing s
  || String.eqb (trim b (newMessage s)) "".

Definition examples_shown (s : AppState) : bool :=
  truthy (selectedVideo s) && negb (isAnalyzing s) && (length (messages s) <? 3)%nat.

(** The multipart request the browser builds from a [File]. *)
Definition multipart (file : File) : VideoController.UploadRequest :=
  {| VideoController.video :=
       Some {| VideoController.originalname := File_name file;
               VideoController.mimetype := File_type file;
               VideoController.content := File_bytes file |} |}.

End Client.

(** ** The broadcast channel (index.js)

    The Socket.IO server of [index.js]: clients connect, send
    [chat message] and [video analysis] events, and disconnect.  That
    [io.emit] reaches every connected socket, and that a socket's
    listeners live from its connection to its disconnection, is
    Socket.IO's behaviour; its code is not part of the repository. *)

Module Channel.

(** What reaches the Socket.IO server: a client connects, sends one of
    the two events the server listens to, or disconnects. *)
Inductive Incoming : Type :=
| OnConnection (socket : nat)
| OnChatMessage (socket : nat) (msg : JSON)
| OnVideoAnalysis (socket : nat) (result : JSON)
| OnDisconnect (socket : nat).

(** An event delivered to one client. *)
Record Emission : Type := { recipient : nat; event : string; payload : JSON }.

(** [io.emit(event, payload)]: one emission per connected socket. *)
Definition io_emit (connected : gset nat) (event : string) (payload : JSON)
  : list Emission :=
  (fun socket => {| recipient := socket; event := event; payload := payload |})
    <$> elements connected.

(** One incoming event: the new set of connected sockets, what is
    emitted and what is logged.  The listeners of a socket exist from its
    [connection] to its [disconnect]. *)
Definition step (connected : gset nat) (ev : Incoming)
  : gset nat * (list Emission * list string) :=
  match ev with
  | OnConnection socket => ({[socket]} ∪ connected, ([], ["A user connected"]))
  | OnChatMessage socket msg =>
    if decide (socket ∈ connected)
    then (connected, (io_emit connected "chat message" msg, []))
    else (connected, ([], []))
  | OnVideoAnalysis socket result =>
    if decide (socket ∈ connected)
    then (connected, (io_emit connected "analysis result" result, []))
    else (connected, ([], []))
  | OnDisconnect socket =>
    if decide (socket ∈ connected)
    then (connected ∖ {[socket]}, ([], ["User disconnected"]))
    else (connected, ([], []))
  end.

Fixpoint run (connected : gset nat) (evs : list Incoming)
  : gset nat * (list Emission * list string) :=
  match evs with
  | [] => (connected, ([], []))
  | ev :: rest =>
    let '(connected', (out, logs)) := step connected ev in
    let '(final, (out', logs')) := run connected' rest in
    (final, (out ++ out', logs ++ logs'))
  end.

Definition connected_after (evs : list Incoming) : gset nat := (run ∅ evs).1.
Definition emitted (evs : list Incoming) : list Emission := (run ∅ evs).2.1.

End Channel.

(** ** Stubs for concrete runs

    Simple stand-ins for Node's library functions and for the provider,
    used only to run the handlers on concrete inputs. *)

Module Fixture.

(** Extension of a plain file name: the text from its last dot. *)
Fixpoint extname (s : string) : string :=
  match s with
  | EmptyString => ""
  | String c rest =>
    let r := extname rest in
    if negb (String.eqb r "") then r
    else if Ascii.eqb c "."%char then s else ""
  end.

(** Last component of a slash-separated path. *)
Fixpoint basename_from (acc s : string) : string :=
  match s with
  | EmptyString => acc
  | String c rest =>
    if Ascii.eqb c "/"%char then basename_from "" rest
    else basename_from (acc +:+ String c "") rest
  end.

Definition basename : string -> string := basename_from "".

Definition lower (c : ascii) : ascii :=
  let n := nat_of_ascii c in
  if (65 <=? n)%nat && (n <=? 90)%nat then ascii_of_nat (n + 32) else c.

Fixpoint lowercase (s : string) : string :=
  match s with
  | EmptyString => ""
  | String c rest => String (lower c) (lowercase rest)
  end.

Definition remote (state : string) : RemoteFile :=
  {| file_name := "files/abc123";
     file_uri := "https://provider.example/v1beta/files/abc123";
     file_mimeType := "video/webm";
     file_state := state |}.

(** A world with one API key (or none) under both variable names, a disk,
    a scripted sequence of remote states, and scripted outcomes of
    [generateContent] and [deleteFile]. *)
Definition world (key : option string) (disk : gmap string Buffer)
    (states : nat -> string) (generated : Completion (option GenerateResult))
    (deleted : Completion unit) : World :=
  {| env := match key with
            | Some k => {[ "GOOGLE_AI_KEY" := k; "GEMINI_API_KEY" := k ]}
            | None => ∅
            end;
     files := disk;
     unreadable := {[ "/srv/backend/src/controllers/../../uploads" :=
                        {| unreadable_size := 4096;
                           read_error := "EISDIR: illegal operation on a directory, read" |} ]};
     dir_exists := fun _ => true;
     disk_write := fun _ _ => Normal tt;
     Date_now := 1700000000000;
     Math_random_1E9 := 123456789;
     Date_json := "2023-11-14T22:13:20.000Z";
     dirname := "/srv/backend/src/controllers";
     path_extname := extname;
     path_basename := basename;
     path_join := join "/";
     toLowerCase := lowercase;
     toString_base64 := fun buf => "base64:" +:+ pretty (length buf);
     TypeError_message := fun expression =>
       if String.eqb expression "msg.sender"
       then "Cannot read properties of null (reading 'sender')"
       else expression +:+ " is not a function";
     fm_uploadFile := fun _ _ _ =>
       Normal (Some {| upload_file := Some (remote "PROCESSING") |});
     fm_getFile := fun n _ => Normal (remote (states n));
     fm_deleteFile := fun _ => deleted;
     model_generateContent := fun _ => generated |}.

Definition answers (t : string) : Completion (option GenerateResult) :=
  Normal (Some {| response := Some (Normal t) |}).

Definition clip : string := "/srv/backend/src/controllers/../../uploads/clip.webm".

Definition disk : gmap string Buffer := {[ clip := [Byte.x1a; Byte.x45; Byte.xdf; Byte.xa3] ]}.

(** Remote states PROCESSING, PROCESSING, PROCESSING, ACTIVE: the state
    when the handle is first fetched, then on three polls. *)
Definition becomes_active (n : nat) : string :=
  if (n <? 3)%nat then "PROCESSING" else "ACTIVE".

Definition stays_processing (n : nat) : string := "PROCESSING".

Definition msg (sender text : string) : ChatMessage :=
  {| text := text; sender := sender; timestamp := "2023-11-14T22:13:20.000Z" |}.

(** Seven user/ai messages and two system messages. *)
Definition nine_messages : list ChatMessage :=
  [ msg "system" "Video uploaded successfully!";
    msg "ai" "A cat runs.";
    msg "user" "What colour is the cat?";
    msg "ai" "Grey.";
    msg "user" "Where does it run?";
    msg "system" "Error: Failed to get response";
    msg "user" "Where does it run?";
    msg "ai" "Across a garden.";
    msg "user" "Is anyone else there?" ].

Definition chat_turn : ChatBody :=
  mkChatBody (Some "clip.webm")
             (Some "https://provider.example/v1beta/files/abc123")
             (Some "Is anyone else there?")
             (Some nine_messages).

Definition chat_world : World :=
  world (Some "key") disk becomes_active (answers "No.") (Normal tt).

(** A disk that also holds an empty file. *)
Definition validation_world : World :=
  world (Some "key") (<[ "/srv/uploads/empty.mp4" := [] ]> disk) becomes_active
        (answers "A cat runs.") (Normal tt).

(** Worlds for the polling scenarios and for a failing cleanup. *)
Definition active_world : World :=
  world (Some "key") disk becomes_active (answers "A cat runs.") (Normal tt).

Definition stuck_world : World :=
  world (Some "key") disk stays_processing (answers "A cat runs.") (Normal tt).

Definition leaky_world : World :=
  world (Some "key") disk becomes_active (answers "A cat runs.")
        (Throw "PERMISSION_DENIED").

Definition analyze_clip : AiController.AnalyzeBody :=
  {| AiController.videoPath := Some clip |}.

Definition notes_txt : VideoController.MultipartFile :=
  {| VideoController.originalname := "notes.txt";
     VideoController.mimetype := "text/plain";
     VideoController.content := [Byte.x68; Byte.x69] |}.

Definition clip_webm : VideoController.MultipartFile :=
  {| VideoController.originalname := "holiday.clip.webm";
     VideoController.mimetype := "video/webm";
     VideoController.content := [Byte.x1a; Byte.x45; Byte.xdf; Byte.xa3] |}.

(** An mp4 upload of 25 MiB and one byte. *)
Definition oversized_mp4 : VideoController.MultipartFile :=
  {| VideoController.originalname := "big.mp4";
     VideoController.mimetype := "video/mp4";
     VideoController.content := replicate (N.to_nat 26214401) Byte.x00 |}.

Definition holiday_clip : Client.File :=
  {| Client.File_name := "holiday.clip.webm";
     Client.File_type := "video/webm";
     Client.File_bytes := [Byte.x1a; Byte.x45; Byte.xdf; Byte.xa3] |}.

(** A browser (V8 wording of the [TypeError]) whose requests reach the
    video controller running in [validation_world]. *)
Definition browser : Client.Browser :=
  {| Client.toISOString_now := "2023-11-14T22:13:21.000Z";
     Client.createObjectURL := fun _ => "blob:http://localhost:5173/6f1c2a";
     Client.trim := fun s => s;
     Client.TypeError_message := fun v prop =>
       "Cannot read properties of " +:+ Client.toString v +:+
       " (reading '" +:+ prop +:+ "')";
     Client.fetch_upload := fun file =>
       (VideoController.uploadVideo validation_world (Client.multipart file) []).1;
     Client.fetch_chat := fun body =>
       (VideoController.chatWithVideo validation_world body []).1 |}.

Definition fresh_app : Client.AppState :=
  Client.mkApp [] "" None false false 0 "".

(** A handle that becomes ACTIVE on the thirtieth poll. *)
Definition late_active (n : nat) : string :=
  if (n <? 30)%nat then "PROCESSING" else "ACTIVE".

Definition late_world : World :=
  world (Some "key") disk late_active (answers "A cat runs.") (Normal tt).

(** The client with a video selected and a question typed. *)
Definition asking : Client.AppState :=
  Client.mkApp [msg "ai" "A cat runs."] "What happens?"
               (Some "blob:http://localhost:5173/6f1c2a") false false 0 "".

Definition notes_file : Client.File :=
  {| Client.File_name := "notes.txt"; Client.File_type := "text/plain";
     Client.File_bytes := [Byte.x68; Byte.x69] |}.

(** An AVI file: a video for the client, not on the server's list. *)
Definition old_avi : Client.File :=
  {| Client.File_name := "old.avi"; Client.File_type := "video/x-msvideo";
     Client.File_bytes := [Byte.x52; Byte.x49; Byte.x46; Byte.x46] |}.

Definition two_clients : list Channel.Incoming :=
  [Channel.OnConnection 1; Channel.OnConnection 2].

End Fixture.

(** * Properties *)

Ltac unfold_eff :=
  unfold getFile, generateContent, uploadFile, deleteFile, console, emit in *;
  unfold try_catch, try_finally, mbind, mret, Eff_bind, Eff_ret, bind, ret, throw,
    await, modify, gets in *.

(** ** The disk and well-typed bodies *)

(** What the three [fs] calls give at a path: a readable file, something
    that cannot be read as a file, or nothing. *)
Lemma fs_cases (w : World) (path : string) :
  (∃ buffer, files w !! path = Some buffer ∧
     fs_existsSync w path = true ∧
     fs_statSync_size w path = Normal (N.of_nat (length buffer)) ∧
     fs_readFileSync w path = Normal buffer) ∨
  (∃ other, files w !! path = None ∧ unreadable w !! path = Some other ∧
     fs_existsSync w path = true ∧
     fs_statSync_size w path = Normal (unreadable_size other) ∧
     fs_readFileSync w path = Throw (read_error other)) ∨
  (files w !! path = None ∧ unreadable w !! path = None ∧
   fs_existsSync w path = false).
Proof.
  unfold fs_existsSync, fs_statSync_size, fs_readFileSync.
  destruct (files w !! path) as [buffer|].
  - left. exists buffer. repeat split.
  - destruct (unreadable w !! path) as [other|].
    + right; left. exists other. repeat split.
    + right; right. repeat split.
Qed.

Lemma fs_regular (w : World) (path : string) (buffer : Buffer) :
  files w !! path = Some buffer →
  fs_existsSync w path = true ∧
  fs_statSync_size w path = Normal (N.of_nat (length buffer)) ∧
  fs_readFileSync w path = Normal buffer.
Proof.
  intros H. unfold fs_existsSync, fs_statSync_size, fs_readFileSync.
  rewrite H. repeat split.
Qed.

(** Case analysis on the path a handler looks up. *)
Ltac on_disk :=
  match goal with
  | |- context [fs_existsSync ?w0 ?p0] =>
    let fileBuffer := fresh "fileBuffer" in
    let other := fresh "other" in
    let Hfile := fresh "Hfile" in
    let Hother := fresh "Hother" in
    let He := fresh "Hexists" in
    let Hs := fresh "Hstat" in
    let Hr := fresh "Hread" in
    destruct (fs_cases w0 p0)
      as [(fileBuffer & Hfile & He & Hs & Hr)
         |[(other & Hfile & Hother & He & Hs & Hr)|(Hfile & Hother & He)]];
    rewrite ?He, ?Hs, ?Hr; cbn [negb fst snd]
  end.

(** The same for [analyzeVideoContent], which reads the size first; [early]
    closes the runs that end before the upload. *)
Ltac on_disk_size early :=
  on_disk;
  [destruct (N.of_nat (length _) =? 0)%N; cbn [negb fst snd]; [early|]
  |let Hsize := fresh "Hsize" in
   destruct (unreadable_size _ =? 0)%N eqn:Hsize; cbn [negb fst snd]; early
  |early].

Lemma messages_of_Some (messages : list ChatMessage) :
  messages_of (Some <$> messages) = Some messages.
Proof.
  induction messages as [|m messages IH]; [reflexivity|].
  cbn. cbn in IH. rewrite IH. reflexivity.
Qed.

(** On a well-typed body the history expressions do not throw. *)
Lemma recentHistory_of_body (w : World) (body : ChatBody) :
  VideoController.recentHistory_of w (req_chatHistory body) =
  Normal (VideoController.recentHistory (chat_chatHistory body)).
Proof.
  destruct body as [f u q [messages|]]; cbn; [|reflexivity].
  pose proof (messages_of_Some messages) as H. cbn in H. rewrite H. reflexivity.
Qed.

Lemma formattedHistory_of_body (w : World) (body : ChatBody) :
  AiController.formattedHistory_of w (req_chatHistory body) =
  Normal (AiController.formattedHistory (chat_chatHistory body)).
Proof.
  destruct body as [f u q [messages|]]; cbn; [|reflexivity].
  pose proof (messages_of_Some messages) as H. cbn in H. rewrite H. reflexivity.
Qed.

Lemma videoUri_of_body (body : ChatBody) :
  json_truthy (req_videoUri body) = truthy (chat_videoUri body).
Proof. destruct body as [f [u|] q h]; reflexivity. Qed.

Lemma substring_of_body (w : World) (body : ChatBody) :
  truthy (chat_videoUri body) = true →
  AiController.substring_receiver w (req_videoUri body) =
  Normal (default "" (chat_videoUri body)).
Proof. destruct body as [f [u|] q h]; [reflexivity|discriminate]. Qed.

(** ** The chat-history reduction *)

Lemma slice_last_length {A} (n : positive) (l : list A) :
  length (slice (Z.neg n) l) = min (Pos.to_nat n) (length l).
Proof.
  unfold slice. rewrite length_drop. cbv zeta.
  replace (Z.neg n <? 0)%Z with true by (symmetry; apply Z.ltb_lt; lia).
  lia.
Qed.

Lemma slice_suffix {A} (start : Z) (l : list A) : slice start l `suffix_of` l.
Proof. apply suffix_drop. Qed.

(** The reduction keeps a suffix of the non-system messages. *)
Lemma recentHistory_recent (chatHistory : option (list ChatMessage)) :
  let history := default [] chatHistory in
  let kept := filter (fun m => sender m ≠ "system") history in
  ∃ recent,
    recent `suffix_of` kept ∧
    recent `sublist_of` history ∧
    Forall (fun m => sender m ≠ "system") recent ∧
    VideoController.recentHistory chatHistory = VideoController.relabel <$> recent.
Proof.
  intros history kept. exists (slice (-5) kept). repeat split.
  - apply slice_suffix.
  - etransitivity; [apply sublist_drop | apply sublist_filter].
  - apply Forall_forall. intros m Hm.
    assert (m ∈ kept) as Hk.
    { destruct (slice_suffix (-5) kept) as [pre Hpre].
      rewrite Hpre. apply elem_of_app. right. exact Hm. }
    apply list_elem_of_filter in Hk. apply Hk.
Qed.

Lemma recentHistory_length (chatHistory : option (list ChatMessage)) :
  length (VideoController.recentHistory chatHistory) =
  min 5 (length (filter (fun m => sender m ≠ "system") (default [] chatHistory))).
Proof.
  unfold VideoController.recentHistory. rewrite length_fmap.
  apply (slice_last_length 5%positive).
Qed.

(** C3. The reduction computed by [chatWithVideo] is a function of the
    history alone; it keeps a suffix [recent] of the non-system messages
    (so original order, most recent last), re-labels each kept message to
    role "user" when its sender is "user" and "model" otherwise, and its
    length is the smaller of 5 and the number of non-system messages. *)
Theorem recentHistory_reduction (chatHistory : option (list ChatMessage)) :
  let history := default [] chatHistory in
  let kept := filter (fun m => sender m ≠ "system") history in
  (∀ other, other = chatHistory →
     VideoController.recentHistory other = VideoController.recentHistory chatHistory) ∧
  (∃ recent,
     recent `suffix_of` kept ∧
     recent `sublist_of` history ∧
     Forall (fun m => sender m ≠ "system") recent ∧
     VideoController.recentHistory chatHistory =
       (fun m => {| role := if String.eqb (sender m) "user" then "user" else "model";
                    parts := text m |}) <$> recent) ∧
  Forall (fun e => role e = "user" ∨ role e = "model")
         (VideoController.recentHistory chatHistory) ∧
  length (VideoController.recentHistory chatHistory) = min 5 (length kept).
Proof.
  intros history kept. repeat split.
  - intros other ->. reflexivity.
  - apply recentHistory_recent.
  - unfold VideoController.recentHistory. apply Forall_fmap, Forall_forall.
    intros m _. unfold VideoController.relabel. simpl.
    destruct (String.eqb (sender m) "user"); auto.
  - apply recentHistory_length.
Qed.

(** ** The generate-content calls of a chat turn *)

(** The calls [chatWithVideo] makes: one when the request names a stored
    file and carries a question, none otherwise.  The text part is the
    question followed by a fixed instruction. *)
Lemma chatWithVideo_calls (w : World) (req : ChatBody) :
  generate_calls (VideoController.chatWithVideo w req []).2 =
  if truthy (chat_filename req) && truthy (chat_question req) then
    match files w !! path_join w [dirname w; "../../uploads";
                                  default "" (chat_filename req)] with
    | Some video =>
      [VideoController.flash_call w
         [InlineData (toString_base64 w video) "video/mp4";
          TextPart (default "" (chat_question req) +:+ nl +:+ nl +:+
                    "Based on the video content, provide a clear and direct answer.")]]
    | None => []
    end
  else [].
Proof.
  unfold VideoController.chatWithVideo. rewrite recentHistory_of_body. unfold_eff.
  cbn [request_of req_filename req_question].
  destruct (truthy (chat_filename req)); destruct (truthy (chat_question req));
    cbn [negb orb andb fst snd]; try reflexivity.
  on_disk; rewrite Hfile; try reflexivity.
  destruct (model_generateContent w _) as [[[[[t|m]|]]|]|m]; reflexivity.
Qed.

(** The calls [generateResponse] makes: one when the API is initialised
    and the request carries a video URI and a question, none otherwise.
    The prompt interpolates the whole re-labelled history. *)
Lemma generateResponse_calls (w : World) (req : ChatBody) :
  generate_calls (AiController.generateResponse w req []).2 =
  if bool_decide (is_Some (AiController.genAI w))
     && truthy (chat_videoUri req) && truthy (chat_question req) then
    [AiController.pro_call w
       [FileData "video/mp4" (default "" (chat_videoUri req));
        TextPart (AiController.chat_prompt (default "" (chat_question req))
                    (AiController.formattedHistory (chat_chatHistory req)))]]
  else [].
Proof.
  unfold AiController.generateResponse.
  rewrite formattedHistory_of_body, videoUri_of_body. unfold_eff.
  cbn [request_of req_question].
  destruct (bool_decide (is_Some (AiController.genAI w)));
    cbn [negb orb andb fst snd]; try reflexivity.
  destruct (truthy (chat_videoUri req)) eqn:Huri;
    destruct (truthy (chat_question req));
    cbn [negb orb andb fst snd]; try reflexivity.
  rewrite (substring_of_body w req Huri).
  destruct (model_generateContent w _) as [[[[[t|m]|]]|]|m]; reflexivity.
Qed.

(** C10. Every generate-content request of a chat turn, on either path,
    declares its video as "video/mp4": the literal is in the request
    whatever file is stored under the name or behind the URI.  A turn
    that passes the handler's own checks sends exactly one request. *)
Theorem chat_declares_video_mp4 (w : World) (req : ChatBody) :
  let inline := generate_calls (VideoController.chatWithVideo w req []).2 in
  let remote := generate_calls (AiController.generateResponse w req []).2 in
  Forall (fun call => declared_mimeTypes call = ["video/mp4"]) inline ∧
  Forall (fun call => declared_mimeTypes call = ["video/mp4"]) remote ∧
  length inline =
    (if truthy (chat_filename req) && truthy (chat_question req)
        && bool_decide (is_Some (files w !! path_join w
             [dirname w; "../../uploads"; default "" (chat_filename req)]))
     then 1 else 0) ∧
  length remote =
    (if bool_decide (is_Some (AiController.genAI w))
        && truthy (chat_videoUri req) && truthy (chat_question req)
     then 1 else 0).
Proof.
  cbv zeta. rewrite chatWithVideo_calls, generateResponse_calls.
  repeat split.
  - destruct (truthy (chat_filename req) && truthy (chat_question req));
      [destruct (files w !! _)|]; repeat constructor.
  - destruct (_ && _); repeat constructor.
  - destruct (truthy (chat_filename req) && truthy (chat_question req));
      [destruct (files w !! _)|]; reflexivity.
  - destruct (_ && _); reflexivity.
Qed.

(** A stored webm clip: the analyze step declares it as webm, the chat
    step as mp4. *)
Example webm_is_sent_as_mp4 :
  let w := Fixture.world (Some "key") Fixture.disk Fixture.becomes_active
             (Fixture.answers "A cat runs.") (Normal tt) in
  (declared_mimeTypes <$> generate_calls
     (VideoController.analyzeVideo w
        {| VideoController.analyze_filename := Some "clip.webm";
           VideoController.analyze_prompt := Some "Describe this" |} []).2)
    = [["video/webm"]] ∧
  (declared_mimeTypes <$> generate_calls
     (VideoController.chatWithVideo w
        (mkChatBody (Some "clip.webm") None (Some "What happens?") (Some [])) []).2)
    = [["video/mp4"]].
Proof. split; vm_compute; reflexivity. Qed.

Lemma system_split_length (history : list ChatMessage) :
  length (filter (fun m => sender m ≠ "system") history) +
  length (filter (fun m => sender m = "system") history) = length history.
Proof.
  induction history as [|m history IH]; [reflexivity|].
  rewrite !filter_cons.
  destruct (decide (sender m ≠ "system")) as [Hne|He];
    destruct (decide (sender m = "system")) as [He'|Hne']; simpl; try lia.
  - contradiction.
  - exfalso. apply He. exact Hne'.
Qed.

Lemma relabel_system (m : ChatMessage) :
  sender m = "system" → VideoController.relabel m = {| role := "model"; parts := text m |}.
Proof. intros H. unfold VideoController.relabel. rewrite H. reflexivity. Qed.

(** C2, as the code has it.  For a chat turn whose history holds 7
    user/ai messages and 2 system messages: [chatWithVideo] derives a
    context of 5 entries, the most recent non-system messages re-labelled;
    [generateResponse] sends one generate-content request whose prompt
    interpolates all 9 messages re-labelled in order, the system messages
    under role "model". *)
Theorem chat_history_context (w : World) (req : ChatBody) (history : list ChatMessage) :
  chat_chatHistory req = Some history →
  length (filter (fun m => sender m ≠ "system") history) = 7 →
  length (filter (fun m => sender m = "system") history) = 2 →
  bool_decide (is_Some (AiController.genAI w)) = true →
  truthy (chat_videoUri req) = true →
  truthy (chat_question req) = true →
  (length (VideoController.recentHistory (Some history)) = 5 ∧
   ∃ recent,
     recent `suffix_of` filter (fun m => sender m ≠ "system") history ∧
     Forall (fun m => sender m ≠ "system") recent ∧
     VideoController.recentHistory (Some history) = VideoController.relabel <$> recent) ∧
  (generate_calls (AiController.generateResponse w req []).2 =
     [AiController.pro_call w
        [FileData "video/mp4" (default "" (chat_videoUri req));
         TextPart (AiController.chat_prompt (default "" (chat_question req))
                     (VideoController.relabel <$> history))]] ∧
   length (VideoController.relabel <$> history) = 9 ∧
   Forall (fun m => sender m = "system" →
                    {| role := "model"; parts := text m |}
                      ∈ VideoController.relabel <$> history) history).
Proof.
  intros Hh H7 H2 Hinit Huri Hq.
  destruct (recentHistory_recent (Some history)) as (recent & Hsuf & _ & Hns & Heq).
  simpl in *. repeat split.
  - rewrite recentHistory_length. simpl. rewrite H7. reflexivity.
  - exists recent. repeat split; assumption.
  - rewrite generateResponse_calls, Hinit, Huri, Hq, Hh. reflexivity.
  - rewrite length_fmap, <- (system_split_length history), H7, H2. reflexivity.
  - apply Forall_forall. intros m Hm Hs.
    rewrite <- (relabel_system m Hs). apply list_elem_of_fmap_2, Hm.
Qed.

Lemma chat_history_context_witness :
  (length (VideoController.recentHistory (Some Fixture.nine_messages)) = 5 ∧
   ∃ recent,
     recent `suffix_of` filter (fun m => sender m ≠ "system") Fixture.nine_messages ∧
     Forall (fun m => sender m ≠ "system") recent ∧
     VideoController.recentHistory (Some Fixture.nine_messages)
       = VideoController.relabel <$> recent) ∧
  (generate_calls (AiController.generateResponse Fixture.chat_world Fixture.chat_turn []).2 =
     [AiController.pro_call Fixture.chat_world
        [FileData "video/mp4" (default "" (chat_videoUri Fixture.chat_turn));
         TextPart (AiController.chat_prompt (default "" (chat_question Fixture.chat_turn))
                     (VideoController.relabel <$> Fixture.nine_messages))]] ∧
   length (VideoController.relabel <$> Fixture.nine_messages) = 9 ∧
   Forall (fun m => sender m = "system" →
                    {| role := "model"; parts := text m |}
                      ∈ VideoController.relabel <$> Fixture.nine_messages)
          Fixture.nine_messages).
Proof.
  apply (chat_history_context Fixture.chat_world Fixture.chat_turn Fixture.nine_messages);
    vm_compute; reflexivity.
Defined.

(** C2 fails on both paths.  With 7 user/ai and 2 system messages,
    [generateResponse] interpolates all nine entries in its prompt, the
    first of them derived from a system message, and the request it sends
    is not the one carrying the reduced five-entry history; the request
    [chatWithVideo] sends has the video and the question and no history. *)
Lemma chat_context_counterexample :
  let q := "Is anyone else there?" in
  let uri := "https://provider.example/v1beta/files/abc123" in
  length (filter (fun m => sender m ≠ "system") Fixture.nine_messages) = 7 ∧
  length (filter (fun m => sender m = "system") Fixture.nine_messages) = 2 ∧
  generate_calls (AiController.generateResponse Fixture.chat_world Fixture.chat_turn []).2 =
    [AiController.pro_call Fixture.chat_world
       [FileData "video/mp4" uri;
        TextPart (AiController.chat_prompt q
                    (AiController.formattedHistory (Some Fixture.nine_messages)))]] ∧
  length (AiController.formattedHistory (Some Fixture.nine_messages)) = 9 ∧
  head (AiController.formattedHistory (Some Fixture.nine_messages)) =
    Some (VideoController.relabel (Fixture.msg "system" "Video uploaded successfully!")) ∧
  generate_calls (AiController.generateResponse Fixture.chat_world Fixture.chat_turn []).2 ≠
    [AiController.pro_call Fixture.chat_world
       [FileData "video/mp4" uri;
        TextPart (AiController.chat_prompt q
                    (VideoController.recentHistory (Some Fixture.nine_messages)))]] ∧
  generate_calls (VideoController.chatWithVideo Fixture.chat_world Fixture.chat_turn []).2 =
    [VideoController.flash_call Fixture.chat_world
       [InlineData "base64:4" "video/mp4";
        TextPart (q +:+ nl +:+ nl +:+
                  "Based on the video content, provide a clear and direct answer.")]].
Proof.
  cbv zeta. repeat split; try (vm_compute; reflexivity).
  intros H. vm_compute in H. discriminate H.
Qed.

(** ** Validation and initialisation *)

(** C7, what the code does.  [chatWithVideo] reads [filename], never
    [videoUri]: a chat request that carries a video URI, a question and a
    history but no file name is answered 500 with the validation message,
    and the provider is not called. *)
Theorem chatWithVideo_rejects_videoUri (w : World) (videoUri question : string)
    (chatHistory : list ChatMessage) :
  VideoController.chatWithVideo w
    (mkChatBody None (Some videoUri) (Some question) (Some chatHistory)) [] =
  (Normal (failure 500 "Video filename and question are required"),
   [EConsole ERROR "❌ Chat Error:"]).
Proof. reflexivity. Qed.

(** The request [handleSendMessage] posts never has a file name, so the
    chat endpoint, when it is [chatWithVideo], rejects every message the
    client sends; the client logs a system error entry after the
    user's message. *)
Lemma client_chat_always_fails (w : World) (b : Client.Browser) (s : Client.AppState) :
  (∀ body, Client.fetch_chat b body = (VideoController.chatWithVideo w body []).1) →
  negb (String.eqb (Client.trim b (Client.newMessage s)) "") = true →
  truthy (Client.selectedVideo s) = true →
  Client.isAnalyzing s = false →
  Client.messages (Client.handleSendMessage b s).2 =
    (Client.messages s ++
     [ {| text := Client.newMessage s; sender := "user";
          timestamp := Client.toISOString_now b |};
       Client.system_message b "❌ Error: Failed to get response" ])%list.
Proof.
  intros Hfetch Hmsg Hvideo Hidle.
  unfold Client.handleSendMessage. unfold_eff. cbv beta iota.
  unfold id. rewrite Hmsg, Hvideo, Hidle. simpl.
  rewrite Hfetch. simpl. rewrite <- app_assoc. reflexivity.
Qed.

(** C4, as the code has it.  When [GOOGLE_AI_KEY] is absent or empty,
    both handlers of the AI controller answer every request with status
    500 and the initialisation error, and make no provider call: the only
    effect is the error written to the console. *)
Theorem ai_endpoints_need_key (w : World) :
  truthy (env w !! "GOOGLE_AI_KEY") = false →
  (∀ req, AiController.analyzeVideoContent w req [] =
          (Normal (failure 500 "Gemini API not properly initialized"),
           [EConsole ERROR "Analysis Error:"])) ∧
  (∀ req, AiController.generateResponse w req [] =
          (Normal (failure 500 "Gemini API not properly initialized"),
           [EConsole ERROR "Response Error:"])).
Proof.
  intros Hkey. split; intros req.
  - unfold AiController.analyzeVideoContent, AiController.genAI. rewrite Hkey. reflexivity.
  - unfold AiController.generateResponse, AiController.genAI. rewrite Hkey. reflexivity.
Qed.

Lemma ai_endpoints_need_key_witness :
  let w := Fixture.world None Fixture.disk Fixture.becomes_active
             (Fixture.answers "A cat runs.") (Normal tt) in
  (∀ req, AiController.analyzeVideoContent w req [] =
          (Normal (failure 500 "Gemini API not properly initialized"),
           [EConsole ERROR "Analysis Error:"])) ∧
  (∀ req, AiController.generateResponse w req [] =
          (Normal (failure 500 "Gemini API not properly initialized"),
           [EConsole ERROR "Response Error:"])).
Proof.
  apply (ai_endpoints_need_key
           (Fixture.world None Fixture.disk Fixture.becomes_active
              (Fixture.answers "A cat runs.") (Normal tt))).
  reflexivity.
Defined.

(** C4 fails for the video controller.  With no key in the environment
    and a provider that rejects the unauthenticated request,
    [analyzeVideo] and [chatWithVideo] still call the provider, and the
    error they return is the provider's, not an initialisation error. *)
Lemma video_endpoints_call_provider_without_key :
  let w := Fixture.world None Fixture.disk Fixture.becomes_active
             (Throw "API key not valid. Please pass a valid API key.") (Normal tt) in
  let analyze := VideoController.analyzeVideo w
                   {| VideoController.analyze_filename := Some "clip.webm";
                      VideoController.analyze_prompt := Some "Describe this" |} [] in
  let chat := VideoController.chatWithVideo w
                (mkChatBody (Some "clip.webm") None (Some "What happens?") (Some [])) [] in
  env w !! "GOOGLE_AI_KEY" = None ∧ env w !! "GEMINI_API_KEY" = None ∧
  analyze.1 = Normal (failure 500 "API key not valid. Please pass a valid API key.") ∧
  call_apiKey <$> generate_calls analyze.2 = [None] ∧
  chat.1 = Normal (failure 500 "API key not valid. Please pass a valid API key.") ∧
  call_apiKey <$> generate_calls chat.2 = [None].
Proof. cbv zeta. repeat split; vm_compute; reflexivity. Qed.

Lemma initialised_iff (w : World) :
  bool_decide (is_Some (AiController.genAI w)) = truthy (env w !! "GOOGLE_AI_KEY").
Proof.
  unfold AiController.genAI.
  destruct (env w !! "GOOGLE_AI_KEY") as [k|]; simpl; [|reflexivity].
  destruct (String.eqb k ""); reflexivity.
Qed.

(** Every handler answers, and with one of three statuses. *)
Ltac answered :=
  solve [eexists; split; [reflexivity|]; cbn; auto].

Lemma uploadVideo_status (w : World) (req : VideoController.UploadRequest) :
  ∃ r, (VideoController.uploadVideo w req []).1 = Normal r ∧
       (status r = 200%Z ∨ status r = 400%Z).
Proof.
  unfold VideoController.uploadVideo, VideoController.upload,
    VideoController.fileFilter, VideoController.destination.
  unfold_eff. destruct req as [[file|]]; cbn [VideoController.video]; [|answered].
  destruct (bool_decide _); [|answered].
  destruct (dir_exists w _); cbn [negb fst snd];
    (destruct (_ <? _)%N; [answered|]);
    (destruct (disk_write w _ _) as [[]|m]; answered).
Qed.

Lemma analyzeVideo_status (w : World) (req : VideoController.AnalyzeBody) :
  ∃ r, (VideoController.analyzeVideo w req []).1 = Normal r ∧
       (status r = 200%Z ∨ status r = 500%Z).
Proof.
  unfold VideoController.analyzeVideo. unfold_eff.
  destruct (negb _ || negb _); cbn [fst snd]; [answered|].
  on_disk; try answered.
  destruct (model_generateContent w _) as [[[[[t|m]|]]|]|m];
    cbn [option_bind response mbind fst snd]; answered.
Qed.

Lemma chatWithVideo_status (w : World) (req : ChatRequest) :
  ∃ r, (VideoController.chatWithVideo w req []).1 = Normal r ∧
       (status r = 200%Z ∨ status r = 500%Z).
Proof.
  unfold VideoController.chatWithVideo. unfold_eff.
  destruct (negb _ || negb _); cbn [fst snd]; [answered|].
  on_disk; try answered.
  destruct (VideoController.recentHistory_of w _) as [recent|m];
    cbn [fst snd]; [|answered].
  destruct (model_generateContent w _) as [[[[[t|m]|]]|]|m];
    cbn [option_bind response mbind fst snd]; answered.
Qed.

Lemma analyzeVideoContent_status (w : World) (req : AiController.AnalyzeBody) :
  ∃ r, (AiController.analyzeVideoContent w req []).1 = Normal r ∧
       (status r = 200%Z ∨ status r = 400%Z ∨ status r = 500%Z).
Proof.
  unfold AiController.analyzeVideoContent. unfold_eff.
  destruct (bool_decide (is_Some (AiController.genAI w)));
    destruct (bool_decide (is_Some (AiController.fileManager w)));
    cbn [negb orb fst snd]; try answered.
  destruct (truthy (AiController.videoPath req)); cbn [negb fst snd]; try answered.
  on_disk; try answered.
  - destruct (N.of_nat (length fileBuffer) =? 0)%N; cbn [negb fst snd]; try answered.
    destruct (fm_uploadFile w _ _ _) as [[[[uploaded|]]|]|m];
      cbn -[AiController.wait_while_processing]; try answered.
    destruct (fm_getFile w _ _) as [file|m];
      cbn -[AiController.wait_while_processing]; try answered.
    destruct (AiController.wait_while_processing w _ _ _ _ _) as [[[file1 att]|m] tr1];
      cbn [fst snd]; try answered.
    destruct (String.eqb (file_state file1) "ACTIVE"); cbn [negb fst snd]; try answered.
    destruct (model_generateContent w _) as [[[[[t|m]|]]|]|m];
      cbn [option_bind response mbind fst snd]; try answered.
    destruct (fm_deleteFile w _) as [[]|m]; answered.
  - destruct (unreadable_size other =? 0)%N; cbn [negb fst snd]; answered.
Qed.

Lemma generateResponse_status (w : World) (req : ChatRequest) :
  ∃ r, (AiController.generateResponse w req []).1 = Normal r ∧
       (status r = 200%Z ∨ status r = 400%Z ∨ status r = 500%Z).
Proof.
  unfold AiController.generateResponse. unfold_eff.
  destruct (bool_decide (is_Some (AiController.genAI w))); cbn [negb fst snd];
    try answered.
  destruct (json_truthy (req_videoUri req)); cbn [negb fst snd]; try answered.
  destruct (truthy (req_question req)); cbn [negb fst snd]; try answered.
  destruct (AiController.substring_receiver w _) as [uri|m]; cbn [fst snd];
    try answered.
  destruct (AiController.formattedHistory_of w _) as [history|m]; cbn [fst snd];
    try answered.
  destruct (model_generateContent w _) as [[[[[t|m]|]]|]|m];
    cbn [option_bind response mbind fst snd]; answered.
Qed.

Lemma not_404 (r : HttpResponse) :
  status r = 200%Z ∨ status r = 400%Z ∨ status r = 500%Z → status r ≠ 404%Z.
Proof. intros [H|[H|H]]; rewrite H; discriminate. Qed.

(** C5, as the code has it.  With the API initialised the AI controller
    answers 400 to a missing video path, a path at which nothing exists,
    a file of size 0, a missing video URI and a missing question.  The
    upload handler answers 400 to a disallowed mimetype and to a request
    without a file.  The analyze and chat handlers of the video controller
    answer 500 to a missing file name, prompt or question and to a path at
    which nothing exists: their single catch block maps every failure to
    500.  No handler answers 404: each of the five always answers, and
    never with that status. *)
Theorem validation_statuses (w : World) :
  (truthy (env w !! "GOOGLE_AI_KEY") = true →
   (∀ req, truthy (AiController.videoPath req) = false →
      (AiController.analyzeVideoContent w req []).1 =
        Normal (failure 400 "Video path is required")) ∧
   (∀ req, truthy (AiController.videoPath req) = true →
      fs_existsSync w (default "" (AiController.videoPath req)) = false →
      (AiController.analyzeVideoContent w req []).1 =
        Normal (failure 400 "Video file not found or not accessible")) ∧
   (∀ req, truthy (AiController.videoPath req) = true →
      fs_existsSync w (default "" (AiController.videoPath req)) = true →
      fs_statSync_size w (default "" (AiController.videoPath req)) = Normal 0%N →
      (AiController.analyzeVideoContent w req []).1 =
        Normal (failure 400 "Video file is empty")) ∧
   (∀ req, json_truthy (req_videoUri req) = false →
      (AiController.generateResponse w req []).1 =
        Normal (failure 400 "Video URI is required")) ∧
   (∀ req, json_truthy (req_videoUri req) = true → truthy (req_question req) = false →
      (AiController.generateResponse w req []).1 =
        Normal (failure 400 "Question is required"))) ∧
  (∀ file, VideoController.mimetype file ∉ VideoController.allowedTypes →
     (VideoController.uploadVideo w {| VideoController.video := Some file |} []).1 =
       Normal (failure 400 "Only MP4, WebM and MOV video files are allowed")) ∧
  (VideoController.uploadVideo w {| VideoController.video := None |} []).1 =
     Normal (failure 400 "No video file uploaded") ∧
  (∀ req, truthy (VideoController.analyze_filename req)
          && truthy (VideoController.analyze_prompt req) = false →
     (VideoController.analyzeVideo w req []).1 =
       Normal (failure 500 "Video filename and prompt are required")) ∧
  (∀ req, truthy (VideoController.analyze_filename req)
          && truthy (VideoController.analyze_prompt req) = true →
     fs_existsSync w (path_join w [dirname w; "../../uploads";
                        default "" (VideoController.analyze_filename req)]) = false →
     (VideoController.analyzeVideo w req []).1 =
       Normal (failure 500 "Video file not found")) ∧
  (∀ req, truthy (req_filename req) && truthy (req_question req) = false →
     (VideoController.chatWithVideo w req []).1 =
       Normal (failure 500 "Video filename and question are required")) ∧
  (∀ req, truthy (req_filename req) && truthy (req_question req) = true →
     fs_existsSync w (path_join w [dirname w; "../../uploads";
                        default "" (req_filename req)]) = false →
     (VideoController.chatWithVideo w req []).1 =
       Normal (failure 500 "Video file not found")) ∧
  ((∀ req, ∃ r, (AiController.analyzeVideoContent w req []).1 = Normal r ∧
                status r ≠ 404%Z) ∧
   (∀ req, ∃ r, (AiController.generateResponse w req []).1 = Normal r ∧
                status r ≠ 404%Z) ∧
   (∀ req, ∃ r, (VideoController.uploadVideo w req []).1 = Normal r ∧
                status r ≠ 404%Z) ∧
   (∀ req, ∃ r, (VideoController.analyzeVideo w req []).1 = Normal r ∧
                status r ≠ 404%Z) ∧
   (∀ req, ∃ r, (VideoController.chatWithVideo w req []).1 = Normal r ∧
                status r ≠ 404%Z)).
Proof.
  repeat apply conj.
  - intros Hkey.
    assert (bool_decide (is_Some (AiController.genAI w)) = true) as Hg
      by (rewrite initialised_iff; exact Hkey).
    assert (bool_decide (is_Some (AiController.fileManager w)) = true) as Hf
      by exact Hg.
    repeat apply conj.
    + intros req Hp. unfold AiController.analyzeVideoContent. unfold_eff.
      rewrite Hg, Hf, Hp. reflexivity.
    + intros req Hp Hnone. unfold AiController.analyzeVideoContent. unfold_eff.
      rewrite Hg, Hf, Hp. cbn [negb orb fst snd]. rewrite Hnone. reflexivity.
    + intros req Hp Hsome Hempty. unfold AiController.analyzeVideoContent. unfold_eff.
      rewrite Hg, Hf, Hp. cbn [negb orb fst snd]. rewrite Hsome, Hempty. reflexivity.
    + intros req Hu. unfold AiController.generateResponse. unfold_eff.
      rewrite Hg, Hu. reflexivity.
    + intros req Hu Hq. unfold AiController.generateResponse. unfold_eff.
      rewrite Hg, Hu, Hq. reflexivity.
  - intros file Hbad. unfold VideoController.uploadVideo, VideoController.upload,
      VideoController.fileFilter. unfold_eff. simpl.
    rewrite bool_decide_eq_false_2 by exact Hbad. reflexivity.
  - reflexivity.
  - intros req Hreq. unfold VideoController.analyzeVideo. unfold_eff.
    rewrite <- negb_andb, Hreq. reflexivity.
  - intros req Hreq Hnone. unfold VideoController.analyzeVideo. unfold_eff.
    rewrite <- negb_andb, Hreq. cbn [negb fst snd]. rewrite Hnone. reflexivity.
  - intros req Hreq. unfold VideoController.chatWithVideo. unfold_eff.
    rewrite <- negb_andb, Hreq. reflexivity.
  - intros req Hreq Hnone. unfold VideoController.chatWithVideo. unfold_eff.
    rewrite <- negb_andb, Hreq. cbn [negb fst snd]. rewrite Hnone. reflexivity.
  - intros req. destruct (analyzeVideoContent_status w req) as (r & Hr & Hs).
    exists r. split; [exact Hr|]. apply not_404. exact Hs.
  - intros req. destruct (generateResponse_status w req) as (r & Hr & Hs).
    exists r. split; [exact Hr|]. apply not_404. exact Hs.
  - intros req. destruct (uploadVideo_status w req) as (r & Hr & Hs).
    exists r. split; [exact Hr|]. apply not_404. tauto.
  - intros req. destruct (analyzeVideo_status w req) as (r & Hr & Hs).
    exists r. split; [exact Hr|]. apply not_404. tauto.
  - intros req. destruct (chatWithVideo_status w req) as (r & Hr & Hs).
    exists r. split; [exact Hr|]. apply not_404. tauto.
Qed.

Lemma validation_statuses_witness :
  let w := Fixture.validation_world in
  (AiController.analyzeVideoContent w {| AiController.videoPath := None |} []).1 =
    Normal (failure 400 "Video path is required") ∧
  (AiController.analyzeVideoContent w
     {| AiController.videoPath := Some "/srv/uploads/missing.mp4" |} []).1 =
    Normal (failure 400 "Video file not found or not accessible") ∧
  (AiController.analyzeVideoContent w
     {| AiController.videoPath := Some "/srv/uploads/empty.mp4" |} []).1 =
    Normal (failure 400 "Video file is empty") ∧
  (AiController.generateResponse w
     (mkChatBody None None (Some "What happens?") (Some [])) []).1 =
    Normal (failure 400 "Video URI is required") ∧
  (AiController.generateResponse w
     (mkChatBody None (Some "https://provider.example/v1beta/files/abc123") None
                 (Some [])) []).1 =
    Normal (failure 400 "Question is required") ∧
  (VideoController.uploadVideo w
     {| VideoController.video := Some Fixture.notes_txt |} []).1 =
    Normal (failure 400 "Only MP4, WebM and MOV video files are allowed") ∧
  (VideoController.analyzeVideo w
     {| VideoController.analyze_filename := None;
        VideoController.analyze_prompt := Some "Describe this" |} []).1 =
    Normal (failure 500 "Video filename and prompt are required") ∧
  (VideoController.analyzeVideo w
     {| VideoController.analyze_filename := Some "missing.mp4";
        VideoController.analyze_prompt := Some "Describe this" |} []).1 =
    Normal (failure 500 "Video file not found") ∧
  (VideoController.chatWithVideo w
     (mkChatBody (Some "clip.webm") None None (Some [])) []).1 =
    Normal (failure 500 "Video filename and question are required") ∧
  (VideoController.chatWithVideo w
     (mkChatBody (Some "missing.mp4") None (Some "What happens?") (Some [])) []).1 =
    Normal (failure 500 "Video file not found").
Proof.
  cbv zeta.
  destruct (validation_statuses Fixture.validation_world)
    as (Hai & H6 & _ & H8 & H9 & H10 & H11 & _).
  destruct (Hai ltac:(vm_compute; reflexivity)) as (H1 & H2 & H3 & H4 & H5).
  repeat apply conj.
  - apply H1. reflexivity.
  - apply H2; vm_compute; reflexivity.
  - apply H3; vm_compute; reflexivity.
  - apply H4. reflexivity.
  - apply H5; reflexivity.
  - apply H6. apply (bool_decide_eq_false_1 _). vm_compute. reflexivity.
  - apply H8. reflexivity.
  - apply H9; vm_compute; reflexivity.
  - apply (H10 (mkChatBody (Some "clip.webm") None None (Some []))). reflexivity.
  - apply (H11 (mkChatBody (Some "missing.mp4") None (Some "What happens?") (Some [])));
      vm_compute; reflexivity.
Defined.

(** C5 fails for the video controller: an analyze request without a file
    name, and a chat request for a file that does not exist, are answered
    with status 500, which is neither 400 nor 404. *)
Lemma video_validation_counterexample :
  let w := Fixture.validation_world in
  status <$> (VideoController.analyzeVideo w
                {| VideoController.analyze_filename := None;
                   VideoController.analyze_prompt := Some "Describe this" |} []).1
    = Normal 500%Z ∧
  status <$> (VideoController.chatWithVideo w
                (mkChatBody (Some "missing.mp4") None (Some "What happens?")
                            (Some [])) []).1
    = Normal 500%Z.
Proof. cbv zeta. split; vm_compute; reflexivity. Qed.

(** ** Storing an upload *)

Lemma uploadVideo_too_large (w : World) (file : VideoController.MultipartFile) :
  VideoController.mimetype file ∈ VideoController.allowedTypes →
  (VideoController.fileSize < N.of_nat (length (VideoController.content file)))%N →
  (VideoController.uploadVideo w {| VideoController.video := Some file |} []).1 =
    Normal (failure 400 "File too large").
Proof.
  intros Hok Hbig.
  unfold VideoController.uploadVideo, VideoController.upload, VideoController.fileFilter,
    VideoController.destination.
  unfold_eff. cbn [VideoController.video].
  rewrite bool_decide_eq_true_2 by exact Hok.
  apply N.ltb_lt in Hbig.
  destruct (dir_exists w _); cbn [negb fst snd]; rewrite Hbig; reflexivity.
Qed.

(** C6, as the code has it.  The generated name is the clock reading, a
    dash and a random integer, followed by [path.extname] of the original
    name.  An upload whose
    declared mimetype is on the allow-list, whose size is within the
    25 MiB limit and whose write to disk succeeds is stored and described
    in a 200 response; an upload with any other mimetype is answered 400
    with the filter's message, nothing is written and no file descriptor
    is returned. *)
Theorem store_by_mimetype (w : World) (file : VideoController.MultipartFile) :
  let uploadsDir := path_join w [dirname w; "../../uploads"] in
  let name := VideoController.filename w file in
  let size := N.of_nat (length (VideoController.content file)) in
  name = (pretty (Date_now w) +:+ "-" +:+ pretty (Math_random_1E9 w))
           +:+ path_extname w (VideoController.originalname file) ∧
  (VideoController.mimetype file ∈ VideoController.allowedTypes →
   (size ≤ VideoController.fileSize)%N →
   disk_write w (path_join w [uploadsDir; name]) (VideoController.content file)
     = Normal tt →
   (VideoController.uploadVideo w {| VideoController.video := Some file |} []).1 =
     Normal (success "file"
               [("filename", JStr name);
                ("path", JStr (path_join w [uploadsDir; name]));
                ("size", JNum (Z.of_N size));
                ("mimetype", JStr (VideoController.mimetype file))])) ∧
  (VideoController.mimetype file ∉ VideoController.allowedTypes →
   VideoController.uploadVideo w {| VideoController.video := Some file |} [] =
     (Normal (failure 400 "Only MP4, WebM and MOV video files are allowed"),
      [EConsole ERROR "❌ Upload Error:"])).
Proof.
  cbv zeta. repeat apply conj.
  - reflexivity.
  - intros Hok Hsize Hwrite.
    unfold VideoController.uploadVideo, VideoController.upload,
      VideoController.fileFilter, VideoController.destination.
    unfold_eff. cbn [VideoController.video].
    rewrite bool_decide_eq_true_2 by exact Hok.
    apply N.ltb_ge in Hsize.
    destruct (dir_exists w _); cbn [negb fst snd]; rewrite Hsize, Hwrite; reflexivity.
  - intros Hbad.
    unfold VideoController.uploadVideo, VideoController.upload,
      VideoController.fileFilter.
    unfold_eff. cbn [VideoController.video].
    rewrite bool_decide_eq_false_2 by exact Hbad. reflexivity.
Qed.

Lemma store_by_mimetype_witness :
  let w := Fixture.validation_world in
  (VideoController.uploadVideo w
     {| VideoController.video := Some Fixture.clip_webm |} []).1 =
    Normal (success "file"
              [("filename", JStr "1700000000000-123456789.webm");
               ("path", JStr "/srv/backend/src/controllers/../../uploads/1700000000000-123456789.webm");
               ("size", JNum 4);
               ("mimetype", JStr "video/webm")]) ∧
  VideoController.uploadVideo w
    {| VideoController.video := Some Fixture.notes_txt |} [] =
    (Normal (failure 400 "Only MP4, WebM and MOV video files are allowed"),
     [EConsole ERROR "❌ Upload Error:"]).
Proof.
  cbv zeta. split.
  - apply (store_by_mimetype Fixture.validation_world Fixture.clip_webm).
    + apply (bool_decide_eq_true_1 _). vm_compute. reflexivity.
    + vm_compute. discriminate.
    + reflexivity.
  - apply (store_by_mimetype Fixture.validation_world Fixture.notes_txt).
    apply (bool_decide_eq_false_1 _). vm_compute. reflexivity.
Defined.

(** C6 fails for an allowed mimetype above the size limit: an mp4 of
    25 MiB and one byte is refused with status 400. *)
Lemma oversized_upload_counterexample :
  VideoController.mimetype Fixture.oversized_mp4 ∈ VideoController.allowedTypes ∧
  (VideoController.uploadVideo Fixture.validation_world
     {| VideoController.video := Some Fixture.oversized_mp4 |} []).1 =
    Normal (failure 400 "File too large").
Proof.
  assert (VideoController.mimetype Fixture.oversized_mp4 ∈ VideoController.allowedTypes)
    as Hok.
  { change (VideoController.mimetype Fixture.oversized_mp4) with "video/mp4".
    apply (bool_decide_eq_true_1 _). vm_compute. reflexivity. }
  split; [exact Hok|].
  apply uploadVideo_too_large; [exact Hok|].
  change (VideoController.content Fixture.oversized_mp4)
    with (replicate (N.to_nat 26214401) Byte.x00).
  rewrite length_replicate, N2Nat.id. reflexivity.
Qed.

(** ** The client after an upload *)

(** Every 200 response of [uploadVideo] has the documented body: the flag
    and a file descriptor with exactly four fields. *)
Lemma uploadVideo_success_body (w : World) (req : VideoController.UploadRequest)
    (r : HttpResponse) :
  (VideoController.uploadVideo w req []).1 = Normal r →
  status r = 200%Z →
  ∃ filename path size mimetype,
    r = success "file" [("filename", JStr filename); ("path", JStr path);
                        ("size", JNum size); ("mimetype", JStr mimetype)].
Proof.
  unfold VideoController.uploadVideo, VideoController.upload,
    VideoController.fileFilter, VideoController.destination.
  unfold_eff. destruct req as [[file|]]; cbn [VideoController.video].
  - destruct (bool_decide _); [|intros [= <-]; discriminate].
    destruct (dir_exists w _); cbn [negb fst snd];
      (destruct (_ <? _)%N; [intros [= <-]; discriminate|]);
      (destruct (disk_write w _ _) as [[]|m]; [|intros [= <-]; discriminate]);
      intros [= <-] _; eauto.
  - intros [= <-]. discriminate.
Qed.

(** C9. When the upload request is answered with the documented success
    body, the [try] block of [handleVideoUpload] throws while reading
    [data.file.analysis.text]; the handler then leaves a chat log of one
    system entry carrying the error, and no selected video. *)
Theorem upload_success_shown_as_failure (b : Client.Browser) (file : Client.File)
    (s : Client.AppState) (filename path mimetype : string) (size : Z) :
  startsWith "video/" (Client.File_type file) = true →
  Client.fetch_upload b file =
    Normal (success "file" [("filename", JStr filename); ("path", JStr path);
                            ("size", JNum size); ("mimetype", JStr mimetype)]) →
  let message := Client.TypeError_message b JUndefined "text" in
  (Client.upload_attempt b file s).1 = Throw message ∧
  Client.handleVideoUpload b file s =
    (Normal tt,
     Client.mkApp [Client.system_message b ("❌ " +:+ message)]
                  (Client.newMessage s) None false (Client.isDragging s) 0 "").
Proof.
  intros Htype Hfetch message.
  unfold Client.handleVideoUpload, Client.upload_attempt. unfold_eff.
  rewrite Htype, Hfetch. split; reflexivity.
Qed.

Lemma upload_success_shown_as_failure_witness :
  Client.handleVideoUpload Fixture.browser Fixture.holiday_clip Fixture.fresh_app =
    (Normal tt,
     Client.mkApp
       [ {| text := "❌ Cannot read properties of undefined (reading 'text')";
            sender := "system"; timestamp := "2023-11-14T22:13:21.000Z" |} ]
       "" None false false 0 "").
Proof.
  apply (upload_success_shown_as_failure Fixture.browser Fixture.holiday_clip
           Fixture.fresh_app "1700000000000-123456789.webm"
           "/srv/backend/src/controllers/../../uploads/1700000000000-123456789.webm"
           "video/webm" 4).
  - reflexivity.
  - vm_compute. reflexivity.
Defined.

(** End to end: whenever [uploadVideo] answers an upload of a video file
    with status 200, the client that sent it ends with the error entry and
    no selected video. *)
Lemma stored_upload_shown_as_failure (w : World) (b : Client.Browser)
    (file : Client.File) (s : Client.AppState) (r : HttpResponse) :
  startsWith "video/" (Client.File_type file) = true →
  Client.fetch_upload b file =
    (VideoController.uploadVideo w (Client.multipart file) []).1 →
  (VideoController.uploadVideo w (Client.multipart file) []).1 = Normal r →
  status r = 200%Z →
  let final := (Client.handleVideoUpload b file s).2 in
  Client.messages final =
    [Client.system_message b ("❌ " +:+ Client.TypeError_message b JUndefined "text")] ∧
  Client.selectedVideo final = None.
Proof.
  intros Htype Hfetch Hserved Hstatus.
  destruct (uploadVideo_success_body w _ r Hserved Hstatus)
    as (filename & path & size & mimetype & ->).
  rewrite Hserved in Hfetch. cbv zeta.
  unfold Client.handleVideoUpload, Client.upload_attempt. unfold_eff.
  rewrite Htype, Hfetch. split; reflexivity.
Qed.

(** ** Protocol B: the wait loop *)

Lemma getFile_calls_app (a b : Trace) :
  getFile_calls (a ++ b) = getFile_calls a + getFile_calls b.
Proof. unfold getFile_calls. rewrite List.filter_app, length_app. reflexivity. Qed.

Lemma sleeps_app (a b : Trace) : sleeps (a ++ b) = sleeps a ++ sleeps b.
Proof. apply omap_app. Qed.

Lemma generate_calls_app (a b : Trace) :
  generate_calls (a ++ b) = generate_calls a ++ generate_calls b.
Proof. apply omap_app. Qed.

Lemma deleted_names_app (a b : Trace) :
  deleted_names (a ++ b) = deleted_names a ++ deleted_names b.
Proof. apply omap_app. Qed.

Lemma errors_app (a b : Trace) : errors (a ++ b) = errors a ++ errors b.
Proof. apply omap_app. Qed.

Lemma warnings_app (a b : Trace) : warnings (a ++ b) = warnings a ++ warnings b.
Proof. apply omap_app. Qed.

(** One round: while the last state seen is PROCESSING and rounds remain,
    the loop sleeps, fetches the file again and logs the attempt. *)
Lemma wait_step (w : World) (name : string) (remaining : nat) (file : RemoteFile)
    (attempts : nat) (tr : Trace) :
  file_state file = "PROCESSING" →
  AiController.wait_while_processing w name (S remaining) file attempts tr =
  match fm_getFile w (getFile_calls tr) name with
  | Normal file' =>
    AiController.wait_while_processing w name remaining file' (S attempts)
      (tr ++ AiController.round name (S attempts) (file_state file'))
  | Throw message => (Throw message, tr ++ [ESleep 2000; EGetFile name])
  end.
Proof.
  intros Hstate. cbn [AiController.wait_while_processing].
  rewrite Hstate. unfold_eff. cbn [String.eqb Ascii.eqb Bool.eqb].
  rewrite getFile_calls_app. cbn [getFile_calls List.filter is_getFile length].
  rewrite Nat.add_0_r.
  destruct (fm_getFile w _ name) as [file'|m]; rewrite <- !app_assoc; reflexivity.
Qed.

Lemma wait_stop (w : World) (name : string) (remaining : nat) (file : RemoteFile)
    (attempts : nat) (tr : Trace) :
  String.eqb (file_state file) "PROCESSING" = false →
  AiController.wait_while_processing w name remaining file attempts tr =
  (Normal (file, attempts), tr).
Proof. intros H. destruct remaining; simpl; [|rewrite H]; reflexivity. Qed.

(** Whatever the provider answers, the loop only sleeps 2000 ms, fetches
    the file and logs, for at most [remaining] rounds. *)
Lemma wait_trace (w : World) (name : string) (remaining : nat) :
  ∀ file attempts tr, ∃ tr',
    (AiController.wait_while_processing w name remaining file attempts tr).2 = tr ++ tr' ∧
    forallb (AiController.loop_event name) tr' = true ∧
    (length (sleeps tr') ≤ remaining)%nat ∧
    getFile_calls tr' = length (sleeps tr').
Proof.
  induction remaining as [|remaining IH]; intros file attempts tr.
  - exists []. rewrite app_nil_r. repeat split. simpl. lia.
  - destruct (String.eqb (file_state file) "PROCESSING") eqn:Hstate.
    + apply String.eqb_eq in Hstate. rewrite (wait_step _ _ _ _ _ _ Hstate).
      destruct (fm_getFile w _ name) as [file'|m].
      * destruct (IH file' (S attempts)
                    (tr ++ AiController.round name (S attempts) (file_state file')))
          as (tr' & Heq & Hev & Hlen & Hget).
        exists (AiController.round name (S attempts) (file_state file') ++ tr').
        rewrite Heq, <- app_assoc. split; [reflexivity|].
        rewrite forallb_app, sleeps_app, getFile_calls_app, Hev, Hget.
        cbn [AiController.round AiController.loop_event forallb sleeps omap].
        rewrite String.eqb_refl. repeat split. simpl length. lia.
      * exists [ESleep 2000; EGetFile name]. cbn. rewrite String.eqb_refl.
        repeat split. lia.
    + rewrite wait_stop by exact Hstate. exists []. rewrite app_nil_r.
      repeat split. simpl. lia.
Qed.

Lemma loop_sleeps (name : string) (tr : Trace) :
  forallb (AiController.loop_event name) tr = true → Forall (eq 2000%Z) (sleeps tr).
Proof.
  induction tr as [|e tr IH]; intros H; [constructor|].
  cbn [forallb] in H. apply andb_true_iff in H as [He Htr].
  destruct e; try discriminate He; try (apply IH, Htr).
  cbn. constructor; [|apply IH, Htr]. apply Z.eqb_eq in He. congruence.
Qed.

Lemma loop_quiet (name : string) (tr : Trace) :
  forallb (AiController.loop_event name) tr = true →
  deleted_names tr = [] ∧ errors tr = [] ∧ warnings tr = [] ∧ generate_calls tr = [].
Proof.
  induction tr as [|e tr IH]; intros H; [repeat split|].
  cbn [forallb] in H. apply andb_true_iff in H as [He Htr].
  destruct (IH Htr) as (Hd & Herr & Hw & Hg).
  destruct e as [[] ?| | | | | | |]; try discriminate He; cbn; repeat split; assumption.
Qed.

(** A file that stays in PROCESSING uses up every remaining round. *)
Lemma wait_never_active (w : World) (name : string) :
  (∀ n, ∃ f, fm_getFile w n name = Normal f ∧ file_state f = "PROCESSING") →
  ∀ remaining file attempts tr,
    file_state file = "PROCESSING" →
    ∃ file' tr',
      AiController.wait_while_processing w name remaining file attempts tr =
        (Normal (file', attempts + remaining), tr ++ tr') ∧
      file_state file' = "PROCESSING" ∧
      sleeps tr' = replicate remaining 2000%Z ∧
      getFile_calls tr' = remaining ∧
      generate_calls tr' = [] ∧
      (remaining ≠ 0 →
       EConsole LOG ("Processing attempt " +:+ pretty (attempts + remaining) +:+
                     ", state: " +:+ "PROCESSING") ∈ tr').
Proof.
  intros Hnever. induction remaining as [|remaining IH]; intros file attempts tr Hstate.
  - exists file, []. rewrite app_nil_r, Nat.add_0_r. repeat split; [exact Hstate|].
    intros H. contradiction H. reflexivity.
  - rewrite (wait_step _ _ _ _ _ _ Hstate).
    destruct (Hnever (getFile_calls tr)) as (file1 & -> & Hstate1).
    destruct (IH file1 (S attempts)
                (tr ++ AiController.round name (S attempts) (file_state file1)) Hstate1)
      as (file' & tr' & Heq & Hstate' & Hsleeps & Hget & Hgen & Hlog).
    exists file', (AiController.round name (S attempts) (file_state file1) ++ tr').
    rewrite Heq, <- app_assoc, sleeps_app, getFile_calls_app, generate_calls_app,
      Hsleeps, Hget, Hgen.
    replace (attempts + S remaining) with (S attempts + remaining) in * by lia.
    repeat split; [exact Hstate'|]. intros _. apply elem_of_app.
    destruct remaining as [|remaining].
    + left. rewrite Nat.add_0_r, Hstate1. unfold AiController.round.
      apply list_elem_of_In. simpl. auto.
    + right. apply Hlog. discriminate.
Qed.

Lemma non_empty_size (fileBuffer : Buffer) :
  fileBuffer ≠ [] → (N.of_nat (length fileBuffer) =? 0)%N = false.
Proof. destruct fileBuffer; [contradiction|reflexivity]. Qed.

Lemma named_truthy (videoPath : string) : videoPath ≠ "" → truthy (Some videoPath) = true.
Proof.
  intros H. simpl. destruct (String.eqb videoPath "") eqn:E; [|reflexivity].
  apply String.eqb_eq in E. contradiction.
Qed.

(** On every run the handler waits 2000 ms at a time, at most 30 times,
    and so fetches the remote file at most 31 times. *)
Lemma analyze_polling_bounds (w : World) (req : AiController.AnalyzeBody) :
  let tr := (AiController.analyzeVideoContent w req []).2 in
  Forall (eq 2000%Z) (sleeps tr) ∧ (length (sleeps tr) ≤ 30)%nat ∧
  (getFile_calls tr ≤ 31)%nat.
Proof.
  cbv zeta. unfold AiController.analyzeVideoContent. unfold_eff.
  destruct (bool_decide (is_Some (AiController.genAI w)));
    destruct (bool_decide (is_Some (AiController.fileManager w)));
    cbn [negb orb fst snd]; try (repeat split; [constructor|cbn; lia..]).
  destruct (truthy (AiController.videoPath req));
    cbn [negb fst snd]; try (repeat split; [constructor|cbn; lia..]).
  on_disk_size ltac:(solve [repeat split; [constructor|cbn; lia..]]).
  destruct (fm_uploadFile w _ _ _) as [[[[uploaded|]]|]|m];
    cbn -[AiController.wait_while_processing];
    try (repeat split; [constructor|cbn; lia..]).
  destruct (fm_getFile w _ _) as [file|m];
    cbn -[AiController.wait_while_processing];
    try (repeat split; [constructor|cbn; lia..]).
  match goal with
  | |- context [AiController.wait_while_processing w ?n ?r ?f ?a ?t] =>
    destruct (wait_trace w n r f a t) as (tr' & Heq & Hev & Hlen & Hget);
    destruct (AiController.wait_while_processing w n r f a t) as [[[file1 att]|m] tr1];
    cbn [snd] in Heq; subst tr1
  end;
  apply loop_sleeps in Hev; unfold AiController.maxAttempts in Hlen.
  2:{ cbn [fst snd]. rewrite !sleeps_app, !getFile_calls_app, Hget. cbn.
      rewrite ?app_nil_r. repeat split; [exact Hev|lia..]. }
  destruct (String.eqb (file_state file1) "ACTIVE"); cbn [negb fst snd].
  2:{ rewrite !sleeps_app, !getFile_calls_app, Hget. cbn. rewrite !app_nil_r.
      repeat split; [exact Hev|lia..]. }
  destruct (model_generateContent w _) as [[[[[t|m]|]]|]|m];
    cbn [option_bind response mbind fst snd];
    try destruct (fm_deleteFile w _) as [[]|m'];
    cbn [fst snd]; rewrite ?sleeps_app, ?getFile_calls_app, ?Hget; cbn;
    rewrite ?app_nil_r; (repeat split; [exact Hev|lia..]).
Qed.

Section Pipeline.

(** A request that reaches the provider: the API is initialised, the
    path names a non-empty file, and the provider accepts the upload. *)
Variables (w : World) (videoPath : string) (fileBuffer : Buffer) (uploaded : RemoteFile).

Hypothesis initialised : truthy (env w !! "GOOGLE_AI_KEY") = true.
Hypothesis named : videoPath ≠ "".
Hypothesis stored : files w !! videoPath = Some fileBuffer.
Hypothesis non_empty : fileBuffer ≠ [].
Hypothesis accepted : ∀ mimeType displayName,
  fm_uploadFile w fileBuffer mimeType displayName =
    Normal (Some {| upload_file := Some uploaded |}).

Lemma genAI_ready : bool_decide (is_Some (AiController.genAI w)) = true.
Proof. rewrite initialised_iff. exact initialised. Qed.

Lemma fileManager_ready : bool_decide (is_Some (AiController.fileManager w)) = true.
Proof. exact genAI_ready. Qed.

Ltac enter_pipeline :=
  unfold AiController.analyzeVideoContent; unfold_eff;
  rewrite genAI_ready, fileManager_ready;
  cbn [negb orb AiController.videoPath];
  rewrite (named_truthy _ named); cbn [negb default from_option id];
  destruct (fs_regular w videoPath fileBuffer stored) as (-> & -> & ->);
  cbn [negb fst snd];
  rewrite (non_empty_size _ non_empty), accepted;
  cbn -[AiController.wait_while_processing].

Lemma becomes_active_run (f0 f1 f2 f3 : RemoteFile) (t : string) :
  let name := file_name uploaded in
  fm_getFile w 0 name = Normal f0 → file_state f0 = "PROCESSING" →
  fm_getFile w 1 name = Normal f1 → file_state f1 = "PROCESSING" →
  fm_getFile w 2 name = Normal f2 → file_state f2 = "PROCESSING" →
  fm_getFile w 3 name = Normal f3 → file_state f3 = "ACTIVE" →
  model_generateContent w
    (AiController.pro_call w [FileData (file_mimeType f3) (file_uri f3);
                              TextPart AiController.analysis_prompt])
    = Normal (Some {| response := Some (Normal t) |}) →
  let run := AiController.analyzeVideoContent w
               {| AiController.videoPath := Some videoPath |} [] in
  run.1 = Normal (success "analysis"
                    [("text", JStr t); ("videoUri", JStr (file_uri f3));
                     ("timestamp", JStr (Date_json w));
                     ("type", JStr "initial-analysis")]) ∧
  sleeps run.2 = [2000; 2000; 2000]%Z ∧
  getFile_calls run.2 = 4 ∧
  EConsole LOG ("Processing attempt " +:+ pretty 3 +:+ ", state: " +:+ "ACTIVE")
    ∈ run.2.
Proof.
  intros name H0 S0 H1 S1 H2 S2 H3 S3 Hgen. cbv zeta. enter_pipeline.
  fold name. rewrite H0. cbn -[AiController.wait_while_processing].
  unfold AiController.maxAttempts.
  rewrite (wait_step _ _ _ _ _ _ S0). cbn [getFile_calls List.filter is_getFile length].
  fold name. rewrite H1.
  rewrite (wait_step _ _ _ _ _ _ S1), getFile_calls_app.
  cbn [getFile_calls List.filter is_getFile length AiController.round Nat.add].
  fold name. rewrite H2.
  rewrite (wait_step _ _ _ _ _ _ S2), !getFile_calls_app.
  cbn [getFile_calls List.filter is_getFile length AiController.round Nat.add].
  fold name. rewrite H3.
  rewrite wait_stop by (rewrite S3; reflexivity).
  cbn [fst snd]. rewrite S3. cbn [String.eqb Ascii.eqb Bool.eqb negb fst snd].
  rewrite Hgen. cbn [option_bind mbind response fst snd].
  destruct (fm_deleteFile w _) as [[]|m]; cbn [fst snd];
    rewrite !sleeps_app, !getFile_calls_app; repeat split;
    rewrite !elem_of_app; unfold AiController.round; rewrite !list_elem_of_In;
    simpl; tauto.
Qed.

Lemma never_active_run :
  (∀ n, ∃ f, fm_getFile w n (file_name uploaded) = Normal f ∧
             file_state f = "PROCESSING") →
  let run := AiController.analyzeVideoContent w
               {| AiController.videoPath := Some videoPath |} [] in
  run.1 = Normal (failure 500
            "Gemini API Error: Video processing failed - State: PROCESSING") ∧
  sleeps run.2 = replicate 30 2000%Z ∧
  getFile_calls run.2 = 31 ∧
  generate_calls run.2 = [] ∧
  EConsole LOG ("Processing attempt " +:+ pretty 30 +:+ ", state: " +:+ "PROCESSING")
    ∈ run.2.
Proof.
  intros Hnever. cbv zeta. enter_pipeline.
  destruct (Hnever 0) as (f0 & -> & Hstate0).
  cbn -[AiController.wait_while_processing].
  match goal with
  | |- context [AiController.wait_while_processing w ?n ?r ?f ?a ?t] =>
    destruct (wait_never_active w n Hnever r f a t Hstate0)
      as (file' & tr' & -> & Hstate' & Hsleeps & Hget & Hgen & Hlog)
  end.
  cbn [fst snd]. rewrite Hstate'. cbn [String.eqb Ascii.eqb Bool.eqb negb fst snd].
  rewrite !sleeps_app, !getFile_calls_app, !generate_calls_app, Hsleeps, Hget, Hgen.
  repeat split. rewrite !elem_of_app. left. left. right. apply Hlog. discriminate.
Qed.

End Pipeline.

(** C1. A poll is one round of the wait loop: sleep 2000 ms, fetch the
    remote file, log the attempt.  Every run sleeps 2000 ms at a time and
    at most 30 times.  For a request that reaches the provider: if the
    handle, in state PROCESSING when first fetched, shows PROCESSING,
    PROCESSING, ACTIVE on the following polls, the analysis succeeds after
    exactly three polls; if the handle never leaves PROCESSING, the
    request fails after exactly thirty polls with status 500 and the
    last state seen, and no generate-content call is made. *)
Theorem protocol_B_polling (w : World) (videoPath : string) (fileBuffer : Buffer)
    (uploaded : RemoteFile) :
  truthy (env w !! "GOOGLE_AI_KEY") = true →
  videoPath ≠ "" →
  files w !! videoPath = Some fileBuffer →
  fileBuffer ≠ [] →
  (∀ mimeType displayName,
     fm_uploadFile w fileBuffer mimeType displayName =
       Normal (Some {| upload_file := Some uploaded |})) →
  let name := file_name uploaded in
  let run := AiController.analyzeVideoContent w
               {| AiController.videoPath := Some videoPath |} [] in
  (Forall (eq 2000%Z) (sleeps run.2) ∧ (length (sleeps run.2) ≤ 30)%nat) ∧
  (∀ f0 f1 f2 f3 t,
     fm_getFile w 0 name = Normal f0 → file_state f0 = "PROCESSING" →
     fm_getFile w 1 name = Normal f1 → file_state f1 = "PROCESSING" →
     fm_getFile w 2 name = Normal f2 → file_state f2 = "PROCESSING" →
     fm_getFile w 3 name = Normal f3 → file_state f3 = "ACTIVE" →
     model_generateContent w
       (AiController.pro_call w [FileData (file_mimeType f3) (file_uri f3);
                                 TextPart AiController.analysis_prompt])
       = Normal (Some {| response := Some (Normal t) |}) →
     run.1 = Normal (success "analysis"
                       [("text", JStr t); ("videoUri", JStr (file_uri f3));
                        ("timestamp", JStr (Date_json w));
                        ("type", JStr "initial-analysis")]) ∧
     sleeps run.2 = [2000; 2000; 2000]%Z ∧
     getFile_calls run.2 = 4 ∧
     EConsole LOG "Processing attempt 3, state: ACTIVE" ∈ run.2) ∧
  ((∀ n, ∃ f, fm_getFile w n name = Normal f ∧ file_state f = "PROCESSING") →
   run.1 = Normal (failure 500
             "Gemini API Error: Video processing failed - State: PROCESSING") ∧
   sleeps run.2 = replicate 30 2000%Z ∧
   getFile_calls run.2 = 31 ∧
   generate_calls run.2 = [] ∧
   EConsole LOG "Processing attempt 30, state: PROCESSING" ∈ run.2).
Proof.
  intros Hinit Hnamed Hstored Hsize Hupload name run. repeat apply conj.
  - apply (analyze_polling_bounds w).
  - apply (analyze_polling_bounds w).
  - intros f0 f1 f2 f3 t H0 S0 H1 S1 H2 S2 H3 S3 Hgen.
    exact (becomes_active_run w videoPath fileBuffer uploaded Hinit Hnamed Hstored
             Hsize Hupload f0 f1 f2 f3 t H0 S0 H1 S1 H2 S2 H3 S3 Hgen).
  - intros Hnever.
    exact (never_active_run w videoPath fileBuffer uploaded Hinit Hnamed Hstored
             Hsize Hupload Hnever).
Qed.

Lemma protocol_B_polling_witness :
  (let run := AiController.analyzeVideoContent Fixture.active_world
                Fixture.analyze_clip [] in
   run.1 = Normal (success "analysis"
                     [("text", JStr "A cat runs.");
                      ("videoUri", JStr "https://provider.example/v1beta/files/abc123");
                      ("timestamp", JStr "2023-11-14T22:13:20.000Z");
                      ("type", JStr "initial-analysis")]) ∧
   sleeps run.2 = [2000; 2000; 2000]%Z ∧
   getFile_calls run.2 = 4 ∧
   EConsole LOG "Processing attempt 3, state: ACTIVE" ∈ run.2) ∧
  (let run := AiController.analyzeVideoContent Fixture.stuck_world
                Fixture.analyze_clip [] in
   run.1 = Normal (failure 500
             "Gemini API Error: Video processing failed - State: PROCESSING") ∧
   sleeps run.2 = replicate 30 2000%Z ∧
   getFile_calls run.2 = 31 ∧
   generate_calls run.2 = [] ∧
   EConsole LOG "Processing attempt 30, state: PROCESSING" ∈ run.2).
Proof.
  split.
  - apply (protocol_B_polling Fixture.active_world Fixture.clip [Byte.x1a; Byte.x45; Byte.xdf; Byte.xa3]
             (Fixture.remote "PROCESSING")
             ltac:(vm_compute; reflexivity) ltac:(discriminate)
             ltac:(vm_compute; reflexivity) ltac:(discriminate)
             ltac:(intros; reflexivity))
      with (f0 := Fixture.remote "PROCESSING") (f1 := Fixture.remote "PROCESSING")
           (f2 := Fixture.remote "PROCESSING") (f3 := Fixture.remote "ACTIVE");
      reflexivity.
  - apply (protocol_B_polling Fixture.stuck_world Fixture.clip [Byte.x1a; Byte.x45; Byte.xdf; Byte.xa3]
             (Fixture.remote "PROCESSING")
             ltac:(vm_compute; reflexivity) ltac:(discriminate)
             ltac:(vm_compute; reflexivity) ltac:(discriminate)
             ltac:(intros; reflexivity)).
    intros n. exists (Fixture.remote "PROCESSING"). split; reflexivity.
Defined.

(** When the very first fetch already counts as a state PROCESSING,
    PROCESSING, ACTIVE over all fetches means two waits and three
    fetches: the first fetch is made without waiting. *)
Example two_waits_three_fetches :
  let w := Fixture.world (Some "key") Fixture.disk
             (fun n => if (n <? 2)%nat then "PROCESSING" else "ACTIVE")
             (Fixture.answers "A cat runs.") (Normal tt) in
  let run := AiController.analyzeVideoContent w Fixture.analyze_clip [] in
  status <$> run.1 = Normal 200%Z ∧
  sleeps run.2 = [2000; 2000]%Z ∧ getFile_calls run.2 = 3.
Proof. cbv zeta. repeat split; vm_compute; reflexivity. Qed.

(** ** Protocol B: cleanup *)

Lemma wait_with_deleteFile (deleted : string -> Completion unit) (w : World)
    (name : string) (remaining : nat) :
  ∀ file attempts tr,
    AiController.wait_while_processing (with_deleteFile deleted w) name remaining
      file attempts tr =
    AiController.wait_while_processing w name remaining file attempts tr.
Proof.
  induction remaining as [|remaining IH]; intros file attempts tr; [reflexivity|].
  cbn [AiController.wait_while_processing].
  destruct (String.eqb (file_state file) "PROCESSING"); [|reflexivity].
  unfold_eff. cbn [with_deleteFile fm_getFile].
  destruct (fm_getFile w _ name); [apply IH|reflexivity].
Qed.

(** The response does not depend on what [deleteFile] does. *)
Lemma response_ignores_deleteFile (deleted : string -> Completion unit) (w : World)
    (req : AiController.AnalyzeBody) :
  (AiController.analyzeVideoContent (with_deleteFile deleted w) req []).1 =
  (AiController.analyzeVideoContent w req []).1.
Proof.
  unfold AiController.analyzeVideoContent. unfold_eff.
  change (AiController.genAI (with_deleteFile deleted w)) with (AiController.genAI w).
  change (AiController.fileManager (with_deleteFile deleted w))
    with (AiController.fileManager w).
  destruct (bool_decide (is_Some (AiController.genAI w)));
    destruct (bool_decide (is_Some (AiController.fileManager w)));
    cbn [negb orb fst snd]; try reflexivity.
  destruct (truthy (AiController.videoPath req)); cbn [negb fst snd]; try reflexivity.
  change (fs_existsSync (with_deleteFile deleted w)) with (fs_existsSync w).
  change (fs_statSync_size (with_deleteFile deleted w)) with (fs_statSync_size w).
  change (fs_readFileSync (with_deleteFile deleted w)) with (fs_readFileSync w).
  on_disk_size ltac:(reflexivity).
  cbn [with_deleteFile fm_uploadFile toLowerCase path_extname path_basename].
  destruct (fm_uploadFile w _ _ _) as [[[[uploaded|]]|]|m];
    cbn -[AiController.wait_while_processing]; try reflexivity.
  destruct (fm_getFile w _ _) as [file|m];
    cbn -[AiController.wait_while_processing]; try reflexivity.
  rewrite wait_with_deleteFile.
  destruct (AiController.wait_while_processing w _ _ _ _ _) as [[[file1 att]|m] tr1];
    cbn [fst snd]; try reflexivity.
  destruct (String.eqb (file_state file1) "ACTIVE"); cbn [negb fst snd]; try reflexivity.
  change (AiController.pro_call (with_deleteFile deleted w)) with (AiController.pro_call w).
  destruct (model_generateContent w _) as [[[[[t|m]|]]|]|m];
    cbn [option_bind response mbind fst snd]; try reflexivity.
  destruct (deleted _) as [[]|m1]; destruct (fm_deleteFile w _) as [[]|m2]; reflexivity.
Qed.

(** The file the loop ends with is the one it started with or one a
    later fetch returned. *)
Lemma wait_origin (w : World) (name : string) (remaining : nat) :
  ∀ file attempts tr file' att' tr1,
    AiController.wait_while_processing w name remaining file attempts tr =
      (Normal (file', att'), tr1) →
    file' = file ∨
    ∃ n, (getFile_calls tr ≤ n < getFile_calls tr + remaining)%nat ∧
         fm_getFile w n name = Normal file'.
Proof.
  induction remaining as [|remaining IH]; intros file attempts tr file' att' tr1 Hrun.
  - cbn in Hrun. injection Hrun as <- _ _. left. reflexivity.
  - destruct (String.eqb (file_state file) "PROCESSING") eqn:Hstate.
    + apply String.eqb_eq in Hstate. rewrite (wait_step _ _ _ _ _ _ Hstate) in Hrun.
      destruct (fm_getFile w (getFile_calls tr) name) as [file1|m] eqn:Hget;
        [|discriminate Hrun].
      apply IH in Hrun. right. destruct Hrun as [->|(n & Hn & Hfile)].
      * exists (getFile_calls tr). split; [lia|exact Hget].
      * exists n. split; [|exact Hfile].
        rewrite getFile_calls_app in Hn. cbn in Hn. lia.
    + rewrite wait_stop in Hrun by exact Hstate. injection Hrun as <- _ _.
      left. reflexivity.
Qed.

(** A run that ends without a generate-content call answered with a text:
    nothing is deleted. *)
Ltac no_text :=
  left; split;
  [rewrite ?deleted_names_app;
   repeat match goal with H : deleted_names _ = [] |- _ => rewrite H end;
   reflexivity
  |let Hin := fresh "Hin" in
   intros ? ? Hin; rewrite ?generate_calls_app in Hin;
   repeat match goal with H : generate_calls _ = [] |- _ => rewrite H in Hin end;
   cbn in Hin;
   first [apply elem_of_nil in Hin; contradiction
         |apply list_elem_of_singleton in Hin; subst;
          match goal with H : model_generateContent _ _ = _ |- _ => rewrite H end;
          discriminate]].

(** The two ways a run of [analyzeVideoContent] can end, as far as the
    cleanup goes: without a generate-content call answered with a text,
    and then nothing is deleted; or after exactly one such call, for a
    file that a fetch returned in state ACTIVE, and then that file's name
    is passed to [deleteFile], the response is the 200 body with the
    provider's text, nothing goes to [console.error], and [console.warn]
    gets one line exactly when the deletion fails. *)
Lemma cleanup_shape (w : World) (req : AiController.AnalyzeBody) :
  let run := AiController.analyzeVideoContent w req [] in
  (deleted_names run.2 = [] ∧
   ∀ call analysis,
     call ∈ generate_calls run.2 →
     model_generateContent w call ≠
       Normal (Some {| response := Some (Normal analysis) |})) ∨
  (∃ n name file analysis,
     (n ≤ 30)%nat ∧ fm_getFile w n name = Normal file ∧ file_state file = "ACTIVE" ∧
     generate_calls run.2 =
       [AiController.pro_call w [FileData (file_mimeType file) (file_uri file);
                                 TextPart AiController.analysis_prompt]] ∧
     model_generateContent w
       (AiController.pro_call w [FileData (file_mimeType file) (file_uri file);
                                 TextPart AiController.analysis_prompt]) =
       Normal (Some {| response := Some (Normal analysis) |}) ∧
     deleted_names run.2 = [file_name file] ∧
     run.1 = Normal (success "analysis"
                       [("text", JStr analysis); ("videoUri", JStr (file_uri file));
                        ("timestamp", JStr (Date_json w));
                        ("type", JStr "initial-analysis")]) ∧
     errors run.2 = [] ∧
     warnings run.2 = match fm_deleteFile w (file_name file) with
                      | Normal _ => []
                      | Throw _ => ["Failed to clean up file:"]
                      end).
Proof.
  cbv zeta. unfold AiController.analyzeVideoContent. unfold_eff.
  destruct (bool_decide (is_Some (AiController.genAI w)));
    destruct (bool_decide (is_Some (AiController.fileManager w)));
    cbn [negb orb fst snd]; try solve [no_text].
  destruct (truthy (AiController.videoPath req));
    cbn [negb fst snd]; try solve [no_text].
  on_disk_size ltac:(solve [no_text]).
  destruct (fm_uploadFile w _ _ _) as [[[[uploaded|]]|]|m];
    cbn -[AiController.wait_while_processing]; try solve [no_text].
  destruct (fm_getFile w _ _) as [file|m] eqn:Hfirst;
    cbn -[AiController.wait_while_processing]; try solve [no_text].
  match goal with
  | |- context [AiController.wait_while_processing w ?n ?r ?f ?a ?t] =>
    destruct (wait_trace w n r f a t) as (tr' & Heq & Hev & _ & _);
    destruct (AiController.wait_while_processing w n r f a t)
      as [[[file1 att]|m] tr1] eqn:Hloop;
    cbn [snd] in Heq; subst tr1
  end;
  destruct (loop_quiet _ _ Hev) as (Hd & Herr & Hw & Hg).
  2:{ cbn [fst snd]. no_text. }
  destruct (String.eqb (file_state file1) "ACTIVE") eqn:Hactive; cbn [negb fst snd].
  2:{ no_text. }
  apply String.eqb_eq in Hactive.
  destruct (model_generateContent w _) as [[[[[t|m]|]]|]|m] eqn:Hgen;
    cbn [option_bind response mbind fst snd]; try solve [no_text].
  right.
  assert (∃ n, (n ≤ 30)%nat ∧ fm_getFile w n (file_name uploaded) = Normal file1)
    as (n & Hn & Hfetch).
  { apply wait_origin in Hloop as [->|(n & Hn & Hlater)].
    - exists 0. split; [lia|exact Hfirst].
    - exists n. split; [|exact Hlater]. cbn in Hn.
      unfold AiController.maxAttempts in Hn. lia. }
  exists n, (file_name uploaded), file1, t.
  destruct (fm_deleteFile w _) as [[]|m']; cbn [fst snd];
    rewrite !deleted_names_app, !errors_app, !warnings_app, !generate_calls_app,
      Hd, Herr, Hw, Hg;
    repeat split; assumption.
Qed.

(** C8. The remote file is deleted best-effort.  Whatever [deleteFile]
    does, the response of [analyzeVideoContent] (status and body) is the
    same.  After a generate-content call that the provider answers with a
    text, the handler passes the name of the file it fetched (in state
    ACTIVE, the file the call refers to) to [deleteFile] and answers with
    the 200 success body carrying that text; nothing is written to
    [console.error], and [console.warn] gets exactly one line when the
    deletion fails and none when it succeeds.  [deleteFile] is called in
    no other run. *)
Theorem cleanup_is_best_effort (w : World) (req : AiController.AnalyzeBody)
    (deleted : string -> Completion unit) :
  let run := AiController.analyzeVideoContent w req [] in
  (AiController.analyzeVideoContent (with_deleteFile deleted w) req []).1 = run.1 ∧
  (∀ call analysis,
     call ∈ generate_calls run.2 →
     model_generateContent w call =
       Normal (Some {| response := Some (Normal analysis) |}) →
     ∃ n name file,
       (n ≤ 30)%nat ∧ fm_getFile w n name = Normal file ∧ file_state file = "ACTIVE" ∧
       call = AiController.pro_call w [FileData (file_mimeType file) (file_uri file);
                                       TextPart AiController.analysis_prompt] ∧
       generate_calls run.2 = [call] ∧
       deleted_names run.2 = [file_name file] ∧
       run.1 = Normal (success "analysis"
                         [("text", JStr analysis); ("videoUri", JStr (file_uri file));
                          ("timestamp", JStr (Date_json w));
                          ("type", JStr "initial-analysis")]) ∧
       errors run.2 = [] ∧
       warnings run.2 = match fm_deleteFile w (file_name file) with
                        | Normal _ => []
                        | Throw _ => ["Failed to clean up file:"]
                        end) ∧
  (deleted_names run.2 ≠ [] →
   ∃ call analysis,
     generate_calls run.2 = [call] ∧
     model_generateContent w call =
       Normal (Some {| response := Some (Normal analysis) |})).
Proof.
  cbv zeta. repeat apply conj.
  - apply response_ignores_deleteFile.
  - intros call analysis Hin Hanswer.
    destruct (cleanup_shape w req)
      as [(_ & Hnone)
         |(n & name & file & t & Hn & Hfetch & Hactive & Hcalls & Hgen & Hdel & Hres
           & Herr & Hwarn)].
    + exfalso. exact (Hnone call analysis Hin Hanswer).
    + rewrite Hcalls in Hin. apply list_elem_of_singleton in Hin. subst call.
      rewrite Hgen in Hanswer. injection Hanswer as <-.
      exists n, name, file. repeat split; assumption.
  - intros Hdeleted.
    destruct (cleanup_shape w req)
      as [(Hnone & _)
         |(n & name & file & t & Hn & Hfetch & Hactive & Hcalls & Hgen & _)].
    + contradiction.
    + eexists _, t. split; [exact Hcalls|exact Hgen].
Qed.

Lemma cleanup_is_best_effort_witness :
  let run := AiController.analyzeVideoContent Fixture.leaky_world
               Fixture.analyze_clip [] in
  let call := AiController.pro_call Fixture.leaky_world
                [FileData "video/webm" "https://provider.example/v1beta/files/abc123";
                 TextPart AiController.analysis_prompt] in
  fm_deleteFile Fixture.leaky_world "files/abc123" = Throw "PERMISSION_DENIED" ∧
  generate_calls run.2 = [call] ∧
  ∃ n name file,
    (n ≤ 30)%nat ∧ fm_getFile Fixture.leaky_world n name = Normal file ∧
    file_state file = "ACTIVE" ∧
    call = AiController.pro_call Fixture.leaky_world
             [FileData (file_mimeType file) (file_uri file);
              TextPart AiController.analysis_prompt] ∧
    generate_calls run.2 = [call] ∧
    deleted_names run.2 = [file_name file] ∧
    run.1 = Normal (success "analysis"
                      [("text", JStr "A cat runs."); ("videoUri", JStr (file_uri file));
                       ("timestamp", JStr (Date_json Fixture.leaky_world));
                       ("type", JStr "initial-analysis")]) ∧
    errors run.2 = [] ∧
    warnings run.2 = match fm_deleteFile Fixture.leaky_world (file_name file) with
                     | Normal _ => []
                     | Throw _ => ["Failed to clean up file:"]
                     end.
Proof.
  cbv zeta. split; [reflexivity|]. split; [vm_compute; reflexivity|].
  apply (proj1 (proj2 (cleanup_is_best_effort Fixture.leaky_world Fixture.analyze_clip
                         (fun _ => Normal tt)))).
  - apply list_elem_of_In. vm_compute. left. reflexivity.
  - reflexivity.
Defined.

(** The failing cleanup, run: same 200 response as with a cleanup that
    succeeds, one warning, no error. *)
Example failed_cleanup_still_succeeds :
  let leaky := AiController.analyzeVideoContent Fixture.leaky_world
                 Fixture.analyze_clip [] in
  let clean := AiController.analyzeVideoContent Fixture.active_world
                 Fixture.analyze_clip [] in
  leaky.1 = clean.1 ∧ status <$> leaky.1 = Normal 200%Z ∧
  warnings leaky.2 = ["Failed to clean up file:"] ∧ errors leaky.2 = [] ∧
  warnings clean.2 = [].
Proof. cbv zeta. repeat split; vm_compute; reflexivity. Qed.

(** * Further properties *)

(** ** Outcomes of the upload, analyze and chat handlers *)

Lemma or_else_nonempty (a b : string) : b ≠ "" → or_else a b ≠ "".
Proof.
  intros Hb. unfold or_else. destruct (String.eqb a "") eqn:E; [exact Hb|].
  apply String.eqb_neq in E. exact E.
Qed.

(** X: uploadVideo *)
(** X1. [uploadVideo] always answers, with status 200 or 400.  It
    answers 200 with [success: true] exactly when one file has been
    written, under the generated name in the uploads directory and with
    the size of the upload; every 400 answer carries [success: false], a
    non-empty error text, and leaves no file written. *)
Theorem uploadVideo_outcomes (w : World) (req : VideoController.UploadRequest) :
  let run := VideoController.uploadVideo w req [] in
  ∃ r, run.1 = Normal r ∧
    ((status r = 200%Z ∧ success_flag r = JBool true ∧
      ∃ file, VideoController.video req = Some file ∧
        written_files run.2 =
          [(path_join w [path_join w [dirname w; "../../uploads"];
                         VideoController.filename w file],
            N.of_nat (length (VideoController.content file)))]) ∨
     (status r = 400%Z ∧ success_flag r = JBool false ∧
      written_files run.2 = [] ∧
      ∃ e, error_text r = Some e ∧ e ≠ "")).
Proof.
  cbv zeta.
  unfold VideoController.uploadVideo, VideoController.upload,
    VideoController.fileFilter, VideoController.destination.
  unfold_eff. destruct req as [[file|]]; cbn [VideoController.video].
  - destruct (bool_decide _).
    + destruct (dir_exists w _); cbn [negb fst snd];
        (destruct (_ <? _)%N;
         [eexists; split; [reflexivity|]; right; repeat split; eexists; split;
          [reflexivity|discriminate]|]);
        (destruct (disk_write w _ _) as [[]|m]; cbn [fst snd];
         [eexists; split; [reflexivity|]; left; repeat split; eexists; split;
          reflexivity
         |eexists; split; [reflexivity|]; right; repeat split; eexists; split;
          [reflexivity|apply or_else_nonempty; discriminate]]).
    + eexists; split; [reflexivity|]. right. repeat split.
      eexists; split; [reflexivity|discriminate].
  - eexists; split; [reflexivity|]. right. repeat split.
    eexists; split; [reflexivity|discriminate].
Qed.

Ltac answer_500 :=
  solve [eexists; split; [reflexivity|]; right; repeat split;
         [cbn; lia | eexists; split;
                     [reflexivity | try apply or_else_nonempty; discriminate]]].

Ltac answer_200 :=
  solve [eexists; split; [reflexivity|]; left; repeat split].

(** X3. [analyzeVideo] and [chatWithVideo] always answer, with status
    200 or 500, never write a file, and call the provider at most once;
    status 200 goes with [success: true] and exactly one call, status 500
    with [success: false] and a non-empty error text. *)
Theorem inline_handlers_outcomes (w : World) :
  (∀ req, let run := VideoController.analyzeVideo w req [] in
     written_files run.2 = [] ∧
     ∃ r, run.1 = Normal r ∧
       ((status r = 200%Z ∧ success_flag r = JBool true ∧
         length (generate_calls run.2) = 1) ∨
        (status r = 500%Z ∧ success_flag r = JBool false ∧
         (length (generate_calls run.2) ≤ 1)%nat ∧
         ∃ e, error_text r = Some e ∧ e ≠ ""))) ∧
  (∀ req, let run := VideoController.chatWithVideo w req [] in
     written_files run.2 = [] ∧
     ∃ r, run.1 = Normal r ∧
       ((status r = 200%Z ∧ success_flag r = JBool true ∧
         length (generate_calls run.2) = 1) ∨
        (status r = 500%Z ∧ success_flag r = JBool false ∧
         (length (generate_calls run.2) ≤ 1)%nat ∧
         ∃ e, error_text r = Some e ∧ e ≠ ""))).
Proof.
  split; intros req; cbv zeta.
  - unfold VideoController.analyzeVideo. unfold_eff.
    destruct (negb _ || negb _); cbn [fst snd]; [split; [reflexivity|answer_500]|].
    on_disk; try (split; [reflexivity|answer_500]).
    destruct (model_generateContent w _) as [[[[[t|m]|]]|]|m];
      cbn [option_bind response mbind fst snd];
      (split; [reflexivity|]); first [answer_200 | answer_500].
  - unfold VideoController.chatWithVideo. unfold_eff.
    destruct (negb _ || negb _); cbn [fst snd]; [split; [reflexivity|answer_500]|].
    on_disk; try (split; [reflexivity|answer_500]).
    destruct (VideoController.recentHistory_of w _) as [recent|m]; cbn [fst snd];
      [|split; [reflexivity|answer_500]].
    destruct (model_generateContent w _) as [[[[[t|m]|]]|]|m];
      cbn [option_bind response mbind fst snd];
      (split; [reflexivity|]); first [answer_200 | answer_500].
Qed.

(** X4. Every generate-content request of [analyzeVideo] carries the
    base64 of the stored file, the prompt as sent, and a mimetype from the
    upload allow-list chosen by the lower-cased extension: mp4, webm, and
    quicktime for anything else. *)
Theorem analyzeVideo_request (w : World) (req : VideoController.AnalyzeBody) :
  let path := path_join w [dirname w; "../../uploads";
                           default "" (VideoController.analyze_filename req)] in
  let ext := toLowerCase w (path_extname w path) in
  Forall (fun call =>
            ∃ video m,
              files w !! path = Some video ∧
              call = VideoController.flash_call w
                       [InlineData (toString_base64 w video) m;
                        TextPart (default "" (VideoController.analyze_prompt req))] ∧
              m ∈ VideoController.allowedTypes ∧
              (ext = ".mp4" → m = "video/mp4") ∧
              (ext = ".webm" → m = "video/webm") ∧
              (ext ≠ ".mp4" → ext ≠ ".webm" → m = "video/quicktime"))
         (generate_calls (VideoController.analyzeVideo w req []).2).
Proof.
  cbv zeta. unfold VideoController.analyzeVideo. unfold_eff.
  destruct (negb _ || negb _); cbn [fst snd]; [constructor|].
  on_disk; [rewrite Hfile|constructor|constructor].
  rename fileBuffer into video.
  set (ext := toLowerCase w (path_extname w _)).
  assert (∃ m, (if String.eqb ext ".mp4" then "video/mp4"
                else if String.eqb ext ".webm" then "video/webm"
                else "video/quicktime") = m ∧
               m ∈ VideoController.allowedTypes ∧
               (ext = ".mp4" → m = "video/mp4") ∧
               (ext = ".webm" → m = "video/webm") ∧
               (ext ≠ ".mp4" → ext ≠ ".webm" → m = "video/quicktime"))
    as (m & -> & Hm).
  { destruct (String.eqb ext ".mp4") eqn:E1; [|destruct (String.eqb ext ".webm") eqn:E2];
      eexists; (split; [reflexivity|]); repeat split;
      try (intros; reflexivity);
      try (apply (bool_decide_unpack _); reflexivity).
    - apply String.eqb_eq in E1. intros E. rewrite E1 in E. discriminate E.
    - intros H. apply String.eqb_eq in E1. contradiction.
    - apply String.eqb_neq in E1. intros E. contradiction.
    - apply String.eqb_eq in E2. intros _ H. contradiction.
    - apply String.eqb_neq in E1. intros E. contradiction.
    - apply String.eqb_neq in E2. intros E. contradiction. }
  assert (Forall (fun call => ∃ video0 m0, Some video = Some video0 ∧
            call = VideoController.flash_call w
                     [InlineData (toString_base64 w video0) m0;
                      TextPart (default "" (VideoController.analyze_prompt req))] ∧
            m0 ∈ VideoController.allowedTypes ∧ (ext = ".mp4" → m0 = "video/mp4") ∧
            (ext = ".webm" → m0 = "video/webm") ∧
            (ext ≠ ".mp4" → ext ≠ ".webm" → m0 = "video/quicktime"))
          [VideoController.flash_call w
             [InlineData (toString_base64 w video) m;
              TextPart (default "" (VideoController.analyze_prompt req))]]) as Hone.
  { constructor; [|constructor]. exists video, m. split; [reflexivity|].
    split; [reflexivity|exact Hm]. }
  destruct (model_generateContent w _) as [[[[[t|e]|]]|]|e];
    cbn [option_bind response mbind fst snd]; exact Hone.
Qed.

(** X5. For a named file that exists and a prompt, [analyzeVideo] makes
    one call and relays its outcome: the text of the answer in a 200 body,
    the provider's error message (or the fallback when it is empty) in a
    500 body, and "No response from AI model" when no response comes
    back. *)
Theorem analyzeVideo_relays_provider (w : World) (filename prompt : string)
    (video : Buffer) :
  filename ≠ "" → prompt ≠ "" →
  files w !! path_join w [dirname w; "../../uploads"; filename] = Some video →
  let run := VideoController.analyzeVideo w
               {| VideoController.analyze_filename := Some filename;
                  VideoController.analyze_prompt := Some prompt |} [] in
  ∃ call, generate_calls run.2 = [call] ∧
    match model_generateContent w call with
    | Normal (Some {| response := Some (Normal t) |}) =>
      run.1 = Normal (success "analysis"
                        [("text", JStr t); ("timestamp", JStr (Date_json w))])
    | Normal (Some {| response := Some (Throw m) |}) | Throw m =>
      run.1 = Normal (failure 500 (or_else m "Failed to analyze video"))
    | Normal (Some {| response := None |}) | Normal None =>
      run.1 = Normal (failure 500 "No response from AI model")
    end.
Proof.
  intros Hf Hp Hfile. cbv zeta. unfold VideoController.analyzeVideo. unfold_eff.
  cbn [VideoController.analyze_filename VideoController.analyze_prompt].
  rewrite (named_truthy _ Hf), (named_truthy _ Hp).
  cbn [negb orb default from_option id].
  destruct (fs_regular _ _ _ Hfile) as (-> & _ & ->). cbn [negb fst snd].
  eexists. split.
  - destruct (model_generateContent w _) as [[[[[t|e]|]]|]|e];
      cbn [option_bind response mbind fst snd]; reflexivity.
  - cbv beta. destruct (model_generateContent w _) as [[[[[t|e]|]]|]|e];
      cbn [option_bind response mbind fst snd]; reflexivity.
Qed.

Lemma messages_of_null (items : list (option ChatMessage)) :
  None ∈ items → messages_of items = None.
Proof.
  induction items as [|[m|] items IH]; intros Hin.
  - inversion Hin.
  - cbn. rewrite IH; [reflexivity|]. inversion Hin; subst; assumption.
  - reflexivity.
Qed.

(** X6. [chatWithVideo] never reads [videoUri], and the history it is
    sent can change a run only by ending it.  A history that is an array
    of messages, or a falsy value that is not an array, gives the run of
    a request without a history: for a named file that exists and a
    question, one call whose outcome is relayed as [analyzeVideo] does.
    A truthy value that is not an array, or an array with a [null] item,
    makes the unused reduction throw before the provider is called: the
    answer is 500 with the message of the [TypeError], and no call is
    made. *)
Theorem chatWithVideo_stateless (w : World) (filename question : string)
    (video : Buffer) :
  let ask := fun videoUri chatHistory =>
    VideoController.chatWithVideo w
      (mkChatRequest (Some filename) videoUri (Some question) chatHistory) [] in
  let plain := ask JUndefined (Other NUndefined) in
  (∀ videoUri chatHistory, ask videoUri chatHistory = ask JUndefined chatHistory) ∧
  (∀ videoUri messages, ask videoUri (Items (Some <$> messages)) = plain) ∧
  (∀ videoUri v, not_array_truthy v = false → ask videoUri (Other v) = plain) ∧
  (filename ≠ "" → question ≠ "" →
   files w !! path_join w [dirname w; "../../uploads"; filename] = Some video →
   (∃ call, generate_calls plain.2 = [call] ∧
      match model_generateContent w call with
      | Normal (Some {| response := Some (Normal t) |}) =>
        plain.1 = Normal (success "response"
                            [("text", JStr t); ("timestamp", JStr (Date_json w))])
      | Normal (Some {| response := Some (Throw m) |}) | Throw m =>
        plain.1 = Normal (failure 500 (or_else m "Failed to process chat request"))
      | Normal (Some {| response := None |}) | Normal None =>
        plain.1 = Normal (failure 500 "No response from AI model")
      end) ∧
   (∀ videoUri v, not_array_truthy v = true →
      (ask videoUri (Other v)).1 =
        Normal (failure 500 (or_else (TypeError_message w "(chatHistory || []).filter")
                                     "Failed to process chat request")) ∧
      generate_calls (ask videoUri (Other v)).2 = []) ∧
   (∀ videoUri items, None ∈ items →
      (ask videoUri (Items items)).1 =
        Normal (failure 500 (or_else (TypeError_message w "msg.sender")
                                     "Failed to process chat request")) ∧
      generate_calls (ask videoUri (Items items)).2 = [])).
Proof.
  cbv zeta beta. repeat apply conj.
  - reflexivity.
  - intros videoUri messages. unfold VideoController.chatWithVideo.
    cbn [req_chatHistory]. unfold VideoController.recentHistory_of.
    rewrite messages_of_Some. reflexivity.
  - intros videoUri v Hfalsy. unfold VideoController.chatWithVideo.
    cbn [req_chatHistory]. unfold VideoController.recentHistory_of.
    rewrite Hfalsy. reflexivity.
  - intros Hf Hq Hfile.
    destruct (fs_regular _ _ _ Hfile) as (Hexists & _ & Hread).
    repeat apply conj.
    + unfold VideoController.chatWithVideo. unfold_eff.
      cbn [req_filename req_question req_chatHistory].
      rewrite (named_truthy _ Hf), (named_truthy _ Hq).
      cbn [negb orb default from_option id]. rewrite Hexists, Hread.
      cbn [negb fst snd VideoController.recentHistory_of not_array_truthy].
      eexists. split.
      * destruct (model_generateContent w _) as [[[[[t|e]|]]|]|e];
          cbn [option_bind response mbind fst snd]; reflexivity.
      * cbv beta. destruct (model_generateContent w _) as [[[[[t|e]|]]|]|e];
          cbn [option_bind response mbind fst snd]; reflexivity.
    + intros videoUri v Htruthy.
      unfold VideoController.chatWithVideo. unfold_eff.
      cbn [req_filename req_question req_chatHistory].
      rewrite (named_truthy _ Hf), (named_truthy _ Hq).
      cbn [negb orb default from_option id]. rewrite Hexists, Hread.
      cbn [negb fst snd VideoController.recentHistory_of]. rewrite Htruthy.
      split; reflexivity.
    + intros videoUri items Hnull.
      unfold VideoController.chatWithVideo. unfold_eff.
      cbn [req_filename req_question req_chatHistory].
      rewrite (named_truthy _ Hf), (named_truthy _ Hq).
      cbn [negb orb default from_option id]. rewrite Hexists, Hread.
      cbn [negb fst snd VideoController.recentHistory_of].
      rewrite (messages_of_null _ Hnull). split; reflexivity.
Qed.

(** ** Outcomes of the AI controller *)

Lemma written_files_app (a b : Trace) :
  written_files (a ++ b) = written_files a ++ written_files b.
Proof. apply omap_app. Qed.

Lemma loop_no_writes (name : string) (tr : Trace) :
  forallb (AiController.loop_event name) tr = true → written_files tr = [].
Proof.
  induction tr as [|e tr IH]; intros H; [reflexivity|].
  cbn [forallb] in H. apply andb_true_iff in H as [He Htr].
  destruct e; try discriminate He; cbn; apply IH, Htr.
Qed.

(** Up to the wait loop: early exits are closed by [early]. *)
Ltac analyze_to_loop early :=
  cbv zeta; unfold AiController.analyzeVideoContent; unfold_eff;
  destruct (bool_decide (is_Some (AiController.genAI _)));
    destruct (bool_decide (is_Some (AiController.fileManager _)));
    cbn [negb orb fst snd]; try (early);
  destruct (truthy (AiController.videoPath _)); cbn [negb fst snd]; try (early);
  on_disk_size early;
  destruct (fm_uploadFile _ _ _ _) as [[[[uploaded|]]|]|m];
    cbn -[AiController.wait_while_processing]; try (early);
  destruct (fm_getFile _ _ _) as [file|m] eqn:Hfirst;
    cbn -[AiController.wait_while_processing]; try (early).

Lemma provider_uploads_app (a b : Trace) :
  provider_uploads (a ++ b) = provider_uploads a ++ provider_uploads b.
Proof. apply omap_app. Qed.

Lemma loop_no_uploads (name : string) (tr : Trace) :
  forallb (AiController.loop_event name) tr = true → provider_uploads tr = [].
Proof.
  induction tr as [|e tr IH]; intros H; [reflexivity|].
  cbn [forallb] in H. apply andb_true_iff in H as [He Htr].
  destruct e; try discriminate He; cbn; apply IH, Htr.
Qed.

(** The loop and what follows it, down to every way the run can end. *)
Ltac analyze_leaves :=
  match goal with
  | |- context [AiController.wait_while_processing ?w0 ?n0 ?r0 ?f0 ?a0 ?t0] =>
    let tr' := fresh "tr'" in
    let Heq := fresh "Heq" in
    let Hev := fresh "Hev" in
    let Hlen := fresh "Hlen" in
    let Hget := fresh "Hget" in
    let Hloop := fresh "Hloop" in
    let tr1 := fresh "tr1" in
    let file1 := fresh "file1" in
    let att := fresh "att" in
    let m := fresh "m" in
    destruct (wait_trace w0 n0 r0 f0 a0 t0) as (tr' & Heq & Hev & Hlen & Hget);
    let Hd := fresh "Hd" in
    let Herr := fresh "Herr" in
    let Hwarn := fresh "Hwarn" in
    let Hg := fresh "Hg" in
    destruct (loop_quiet _ _ Hev) as (Hd & Herr & Hwarn & Hg);
    pose proof (loop_no_writes _ _ Hev);
    pose proof (loop_no_uploads _ _ Hev);
    (destruct (AiController.wait_while_processing w0 n0 r0 f0 a0 t0)
       as [[[file1 att]|m] tr1] eqn:Hloop;
     cbn [snd] in Heq; subst tr1);
    [let Hactive := fresh "Hactive" in
     destruct (String.eqb (file_state file1) "ACTIVE") eqn:Hactive;
     cbn [negb fst snd];
     [let Hgen := fresh "Hgen" in
      destruct (model_generateContent _ _) as [[[[[?txt|?msg]|]]|]|?msg] eqn:Hgen;
      cbn [option_bind response mbind fst snd];
      [let Hdel := fresh "Hdel" in
       destruct (fm_deleteFile _ _) as [[]|?msg] eqn:Hdel; cbn [fst snd]|..]|]
    |cbn [fst snd]]
  end.

Ltac observe :=
  rewrite ?written_files_app, ?provider_uploads_app, ?generate_calls_app,
    ?deleted_names_app, ?errors_app, ?warnings_app, ?sleeps_app, ?getFile_calls_app,
    ?forallb_app;
  repeat match goal with
  | H : written_files _ = [] |- _ => rewrite H
  | H : provider_uploads _ = [] |- _ => rewrite H
  | H : generate_calls _ = [] |- _ => rewrite H
  | H : deleted_names _ = [] |- _ => rewrite H
  | H : errors _ = [] |- _ => rewrite H
  | H : warnings _ = [] |- _ => rewrite H
  end.

(** X7. [analyzeVideoContent] always answers, with status 200, 400 or
    500, and never writes a file.  Status 200 goes with one upload, one
    generate-content call and one deletion of the remote file; status 400
    with console output only; status 500 with no deletion, so a remote
    file uploaded before the failure is left at the provider. *)
Theorem analyzeVideoContent_outcomes (w : World) (req : AiController.AnalyzeBody) :
  let run := AiController.analyzeVideoContent w req [] in
  written_files run.2 = [] ∧
  ∃ r, run.1 = Normal r ∧
    ((status r = 200%Z ∧ success_flag r = JBool true ∧
      length (provider_uploads run.2) = 1 ∧ length (generate_calls run.2) = 1 ∧
      length (deleted_names run.2) = 1) ∨
     (status r = 400%Z ∧ success_flag r = JBool false ∧
      forallb is_console run.2 = true) ∨
     (status r = 500%Z ∧ success_flag r = JBool false ∧
      deleted_names run.2 = [])).
Proof.
  analyze_to_loop
    ltac:(solve [split; [reflexivity|]; eexists; split; [reflexivity|];
                 first [solve [right; left; repeat split]
                       | solve [right; right; repeat split]]]).
  analyze_leaves; observe;
    (split; [reflexivity|]); eexists; (split; [reflexivity|]);
    first [solve [left; repeat split] | solve [right; right; repeat split]].
Qed.

(** X8. The error text of [analyzeVideoContent]: a 400 answer carries
    one of its three validation messages.  A 500 answer carries the
    initialisation message, or a message that starts with
    "Gemini API Error: ", or, when the path names something of non-zero
    size that cannot be read as a file (a directory, say), the message of
    the failed read, which is thrown outside the inner [try] and so is not
    prefixed; in that last case nothing has been sent to the provider. *)
Theorem analyzeVideoContent_errors (w : World) (req : AiController.AnalyzeBody) :
  let run := AiController.analyzeVideoContent w req [] in
  let path := default "" (AiController.videoPath req) in
  ∃ r, run.1 = Normal r ∧
    (status r = 200%Z ∨
     (status r = 400%Z ∧
      ∃ e, error_text r = Some e ∧
           e ∈ ["Video path is required"; "Video file not found or not accessible";
                "Video file is empty"]) ∨
     (status r = 500%Z ∧
      (error_text r = Some "Gemini API not properly initialized" ∨
       (∃ m, error_text r = Some ("Gemini API Error: " +:+ m)) ∨
       (∃ other,
          files w !! path = None ∧ unreadable w !! path = Some other ∧
          unreadable_size other ≠ 0%N ∧
          error_text r = Some (or_else (read_error other) "Video analysis failed") ∧
          provider_uploads run.2 = [])))).
Proof.
  analyze_to_loop
    ltac:(solve [eexists; split; [reflexivity|];
                 first [solve [right; left; split; [reflexivity|];
                               eexists; split; [reflexivity|];
                               apply (bool_decide_unpack _); reflexivity]
                       | solve [right; right; split; [reflexivity|];
                                first [left; reflexivity
                                      | right; left; eexists; reflexivity]]
                       | solve [right; right; split; [reflexivity|];
                                right; right; eexists;
                                repeat apply conj;
                                [eassumption | eassumption
                                |apply N.eqb_neq; eassumption
                                |reflexivity | reflexivity]]]]).
  analyze_leaves; eexists; (split; [reflexivity|]);
    first [solve [left; reflexivity]
          | solve [right; right; split; [reflexivity|]; right; left;
                   eexists; reflexivity]].
Qed.

(** A path that names the uploads directory: it exists and has a size,
    the read fails, and the answer is 500 with the message of the read,
    not 400. *)
Example directory_is_not_a_video :
  AiController.analyzeVideoContent Fixture.validation_world
    {| AiController.videoPath := Some "/srv/backend/src/controllers/../../uploads" |} [] =
  (Normal (failure 500 "EISDIR: illegal operation on a directory, read"),
   [EConsole LOG
      "Starting video analysis for: /srv/backend/src/controllers/../../uploads";
    EConsole LOG "File details:"; EConsole ERROR "Analysis Error:"]).
Proof. vm_compute. reflexivity. Qed.

(** X9. [analyzeVideoContent] sends a generate-content request only for
    a file that one of its first 31 [getFile] calls returned in state
    ACTIVE, and the request refers to that file's mimetype and URI. *)
Theorem generate_only_when_active (w : World) (req : AiController.AnalyzeBody) :
  Forall (fun call =>
            ∃ n name f,
              (n ≤ 30)%nat ∧ fm_getFile w n name = Normal f ∧
              file_state f = "ACTIVE" ∧
              call = AiController.pro_call w
                       [FileData (file_mimeType f) (file_uri f);
                        TextPart AiController.analysis_prompt])
         (generate_calls (AiController.analyzeVideoContent w req []).2).
Proof.
  analyze_to_loop ltac:(solve [constructor]).
  analyze_leaves; observe; cbn; try solve [constructor];
    (constructor; [|constructor]);
    apply String.eqb_eq in Hactive;
    (apply wait_origin in Hloop as [->|(n & Hn & Hlater)];
     [exists 0, (file_name uploaded), file
     |exists n, (file_name uploaded), file1; cbn in Hn;
      unfold AiController.maxAttempts in Hn]);
    repeat split; try assumption; try lia.
Qed.

Lemma wait_until (w : World) (name : string) (fs : nat → RemoteFile) (k : nat) :
  ∀ c remaining attempts tr,
    (k ≤ remaining)%nat →
    (∀ n, (c < n ≤ c + k)%nat → fm_getFile w n name = Normal (fs n)) →
    (∀ i, (i < k)%nat → file_state (fs (c + i)) = "PROCESSING") →
    file_state (fs (c + k)) ≠ "PROCESSING" →
    getFile_calls tr = S c →
    ∃ tr',
      AiController.wait_while_processing w name remaining (fs c) attempts tr =
        (Normal (fs (c + k), attempts + k), tr ++ tr') ∧
      sleeps tr' = replicate k 2000%Z ∧
      getFile_calls tr' = k ∧
      generate_calls tr' = [] ∧ deleted_names tr' = [].
Proof.
  induction k as [|k IH]; intros c remaining attempts tr Hk Hfs Hproc Hstop Hcalls.
  - exists []. rewrite !Nat.add_0_r in *. rewrite app_nil_r, wait_stop; [repeat split|].
    apply String.eqb_neq. exact Hstop.
  - destruct remaining as [|remaining]; [lia|].
    assert (file_state (fs c) = "PROCESSING") as Hc
      by (rewrite <- (Nat.add_0_r c); apply Hproc; lia).
    rewrite (wait_step _ _ _ _ _ _ Hc), Hcalls, (Hfs (S c)) by lia.
    destruct (IH (S c) remaining (S attempts)
                (tr ++ AiController.round name (S attempts) (file_state (fs (S c)))))
      as (tr' & Hrun & Hsl & Hget & Hgen & Hdel).
    + lia.
    + intros n Hn. apply Hfs. lia.
    + intros i Hi. replace (S c + i) with (c + S i) by lia. apply Hproc. lia.
    + replace (S c + k) with (c + S k) by lia. exact Hstop.
    + rewrite getFile_calls_app, Hcalls. cbn. lia.
    + exists (AiController.round name (S attempts) (file_state (fs (S c))) ++ tr').
      rewrite Hrun, <- app_assoc, sleeps_app, getFile_calls_app, generate_calls_app,
        deleted_names_app, Hsl, Hget, Hgen, Hdel.
      replace (S c + k) with (c + S k) by lia.
      replace (S attempts + k) with (attempts + S k) by lia.
      repeat split.
Qed.

Section Settling.

Variables (w : World) (videoPath : string) (fileBuffer : Buffer) (uploaded : RemoteFile).
Variables (fs : nat → RemoteFile) (k : nat).

Hypothesis initialised : truthy (env w !! "GOOGLE_AI_KEY") = true.
Hypothesis named : videoPath ≠ "".
Hypothesis stored : files w !! videoPath = Some fileBuffer.
Hypothesis non_empty : fileBuffer ≠ [].
Hypothesis accepted : ∀ mimeType displayName,
  fm_uploadFile w fileBuffer mimeType displayName =
    Normal (Some {| upload_file := Some uploaded |}).
Hypothesis fetched : ∀ n, (n ≤ k)%nat → fm_getFile w n (file_name uploaded) = Normal (fs n).
Hypothesis in_time : (k ≤ 30)%nat.
Hypothesis processing : ∀ i, (i < k)%nat → file_state (fs i) = "PROCESSING".
Hypothesis settled : file_state (fs k) ≠ "PROCESSING".

Lemma settled_run :
  let run := AiController.analyzeVideoContent w
               {| AiController.videoPath := Some videoPath |} [] in
  sleeps run.2 = replicate k 2000%Z ∧
  getFile_calls run.2 = S k ∧
  (file_state (fs k) ≠ "ACTIVE" →
   run.1 = Normal (failure 500 ("Gemini API Error: Video processing failed - State: "
                                +:+ file_state (fs k))) ∧
   generate_calls run.2 = [] ∧ deleted_names run.2 = []) ∧
  (file_state (fs k) = "ACTIVE" →
   generate_calls run.2 =
     [AiController.pro_call w [FileData (file_mimeType (fs k)) (file_uri (fs k));
                               TextPart AiController.analysis_prompt]]).
Proof.
  cbv zeta. unfold AiController.analyzeVideoContent. unfold_eff.
  rewrite (genAI_ready w initialised), (fileManager_ready w initialised).
  cbn [negb orb AiController.videoPath].
  rewrite (named_truthy _ named). cbn [negb default from_option id].
  destruct (fs_regular w videoPath fileBuffer stored) as (-> & -> & ->).
  cbn [negb fst snd].
  rewrite (non_empty_size _ non_empty), accepted.
  cbn -[AiController.wait_while_processing].
  rewrite (fetched 0) by lia. cbn -[AiController.wait_while_processing].
  match goal with
  | |- context [AiController.wait_while_processing w ?n ?r ?f ?a ?t] =>
    destruct (wait_until w n fs k 0 r a t in_time) as (tr' & -> & Hsl & Hget & Hgen & Hdel)
  end.
  - intros n Hn. apply fetched. lia.
  - exact processing.
  - exact settled.
  - reflexivity.
  - cbn [Nat.add fst snd].
    destruct (String.eqb (file_state (fs k)) "ACTIVE") eqn:Hactive; cbn [negb fst snd].
    + apply String.eqb_eq in Hactive.
      destruct (model_generateContent w _) as [[[[[t|m]|]]|]|m];
        cbn [option_bind response mbind fst snd];
        try destruct (fm_deleteFile w _) as [[]|m'];
        cbn [fst snd];
        rewrite !sleeps_app, !getFile_calls_app, !generate_calls_app, Hsl, Hget, Hgen;
        cbn; rewrite ?app_nil_r;
        (split; [reflexivity|]); (split; [lia|]);
        (split; [intros Hne; contradiction | intros _; reflexivity]).
    + apply String.eqb_neq in Hactive.
      rewrite !sleeps_app, !getFile_calls_app, !generate_calls_app, !deleted_names_app,
        Hsl, Hget, Hgen, Hdel.
      cbn. rewrite ?app_nil_r.
      split; [reflexivity|]. split; [lia|].
      split; [intros _; repeat split | intros He; contradiction].
Qed.

End Settling.

(** X10. For a request that reaches the provider, the first state other
    than PROCESSING decides, up to and including the thirtieth poll: when
    the first [k] fetches show PROCESSING and fetch [k] does not, with
    [k] at most 30, the handler waits exactly [k] times and fetches
    [k + 1] times; a state other than ACTIVE ends the request with status
    500 naming that state, with no generate-content call and no deletion;
    ACTIVE leads to one generate-content call for that file. *)
Theorem first_settled_state_decides (w : World) (videoPath : string)
    (fileBuffer : Buffer) (uploaded : RemoteFile) (fs : nat → RemoteFile) (k : nat) :
  truthy (env w !! "GOOGLE_AI_KEY") = true →
  videoPath ≠ "" →
  files w !! videoPath = Some fileBuffer →
  fileBuffer ≠ [] →
  (∀ mimeType displayName,
     fm_uploadFile w fileBuffer mimeType displayName =
       Normal (Some {| upload_file := Some uploaded |})) →
  (∀ n, (n ≤ k)%nat → fm_getFile w n (file_name uploaded) = Normal (fs n)) →
  (k ≤ 30)%nat →
  (∀ i, (i < k)%nat → file_state (fs i) = "PROCESSING") →
  file_state (fs k) ≠ "PROCESSING" →
  let run := AiController.analyzeVideoContent w
               {| AiController.videoPath := Some videoPath |} [] in
  sleeps run.2 = replicate k 2000%Z ∧
  getFile_calls run.2 = S k ∧
  (file_state (fs k) ≠ "ACTIVE" →
   run.1 = Normal (failure 500 ("Gemini API Error: Video processing failed - State: "
                                +:+ file_state (fs k))) ∧
   generate_calls run.2 = [] ∧ deleted_names run.2 = []) ∧
  (file_state (fs k) = "ACTIVE" →
   generate_calls run.2 =
     [AiController.pro_call w [FileData (file_mimeType (fs k)) (file_uri (fs k));
                               TextPart AiController.analysis_prompt]]).
Proof. exact (settled_run w videoPath fileBuffer uploaded fs k). Qed.

(** X11. [generateResponse] always answers, with status 200, 400 or
    500; it never uploads, fetches, deletes, waits or writes.  A 400
    answer has no effect at all and one of two validation messages.  A
    500 answer carries the initialisation message, or a message that
    starts with "Gemini API Error: ", or, when the video URI is not a
    string or the history is not an array of messages, the message of the
    [TypeError] that is thrown before the inner [try], without prefix and
    without a call to the provider. *)
Theorem generateResponse_outcomes (w : World) (req : ChatRequest) :
  let run := AiController.generateResponse w req [] in
  (written_files run.2 = [] ∧ provider_uploads run.2 = [] ∧
   deleted_names run.2 = [] ∧ sleeps run.2 = [] ∧ getFile_calls run.2 = 0) ∧
  ∃ r, run.1 = Normal r ∧
    ((status r = 200%Z ∧ success_flag r = JBool true ∧
      length (generate_calls run.2) = 1) ∨
     (status r = 400%Z ∧ success_flag r = JBool false ∧ run.2 = [] ∧
      ∃ e, error_text r = Some e ∧
           e ∈ ["Video URI is required"; "Question is required"]) ∨
     (status r = 500%Z ∧ success_flag r = JBool false ∧
      (error_text r = Some "Gemini API not properly initialized" ∨
       (∃ m, error_text r = Some ("Gemini API Error: " +:+ m)) ∨
       (∃ m, (AiController.substring_receiver w (req_videoUri req) = Throw m ∨
              AiController.formattedHistory_of w (req_chatHistory req) = Throw m) ∧
             error_text r = Some (or_else m "Failed to generate response") ∧
             generate_calls run.2 = [])))).
Proof.
  cbv zeta. unfold AiController.generateResponse. unfold_eff.
  destruct (bool_decide (is_Some (AiController.genAI w))); cbn [negb fst snd].
  2:{ split; [repeat split|]. eexists; split; [reflexivity|].
      right; right. repeat split. left. reflexivity. }
  destruct (json_truthy (req_videoUri req)); cbn [negb fst snd].
  2:{ split; [repeat split|]. eexists; split; [reflexivity|].
      right; left. repeat split. eexists; split; [reflexivity|].
      apply (bool_decide_unpack _). reflexivity. }
  destruct (truthy (req_question req)); cbn [negb fst snd].
  2:{ split; [repeat split|]. eexists; split; [reflexivity|].
      right; left. repeat split. eexists; split; [reflexivity|].
      apply (bool_decide_unpack _). reflexivity. }
  destruct (AiController.substring_receiver w (req_videoUri req)) as [uri|m] eqn:Huri;
    cbn [fst snd].
  2:{ split; [repeat split|]. eexists; split; [reflexivity|].
      right; right. repeat split. right; right. exists m.
      repeat split. left. reflexivity. }
  destruct (AiController.formattedHistory_of w (req_chatHistory req))
    as [history|m] eqn:Hhistory; cbn [fst snd].
  2:{ split; [repeat split|]. eexists; split; [reflexivity|].
      right; right. repeat split. right; right. exists m.
      repeat split. right. reflexivity. }
  destruct (model_generateContent w _) as [[[[[t|m]|]]|]|m];
    cbn [option_bind response mbind fst snd];
    (split; [repeat split|]); eexists; (split; [reflexivity|]);
    first [solve [left; repeat split]
          | solve [right; right; repeat split; right; left; eexists; reflexivity]].
Qed.

(** X12. With the API initialised, a video URI that is a non-empty
    string and a question: for a history that is absent, [null] or an
    array of messages, [generateResponse] makes one call, for the URI
    declared as "video/mp4" and the prompt built from the question and the
    whole history, and relays its outcome: the answer text in a 200 body of
    type "chat-response", or status 500 with the provider's message after
    "Gemini API Error: ".  For any other history (a value that is neither
    an array nor [null], or an array with a [null] item) it makes no call
    and answers 500 with the message of the [TypeError]. *)
Theorem generateResponse_relays_provider (w : World) (videoUri question : string)
    (filename : option string) :
  truthy (env w !! "GOOGLE_AI_KEY") = true →
  videoUri ≠ "" → question ≠ "" →
  let ask := fun chatHistory =>
    AiController.generateResponse w
      (mkChatRequest filename (JStr videoUri) (Some question) chatHistory) [] in
  (∀ chatHistory messages,
     chatHistory = Items (Some <$> messages) ∨
     (messages = [] ∧ (chatHistory = Other NUndefined ∨ chatHistory = Other NNull)) →
     let run := ask chatHistory in
     ∃ call, generate_calls run.2 = [call] ∧
       call_parts call =
         [FileData "video/mp4" videoUri;
          TextPart (AiController.chat_prompt question
                      (VideoController.relabel <$> messages))] ∧
       match model_generateContent w call with
       | Normal (Some {| response := Some (Normal t) |}) =>
         run.1 = Normal (success "response"
                           [("text", JStr t); ("timestamp", JStr (Date_json w));
                            ("type", JStr "chat-response")])
       | Normal (Some {| response := Some (Throw m) |}) | Throw m =>
         run.1 = Normal (failure 500 ("Gemini API Error: " +:+ m))
       | Normal (Some {| response := None |}) | Normal None =>
         run.1 = Normal (failure 500 "Gemini API Error: No response from Gemini API")
       end) ∧
  (∀ v, v ≠ NUndefined → v ≠ NNull →
     ask (Other v) =
       (Normal (failure 500 (or_else (TypeError_message w "chatHistory?.map")
                                     "Failed to generate response")),
        [EConsole LOG "Generating response for:"; EConsole ERROR "Response Error:"])) ∧
  (∀ items, None ∈ items →
     ask (Items items) =
       (Normal (failure 500 (or_else (TypeError_message w "msg.sender")
                                     "Failed to generate response")),
        [EConsole LOG "Generating response for:"; EConsole ERROR "Response Error:"])).
Proof.
  intros Hkey Hu Hq. cbv zeta beta. repeat apply conj.
  - intros chatHistory messages Hhistory.
    assert (AiController.formattedHistory_of w chatHistory =
            Normal (VideoController.relabel <$> messages)) as Hformatted.
    { destruct Hhistory as [->|(-> & [->| ->])]; [|reflexivity|reflexivity].
      unfold AiController.formattedHistory_of. rewrite messages_of_Some. reflexivity. }
    unfold AiController.generateResponse. unfold_eff.
    rewrite initialised_iff, Hkey.
    cbn [negb req_videoUri req_question req_chatHistory json_truthy
         AiController.substring_receiver].
    rewrite (named_truthy _ Hq).
    replace (String.eqb videoUri "") with false
      by (symmetry; apply String.eqb_neq; exact Hu).
    cbn [negb default from_option id fst snd]. rewrite Hformatted. cbn [fst snd].
    eexists. split; [|split].
    + destruct (model_generateContent w _) as [[[[[t|e]|]]|]|e];
        cbn [option_bind response mbind fst snd]; reflexivity.
    + reflexivity.
    + cbv beta. destruct (model_generateContent w _) as [[[[[t|e]|]]|]|e];
        cbn [option_bind response mbind fst snd]; reflexivity.
  - intros v Hundefined Hnull.
    unfold AiController.generateResponse. unfold_eff.
    rewrite initialised_iff, Hkey.
    cbn [negb req_videoUri req_question req_chatHistory json_truthy
         AiController.substring_receiver].
    rewrite (named_truthy _ Hq).
    replace (String.eqb videoUri "") with false
      by (symmetry; apply String.eqb_neq; exact Hu).
    cbn [negb default from_option id fst snd].
    destruct v; try contradiction; reflexivity.
  - intros items Hnull.
    unfold AiController.generateResponse. unfold_eff.
    rewrite initialised_iff, Hkey.
    cbn [negb req_videoUri req_question req_chatHistory json_truthy
         AiController.substring_receiver].
    rewrite (named_truthy _ Hq).
    replace (String.eqb videoUri "") with false
      by (symmetry; apply String.eqb_neq; exact Hu).
    cbn [negb default from_option id fst snd AiController.formattedHistory_of].
    rewrite (messages_of_null _ Hnull). reflexivity.
Qed.

(** ** The client's handlers *)

Ltac setters :=
  unfold Client.setIsAnalyzing, Client.setMessages, Client.setNewMessage,
    Client.setSelectedVideo, Client.setUploadProgress, Client.setUploadStatus,
    Client.setIsDragging, Client.system_message; cbn.

(** X13. [handleSendMessage] acts exactly when the Send button is
    enabled.  When the button is disabled (also whenever the text input
    is) the state is left as it is.  Otherwise the turn appends two
    entries to the log, the user's message and then either the AI's reply
    or a system entry that starts with "❌ Error: ", clears the draft and
    ends not analyzing, whatever the network does. *)
Theorem handleSendMessage_turn (b : Client.Browser) (s : Client.AppState) :
  (Client.input_disabled s = true → Client.send_disabled b s = true) ∧
  (Client.send_disabled b s = true → Client.handleSendMessage b s = (Normal tt, s)) ∧
  (Client.send_disabled b s = false →
   ∃ reply,
     Client.handleSendMessage b s =
       (Normal tt,
        Client.mkApp
          (Client.messages s ++
           [ {| text := Client.newMessage s; sender := "user";
                timestamp := Client.toISOString_now b |};
             {| text := reply.1; sender := reply.2;
                timestamp := Client.toISOString_now b |} ])
          "" (Client.selectedVideo s) false (Client.isDragging s)
          (Client.uploadProgress s) (Client.uploadStatus s)) ∧
     (reply.2 = "ai" ∨
      reply.2 = "system" ∧ ∃ m, reply.1 = "❌ Error: " +:+ m)).
Proof.
  unfold Client.input_disabled, Client.send_disabled, Client.handleSendMessage.
  unfold_eff. cbv beta. unfold id.
  destruct (truthy (Client.selectedVideo s)), (Client.isAnalyzing s) eqn:Hbusy,
    (String.eqb (Client.trim b (Client.newMessage s)) "");
    cbn [negb andb orb]; (split; [try reflexivity; try discriminate|]);
    (split; [try discriminate; try (intros _; destruct s; reflexivity)|]);
    try discriminate.
  intros _.
  assert (∀ (l : list ChatMessage) x y, (l ++ [x]) ++ [y] = l ++ [x; y]) as Happ
    by (intros; rewrite <- app_assoc; reflexivity).
  destruct (Client.fetch_chat b _) as [r|m]; cbn [fst snd].
  2:{ exists ("❌ Error: " +:+ m, "system"). setters. rewrite Happ.
      split; [reflexivity|]. right. split; [reflexivity|]. eexists; reflexivity. }
  destruct (ok r); cbn [negb fst snd].
  2:{ eexists (_, _). setters. rewrite Happ.
      split; [reflexivity|]. right. split; [reflexivity|]. eexists; reflexivity. }
  destruct (Client.get b (body r) "success") as [v|m]; cbn [fst snd].
  2:{ eexists (_, _). setters. rewrite Happ.
      split; [reflexivity|]. right. split; [reflexivity|]. eexists; reflexivity. }
  destruct (json_truthy v); cbn [negb fst snd].
  2:{ destruct (Client.get b (body r) "error") as [e|m]; cbn [fst snd];
        eexists (_, _); setters; rewrite Happ;
        (split; [reflexivity|]); right; (split; [reflexivity|]); eexists; reflexivity. }
  destruct (Client.get b (body r) "response") as [v1|m]; cbn [fst snd].
  2:{ eexists (_, _). setters. rewrite Happ.
      split; [reflexivity|]. right. split; [reflexivity|]. eexists; reflexivity. }
  destruct (Client.get b v1 "text") as [v2|m]; cbn [fst snd];
    eexists (_, _); setters; rewrite Happ; (split; [reflexivity|]);
    first [left; reflexivity | right; (split; [reflexivity|]); eexists; reflexivity].
Qed.

Ltac settle :=
  cbv [Client.setIsAnalyzing Client.setMessages Client.setNewMessage
       Client.setSelectedVideo Client.setUploadProgress Client.setUploadStatus
       Client.setIsDragging Client.system_message Client.messages Client.newMessage
       Client.selectedVideo Client.isAnalyzing Client.isDragging
       Client.uploadProgress Client.uploadStatus fst snd].

(** X14. [handleVideoUpload] never throws and always ends with the
    progress indicators reset.  The log it leaves does not depend on the
    log before: either one system error entry with no selected video, or
    the upload notice and one AI entry with the new object URL
    selected. *)
Theorem handleVideoUpload_resets (b : Client.Browser) (file : Client.File)
    (s : Client.AppState) :
  ∃ log video,
    Client.handleVideoUpload b file s =
      (Normal tt,
       Client.mkApp log (Client.newMessage s) video false (Client.isDragging s) 0 "") ∧
    ((video = None ∧ ∃ m, log = [Client.system_message b ("❌ " +:+ m)]) ∨
     (video = Some (Client.createObjectURL b file) ∧
      ∃ t, log = [Client.system_message b "✨ Video uploaded successfully!";
                  {| text := t; sender := "ai";
                     timestamp := Client.toISOString_now b |}])).
Proof.
  destruct s as [msgs draft video0 busy dragging progress status].
  unfold Client.handleVideoUpload, Client.upload_attempt. unfold_eff.
  destruct (startsWith "video/" (Client.File_type file)); cbn [negb fst snd].
  2:{ settle. eexists _, _. split; [reflexivity|]. left. split; [reflexivity|].
      eexists; reflexivity. }
  destruct (Client.fetch_upload b file) as [r|m]; cbn [fst snd].
  2:{ settle. eexists _, _. split; [reflexivity|]. left. split; [reflexivity|].
      eexists; reflexivity. }
  destruct (ok r); cbn [negb fst snd].
  2:{ destruct (Client.get b (body r) "error") as [e|m]; cbn [fst snd];
        settle; eexists _, _; (split; [reflexivity|]); left; (split; [reflexivity|]);
        eexists; reflexivity. }
  destruct (Client.get b (body r) "success") as [v|m]; cbn [fst snd].
  2:{ settle. eexists _, _. split; [reflexivity|]. left. split; [reflexivity|].
      eexists; reflexivity. }
  destruct (json_truthy v); cbn [negb fst snd].
  2:{ destruct (Client.get b (body r) "error") as [e|m]; cbn [fst snd];
        settle; eexists _, _; (split; [reflexivity|]); left; (split; [reflexivity|]);
        eexists; reflexivity. }
  destruct (Client.get b (body r) "file") as [v1|m]; cbn [fst snd].
  2:{ settle. eexists _, _. split; [reflexivity|]. left. split; [reflexivity|].
      eexists; reflexivity. }
  destruct (Client.get b v1 "analysis") as [v2|m]; cbn [fst snd].
  2:{ settle. eexists _, _. split; [reflexivity|]. left. split; [reflexivity|].
      eexists; reflexivity. }
  destruct (Client.get b v2 "text") as [v3|m]; cbn [fst snd];
    settle; eexists _, _; (split; [reflexivity|]).
  - right. split; [reflexivity|]. eexists; reflexivity.
  - left. split; [reflexivity|]. eexists; reflexivity.
Qed.

(** X15. A file whose type does not start with "video/": dropping it
    only clears the dragging flag, while picking it in the file dialog
    replaces the log by one error entry and clears the selected video. *)
Theorem drop_and_select_differ (b : Client.Browser) (file : Client.File)
    (rest : list Client.File) (s : Client.AppState) :
  startsWith "video/" (Client.File_type file) = false →
  Client.handleDrop b (file :: rest) s = (Normal tt, Client.setIsDragging false s) ∧
  Client.handleFileSelect b (file :: rest) s =
    (Normal tt,
     Client.mkApp [Client.system_message b "❌ Please select a valid video file"]
                  (Client.newMessage s) None false (Client.isDragging s) 0 "").
Proof.
  intros Htype. unfold Client.handleDrop, Client.handleFileSelect,
    Client.handleVideoUpload, Client.upload_attempt. unfold_eff.
  cbn [head]. rewrite Htype. split; reflexivity.
Qed.

(** [uploadVideo] answers with the success body or with a 400 failure. *)
Lemma uploadVideo_response_shape (w : World) (req : VideoController.UploadRequest) :
  (∃ filename path size mimetype,
     (VideoController.uploadVideo w req []).1 =
       Normal (success "file" [("filename", JStr filename); ("path", JStr path);
                               ("size", JNum size); ("mimetype", JStr mimetype)])) ∨
  (∃ e, e ≠ "" ∧ (VideoController.uploadVideo w req []).1 = Normal (failure 400 e)).
Proof.
  unfold VideoController.uploadVideo, VideoController.upload,
    VideoController.fileFilter, VideoController.destination.
  unfold_eff. destruct req as [[file|]]; cbn [VideoController.video].
  - destruct (bool_decide _).
    + destruct (dir_exists w _); cbn [negb fst snd];
        (destruct (_ <? _)%N;
         [right; eexists; split; [|reflexivity]; discriminate|]);
        (destruct (disk_write w _ _) as [[]|m]; cbn [fst snd];
         [left; eexists _, _, _, _; reflexivity
         |right; eexists; split; [|reflexivity]]);
        unfold or_else; destruct (String.eqb m "") eqn:E;
        [discriminate|apply String.eqb_neq in E; exact E
        |discriminate|apply String.eqb_neq in E; exact E].
    + right. eexists; split; [|reflexivity]. discriminate.
  - right. eexists; split; [|reflexivity]. discriminate.
Qed.

(** X16. With the upload request served by [uploadVideo], every upload
    ends with one system error entry and no selected video.  For a file
    the client takes for a video but whose type is not on the server's
    allow-list, the entry carries the server's message. *)
Theorem wired_upload_never_selects (w : World) (b : Client.Browser)
    (file : Client.File) (s : Client.AppState) :
  Client.fetch_upload b file =
    (VideoController.uploadVideo w (Client.multipart file) []).1 →
  ∃ m,
    Client.handleVideoUpload b file s =
      (Normal tt,
       Client.mkApp [Client.system_message b ("❌ " +:+ m)]
                    (Client.newMessage s) None false (Client.isDragging s) 0 "") ∧
    (startsWith "video/" (Client.File_type file) = false →
     m = "Please select a valid video file") ∧
    (startsWith "video/" (Client.File_type file) = true →
     Client.File_type file ∉ VideoController.allowedTypes →
     m = "Only MP4, WebM and MOV video files are allowed").
Proof.
  intros Hfetch.
  unfold Client.handleVideoUpload, Client.upload_attempt. unfold_eff.
  destruct (startsWith "video/" (Client.File_type file)) eqn:Htype; cbn [negb fst snd].
  2:{ eexists. setters. split; [reflexivity|]. split; [reflexivity|discriminate]. }
  rewrite Hfetch.
  destruct (decide (Client.File_type file ∈ VideoController.allowedTypes)) as [Hin|Hout].
  - destruct (uploadVideo_response_shape w (Client.multipart file))
      as [(filename & path & size & mimetype & ->)|(e & He & ->)].
    + eexists. setters. split; [reflexivity|]. split; [discriminate|].
      intros _ Hout. contradiction.
    + eexists. setters. unfold Client.message_or. cbn.
      destruct (String.eqb e "") eqn:E; [apply String.eqb_eq in E; contradiction|].
      cbn. split; [reflexivity|]. split; [discriminate|]. intros _ Hout. contradiction.
  - unfold VideoController.uploadVideo, VideoController.upload,
      VideoController.fileFilter. unfold_eff.
    cbn [Client.multipart VideoController.video VideoController.mimetype].
    rewrite bool_decide_eq_false_2 by exact Hout.
    eexists. setters. split; [reflexivity|]. split; [discriminate|]. reflexivity.
Qed.

(** ** Generated file names *)

Lemma pretty_N_go_dash_free (x : N) :
  ∀ s, dash_free s = true → dash_free (pretty_N_go x s) = true.
Proof.
  induction (N.lt_wf_0 x) as [x _ IH]; intros s Hs.
  assert (x = 0 ∨ 0 < x)%N as [->|Hx] by lia.
  - rewrite pretty_N_go_0. exact Hs.
  - rewrite pretty_N_go_step by exact Hx. apply IH.
    + apply N.div_lt; [exact Hx|reflexivity].
    + cbn [dash_free]. rewrite Hs, andb_true_r.
      unfold pretty_N_char. repeat case_match; reflexivity.
Qed.

Lemma pretty_N_dash_free (x : N) : dash_free (pretty x) = true.
Proof.
  unfold pretty, pretty_N. destruct (decide (x = 0%N)); [reflexivity|].
  apply pretty_N_go_dash_free. reflexivity.
Qed.

Lemma split_at_dash (a a' r r' : string) :
  dash_free a = true → dash_free a' = true →
  a +:+ String "-" r = a' +:+ String "-" r' → a = a' ∧ r = r'.
Proof.
  revert a'. induction a as [|c a IH]; intros [|c' a'] Ha Ha' Heq; cbn in *.
  - injection Heq as ->. split; reflexivity.
  - injection Heq as <- _. cbn in Ha'. discriminate Ha'.
  - injection Heq as -> _. cbn in Ha. discriminate Ha.
  - injection Heq as -> Heq.
    apply andb_true_iff in Ha as [_ Ha]. apply andb_true_iff in Ha' as [_ Ha'].
    destruct (IH a' Ha Ha' Heq) as [-> ->]. split; reflexivity.
Qed.

Lemma length_append (a b : string) :
  String.length (a +:+ b) = String.length a + String.length b.
Proof. induction a as [|c a IH]; [reflexivity|]. simpl. f_equal. exact IH. Qed.

Lemma append_cancel_r (a b e : string) : a +:+ e = b +:+ e → a = b.
Proof.
  intros Heq.
  assert (String.length a = String.length b) as Hlen.
  { apply (f_equal String.length) in Heq. rewrite !length_append in Heq. lia. }
  revert b Heq Hlen. induction a as [|c a IH]; intros [|c' b] Heq Hlen;
    try discriminate Hlen; [reflexivity|].
  cbn in Heq. injection Heq as -> Heq. f_equal. apply IH; [exact Heq|].
  cbn in Hlen. lia.
Qed.

(** X2. Two generated names with the same extension are equal exactly
    when they were made at the same clock reading with the same random
    integer. *)
Theorem stored_names_collide (w w' : World)
    (file file' : VideoController.MultipartFile) :
  path_extname w (VideoController.originalname file) =
    path_extname w' (VideoController.originalname file') →
  (VideoController.filename w file = VideoController.filename w' file' ↔
   Date_now w = Date_now w' ∧ Math_random_1E9 w = Math_random_1E9 w').
Proof.
  intros Hext. unfold VideoController.filename. rewrite Hext. split.
  - intros Heq. apply append_cancel_r in Heq.
    apply split_at_dash in Heq as [Hnow Hrand]; try apply pretty_N_dash_free.
    split; apply (inj pretty); assumption.
  - intros [-> ->]. reflexivity.
Qed.

(** ** The broadcast channel *)


Lemma run_app (c : gset nat) (pre post : list Channel.Incoming) :
  Channel.run c (pre ++ post) =
  let '(c1, (o1, l1)) := Channel.run c pre in
  let '(c2, (o2, l2)) := Channel.run c1 post in
  (c2, (o1 ++ o2, l1 ++ l2)).
Proof.
  revert c. induction pre as [|ev pre IH]; intros c; cbn [Channel.run app].
  - destruct (Channel.run c post) as [c2 [o2 l2]]. reflexivity.
  - destruct (Channel.step c ev) as [c' [o l]]. rewrite IH.
    destruct (Channel.run c' pre) as [c1 [o1 l1]]. destruct (Channel.run c1 post) as [c2 [o2 l2]].
    rewrite !app_assoc. reflexivity.
Qed.

Lemma connected_origin (c : gset nat) (evs : list Channel.Incoming) (socket : nat) :
  socket ∈ (Channel.run c evs).1 → socket ∈ c ∨ Channel.OnConnection socket ∈ evs.
Proof.
  revert c. induction evs as [|ev evs IH]; intros c; cbn [Channel.run].
  - intros H. left. exact H.
  - destruct (Channel.step c ev) as [c' [o l]] eqn:Hstep.
    destruct (Channel.run c' evs) as [c2 [o2 l2]] eqn:Hrun. cbn [fst]. intros H.
    assert (socket ∈ (Channel.run c' evs).1) as H' by (rewrite Hrun; exact H).
    apply IH in H' as [H'|H']; [|right; apply list_elem_of_further, H'].
    destruct ev as [s|s x|s x|s]; cbn [Channel.step] in Hstep;
      try (destruct (decide (s ∈ c)); injection Hstep as <- _ _; [|left; exact H']).
    + injection Hstep as <- _ _. apply elem_of_union in H' as [Hnew|Hold].
      * apply elem_of_singleton in Hnew. subst socket. right. left.
      * left. exact Hold.
    + left. exact H'.
    + left. exact H'.
    + left. exact (proj1 (proj1 (elem_of_difference _ _ _) H')).
Qed.

Lemma emission_origin (c : gset nat) (evs : list Channel.Incoming) (e : Channel.Emission) :
  e ∈ (Channel.run c evs).2.1 →
  ∃ pre sender post,
    (evs = pre ++ Channel.OnChatMessage sender (Channel.payload e) :: post ∧ Channel.event e = "chat message" ∨
     evs = pre ++ Channel.OnVideoAnalysis sender (Channel.payload e) :: post ∧
     Channel.event e = "analysis result") ∧
    sender ∈ (Channel.run c pre).1 ∧ Channel.recipient e ∈ (Channel.run c pre).1.
Proof.
  revert c. induction evs as [|ev evs IH]; intros c; cbn [Channel.run].
  - cbn. intros H. apply elem_of_nil in H. contradiction.
  - destruct (Channel.step c ev) as [c' [o l]] eqn:Hstep.
    destruct (Channel.run c' evs) as [c2 [o2 l2]] eqn:Hrun. cbn [fst snd].
    intros H. apply elem_of_app in H as [H|H].
    + exists []. cbn [app Channel.run fst].
      destruct ev as [s|s x|s x|s]; cbn [Channel.step] in Hstep;
        try (destruct (decide (s ∈ c)) as [Hs|Hs]);
        injection Hstep as _ <- _; try (apply elem_of_nil in H; contradiction);
        unfold Channel.io_emit in H; apply list_elem_of_fmap in H as (r & -> & Hr);
        apply elem_of_elements in Hr; exists s, evs; cbn; auto.
    + assert (e ∈ (Channel.run c' evs).2.1) as H' by (rewrite Hrun; exact H).
      apply IH in H' as (pre & sender & post & Hev & Hs & Hr).
      exists (ev :: pre), sender, post. cbn [Channel.run app]. rewrite Hstep.
      destruct (Channel.run c' pre) as [c1 [o1 l1]]. cbn [fst] in *.
      split; [|split; assumption].
      destruct Hev as [[-> He]|[-> He]]; [left|right]; split; auto.
Qed.

(** X17. Everything the channel emits is a [chat message] or an
    [analysis result] whose payload is that of an earlier incoming
    [chat message] or [video analysis]; its sender and its recipient were
    both connected at that moment.  Nothing is emitted under the name
    [video analysis]. *)
Theorem emissions_are_scoped (evs : list Channel.Incoming) (e : Channel.Emission) :
  e ∈ Channel.emitted evs →
  ∃ pre sender post,
    (evs = pre ++ Channel.OnChatMessage sender (Channel.payload e) :: post ∧ Channel.event e = "chat message" ∨
     evs = pre ++ Channel.OnVideoAnalysis sender (Channel.payload e) :: post ∧
     Channel.event e = "analysis result") ∧
    sender ∈ Channel.connected_after pre ∧ Channel.recipient e ∈ Channel.connected_after pre ∧
    Channel.OnConnection sender ∈ pre ∧ Channel.OnConnection (Channel.recipient e) ∈ pre.
Proof.
  intros H. apply emission_origin in H as (pre & sender & post & Hev & Hs & Hr).
  exists pre, sender, post. repeat split; try assumption.
  - apply connected_origin in Hs as [Hs|Hs]; [set_solver|exact Hs].
  - apply connected_origin in Hr as [Hr|Hr]; [set_solver|exact Hr].
Qed.

(** X18. A [chat message] or [video analysis] from a connected client
    is emitted to every client connected at that moment, the sender
    included, with the payload as sent: the channel has no per-session
    scoping. *)
Theorem broadcast_reaches_everyone (pre post : list Channel.Incoming) (sender other : nat)
    (msg : JSON) :
  sender ∈ Channel.connected_after pre → other ∈ Channel.connected_after pre →
  {| Channel.recipient := other; Channel.event := "chat message"; Channel.payload := msg |}
    ∈ Channel.emitted (pre ++ Channel.OnChatMessage sender msg :: post) ∧
  {| Channel.recipient := other; Channel.event := "analysis result"; Channel.payload := msg |}
    ∈ Channel.emitted (pre ++ Channel.OnVideoAnalysis sender msg :: post).
Proof.
  unfold Channel.connected_after, Channel.emitted. intros Hs Ho.
  split; rewrite run_app; destruct (Channel.run ∅ pre) as [c1 [o1 l1]]; cbn [fst] in *;
    cbn [Channel.run Channel.step]; (destruct (decide (sender ∈ c1)); [|contradiction]);
    destruct (Channel.run c1 post) as [c2 [o2 l2]]; cbn [fst snd];
    apply elem_of_app; right; apply elem_of_app; left;
    unfold Channel.io_emit; apply list_elem_of_fmap; exists other;
    (split; [reflexivity|]); apply elem_of_elements; exact Ho.
Qed.

(** ** Concrete runs of the further properties *)

Lemma stored_names_collide_witness :
  VideoController.filename Fixture.validation_world Fixture.clip_webm =
    VideoController.filename Fixture.active_world Fixture.clip_webm ↔
  Date_now Fixture.validation_world = Date_now Fixture.active_world ∧
  Math_random_1E9 Fixture.validation_world = Math_random_1E9 Fixture.active_world.
Proof.
  apply (stored_names_collide Fixture.validation_world Fixture.active_world
           Fixture.clip_webm Fixture.clip_webm).
  reflexivity.
Defined.

Lemma analyzeVideo_relays_provider_witness :
  let run := VideoController.analyzeVideo Fixture.validation_world
               {| VideoController.analyze_filename := Some "clip.webm";
                  VideoController.analyze_prompt := Some "Describe this" |} [] in
  ∃ call, generate_calls run.2 = [call] ∧
    match model_generateContent Fixture.validation_world call with
    | Normal (Some {| response := Some (Normal t) |}) =>
      run.1 = Normal (success "analysis"
                        [("text", JStr t);
                         ("timestamp", JStr (Date_json Fixture.validation_world))])
    | Normal (Some {| response := Some (Throw m) |}) | Throw m =>
      run.1 = Normal (failure 500 (or_else m "Failed to analyze video"))
    | Normal (Some {| response := None |}) | Normal None =>
      run.1 = Normal (failure 500 "No response from AI model")
    end.
Proof.
  apply (analyzeVideo_relays_provider Fixture.validation_world "clip.webm"
           "Describe this" [Byte.x1a; Byte.x45; Byte.xdf; Byte.xa3]).
  - discriminate.
  - discriminate.
  - vm_compute. reflexivity.
Defined.

Lemma chatWithVideo_stateless_witness :
  let ask := fun chatHistory =>
    VideoController.chatWithVideo Fixture.validation_world
      (mkChatRequest (Some "clip.webm") (JStr "blob:http://localhost:5173/6f1c2a")
                     (Some "What happens?") chatHistory) [] in
  (ask (Other (NStr "not a list"))).1 =
    Normal (failure 500 "(chatHistory || []).filter is not a function") ∧
  generate_calls (ask (Other (NStr "not a list"))).2 = [] ∧
  (ask (Items [Some (Fixture.msg "user" "Hello"); None])).1 =
    Normal (failure 500 "Cannot read properties of null (reading 'sender')") ∧
  generate_calls (ask (Items [Some (Fixture.msg "user" "Hello"); None])).2 = [].
Proof.
  cbv zeta beta.
  destruct (chatWithVideo_stateless Fixture.validation_world "clip.webm"
              "What happens?" [Byte.x1a; Byte.x45; Byte.xdf; Byte.xa3])
    as (_ & _ & _ & H).
  destruct H as (_ & Hother & Hnull).
  - discriminate.
  - discriminate.
  - vm_compute. reflexivity.
  - destruct (Hother (JStr "blob:http://localhost:5173/6f1c2a") (NStr "not a list")
                eq_refl) as (H1 & H2).
    destruct (Hnull (JStr "blob:http://localhost:5173/6f1c2a")
                [Some (Fixture.msg "user" "Hello"); None]) as (H3 & H4).
    + apply list_elem_of_In. right. left. reflexivity.
    + repeat apply conj; [exact H1|exact H2|exact H3|exact H4].
Defined.

Lemma first_settled_state_decides_witness :
  let run := AiController.analyzeVideoContent Fixture.late_world
               Fixture.analyze_clip [] in
  sleeps run.2 = replicate 30 2000%Z ∧
  getFile_calls run.2 = 31 ∧
  (file_state (Fixture.remote (Fixture.late_active 30)) ≠ "ACTIVE" →
   run.1 = Normal (failure 500 ("Gemini API Error: Video processing failed - State: "
                                +:+ file_state (Fixture.remote (Fixture.late_active 30)))) ∧
   generate_calls run.2 = [] ∧ deleted_names run.2 = []) ∧
  (file_state (Fixture.remote (Fixture.late_active 30)) = "ACTIVE" →
   generate_calls run.2 =
     [AiController.pro_call Fixture.late_world
        [FileData (file_mimeType (Fixture.remote (Fixture.late_active 30)))
                  (file_uri (Fixture.remote (Fixture.late_active 30)));
         TextPart AiController.analysis_prompt]]).
Proof.
  apply (first_settled_state_decides Fixture.late_world Fixture.clip
           [Byte.x1a; Byte.x45; Byte.xdf; Byte.xa3] (Fixture.remote "PROCESSING")
           (fun n => Fixture.remote (Fixture.late_active n)) 30).
  - vm_compute. reflexivity.
  - discriminate.
  - vm_compute. reflexivity.
  - discriminate.
  - intros. reflexivity.
  - intros. reflexivity.
  - lia.
  - intros i Hi. unfold Fixture.late_active. simpl.
    destruct (Nat.ltb_spec i 30); [reflexivity|lia].
  - vm_compute. discriminate.
Defined.

Lemma generateResponse_relays_provider_witness :
  let ask := fun chatHistory =>
    AiController.generateResponse Fixture.chat_world
      (mkChatRequest (Some "clip.webm")
                     (JStr "https://provider.example/v1beta/files/abc123")
                     (Some "Is anyone else there?") chatHistory) [] in
  (∃ call, generate_calls (ask (Items (Some <$> Fixture.nine_messages))).2 = [call] ∧
     call_parts call =
       [FileData "video/mp4" "https://provider.example/v1beta/files/abc123";
        TextPart (AiController.chat_prompt "Is anyone else there?"
                    (VideoController.relabel <$> Fixture.nine_messages))] ∧
     match model_generateContent Fixture.chat_world call with
     | Normal (Some {| response := Some (Normal t) |}) =>
       (ask (Items (Some <$> Fixture.nine_messages))).1 =
         Normal (success "response"
                   [("text", JStr t);
                    ("timestamp", JStr (Date_json Fixture.chat_world));
                    ("type", JStr "chat-response")])
     | Normal (Some {| response := Some (Throw m) |}) | Throw m =>
       (ask (Items (Some <$> Fixture.nine_messages))).1 =
         Normal (failure 500 ("Gemini API Error: " +:+ m))
     | Normal (Some {| response := None |}) | Normal None =>
       (ask (Items (Some <$> Fixture.nine_messages))).1 =
         Normal (failure 500 "Gemini API Error: No response from Gemini API")
     end) ∧
  ask (Other (NStr "not a list")) =
    (Normal (failure 500 "chatHistory?.map is not a function"),
     [EConsole LOG "Generating response for:"; EConsole ERROR "Response Error:"]).
Proof.
  cbv zeta beta.
  destruct (generateResponse_relays_provider Fixture.chat_world
              "https://provider.example/v1beta/files/abc123" "Is anyone else there?"
              (Some "clip.webm"))
    as (Hrelay & Hother & _).
  - vm_compute. reflexivity.
  - discriminate.
  - discriminate.
  - split.
    + apply (Hrelay (Items (Some <$> Fixture.nine_messages)) Fixture.nine_messages).
      left. reflexivity.
    + apply (Hother (NStr "not a list")); discriminate.
Defined.

Lemma handleSendMessage_turn_witness :
  ∃ reply,
    Client.handleSendMessage Fixture.browser Fixture.asking =
      (Normal tt,
       Client.mkApp
         (Client.messages Fixture.asking ++
          [ {| text := Client.newMessage Fixture.asking; sender := "user";
               timestamp := Client.toISOString_now Fixture.browser |};
            {| text := reply.1; sender := reply.2;
               timestamp := Client.toISOString_now Fixture.browser |} ])
         "" (Client.selectedVideo Fixture.asking) false
         (Client.isDragging Fixture.asking) (Client.uploadProgress Fixture.asking)
         (Client.uploadStatus Fixture.asking)) ∧
    (reply.2 = "ai" ∨ reply.2 = "system" ∧ ∃ m, reply.1 = "❌ Error: " +:+ m).
Proof.
  apply (proj2 (proj2 (handleSendMessage_turn Fixture.browser Fixture.asking))).
  reflexivity.
Defined.

Lemma drop_and_select_differ_witness :
  Client.handleDrop Fixture.browser [Fixture.notes_file] Fixture.asking =
    (Normal tt, Client.setIsDragging false Fixture.asking) ∧
  Client.handleFileSelect Fixture.browser [Fixture.notes_file] Fixture.asking =
    (Normal tt,
     Client.mkApp
       [Client.system_message Fixture.browser "❌ Please select a valid video file"]
       (Client.newMessage Fixture.asking) None false
       (Client.isDragging Fixture.asking) 0 "").
Proof.
  apply (drop_and_select_differ Fixture.browser Fixture.notes_file [] Fixture.asking).
  reflexivity.
Defined.

Lemma wired_upload_never_selects_witness :
  ∃ m,
    Client.handleVideoUpload Fixture.browser Fixture.old_avi Fixture.asking =
      (Normal tt,
       Client.mkApp [Client.system_message Fixture.browser ("❌ " +:+ m)]
                    (Client.newMessage Fixture.asking) None false
                    (Client.isDragging Fixture.asking) 0 "") ∧
    (startsWith "video/" (Client.File_type Fixture.old_avi) = false →
     m = "Please select a valid video file") ∧
    (startsWith "video/" (Client.File_type Fixture.old_avi) = true →
     Client.File_type Fixture.old_avi ∉ VideoController.allowedTypes →
     m = "Only MP4, WebM and MOV video files are allowed").
Proof.
  apply (wired_upload_never_selects Fixture.validation_world Fixture.browser
           Fixture.old_avi Fixture.asking).
  reflexivity.
Defined.

Lemma emissions_are_scoped_witness :
  let evs := Fixture.two_clients ++ [Channel.OnChatMessage 1 (JStr "hi")] in
  let e := {| Channel.recipient := 2; Channel.event := "chat message";
              Channel.payload := JStr "hi" |} in
  ∃ pre sender post,
    (evs = pre ++ Channel.OnChatMessage sender (Channel.payload e) :: post ∧
     Channel.event e = "chat message" ∨
     evs = pre ++ Channel.OnVideoAnalysis sender (Channel.payload e) :: post ∧
     Channel.event e = "analysis result") ∧
    sender ∈ Channel.connected_after pre ∧
    Channel.recipient e ∈ Channel.connected_after pre ∧
    Channel.OnConnection sender ∈ pre ∧
    Channel.OnConnection (Channel.recipient e) ∈ pre.
Proof.
  cbv zeta.
  apply (emissions_are_scoped
           (Fixture.two_clients ++ [Channel.OnChatMessage 1 (JStr "hi")])).
  assert (Channel.emitted
            (Fixture.two_clients ++ [Channel.OnChatMessage 1 (JStr "hi")]) =
          [ {| Channel.recipient := 2; Channel.event := "chat message";
               Channel.payload := JStr "hi" |};
            {| Channel.recipient := 1; Channel.event := "chat message";
               Channel.payload := JStr "hi" |} ]) as ->
    by (vm_compute; reflexivity).
  left.
Defined.

Lemma broadcast_reaches_everyone_witness :
  {| Channel.recipient := 2; Channel.event := "chat message";
     Channel.payload := JStr "hi" |}
    ∈ Channel.emitted (Fixture.two_clients ++ [Channel.OnChatMessage 1 (JStr "hi")]) ∧
  {| Channel.recipient := 2; Channel.event := "analysis result";
     Channel.payload := JStr "hi" |}
    ∈ Channel.emitted (Fixture.two_clients ++ [Channel.OnVideoAnalysis 1 (JStr "hi")]).
Proof.
  apply (broadcast_reaches_everyone Fixture.two_clients [] 1 2 (JStr "hi"));
    apply (bool_decide_unpack _); vm_compute; reflexivity.
Defined.
